(** * qx.tool.compiler.Analyser: the class analyser, embedded in Rocq

    The development follows [lib/qx/tool/compiler/Analyser.js]:

    - [JsObj]: JavaScript objects used as string-keyed maps;
    - the staleness check of [getClassInfo] / [scanFile], and what
      [getClassInfo] does once it compiles;
    - the worklist of [analyseClasses] and the indirect-load lift that
      follows it;
    - the meta merger [updateMetaData] with its ancestor walk
      [analyseClassEntities] and the accessor synthesis
      [addPropertyAccessor];
    - [saveMetaData], [loadMetaData], [calcDescendants], [analyzeMeta];
    - the database file, the libraries, the locales, the environment
      checks and the translations. *)

From Stdlib Require Import List String Ascii Bool ZArith Lia.
Import ListNotations.
Open Scope string_scope.
Open Scope list_scope.

(** ** JavaScript objects as maps

    An object literal used as a map is a list of (key, value) pairs in
    insertion order: the analyser enumerates its maps ([for (k in o)],
    [Object.keys(o)]), and both the accessor synthesis and the saved JSON
    follow that order.  [get] is [o[k]], [set] is [o[k] = v] (an existing
    key keeps its position, a new one goes last), [keys] is
    [Object.keys(o)].  JavaScript enumerates keys that are array indices
    ("0", "1", ...) before all others; class, member and property names
    are not array indices, and no statement below depends on the position
    of such a key. *)
Module JsObj.

Definition t (A : Type) : Type := list (string * A).

Fixpoint get {A} (k : string) (o : t A) : option A :=
  match o with
  | [] => None
  | (k', v) :: o' => if String.eqb k k' then Some v else get k o'
  end.

Fixpoint set {A} (k : string) (v : A) (o : t A) : t A :=
  match o with
  | [] => [(k, v)]
  | (k', v') :: o' =>
      if String.eqb k k' then (k', v) :: o' else (k', v') :: set k v o'
  end.

Definition keys {A} (o : t A) : list string := map fst o.

Definition has {A} (k : string) (o : t A) : bool :=
  match get k o with Some _ => true | None => false end.

End JsObj.

(** JavaScript truthiness of a string: only the empty string is falsy. *)
Definition truthy (s : string) : bool :=
  match s with EmptyString => false | _ => true end.

(** ** The class database

    A [DbClassInfo] is one row of [db.classInfo].  [mtime] is what
    [dbClassInfo.mtime && new Date(dbClassInfo.mtime)] makes of the stored
    value: nothing when the value is missing or falsy, an invalid date
    (whose [getTime()] is NaN) or a date with its time in milliseconds. *)
Inductive MTime : Type :=
  | MTimeMissing
  | MTimeInvalid
  | MTimeAt (ms : Z).

(** One entry of [dependsOn]; an absent flag is [false]. *)
Record DepFlags : Type := mkDepFlags {
  load : bool;
  construct : bool;
  runtime : bool
}.

Record DbClassInfo : Type := mkDbClassInfo {
  mtime : MTime;
  libraryName : string;
  extends : option string;
  implement : option (list string);
  include : option (list string);
  dependsOn : option (JsObj.t DepFlags)
}.

Definition ClassInfoDb : Type := JsObj.t DbClassInfo.

(** ** getClassInfo: the staleness check

    What [getClassInfo] consults outside the database: the library lookup
    [getLibraryFromClassname] (a library is known by its namespace),
    [fs.stat] of the source file (by library and class name), [fs.exists]
    of the compiled file and of its meta file (the output path with "on"
    appended), and [fs.stat] of the compiled file.  Each call may fail on
    its own; [None] is an error result, a number the [mtime] in
    milliseconds. *)
Record World : Type := mkWorld {
  getLibraryFromClassname : string -> option string;
  stat_source : string -> string -> option Z;
  exists_output : string -> bool;
  exists_meta : string -> bool;
  stat_output : string -> option Z
}.

Inductive ClassInfoError : Type :=
  | ENOCLASSFILE
  | SourceStatFailed
  | OutputStatFailed.

(** How [getClassInfo] ends before the external compiler takes over:
    the cached row goes to the callback, the class is handed to
    [ClassFile.load] with the new minimal row and the copy of the old one, or
    an error goes to the callback. *)
Inductive Dispatch : Type :=
  | Cached (info : DbClassInfo)
  | Compile (newInfo : DbClassInfo) (oldInfo : option DbClassInfo)
  | Failed (e : ClassInfoError).

(** [dbMtime && dbMtime.getTime() == stat.mtime.getTime()] *)
Definition sameMTime (m : MTime) (stat : Z) : bool :=
  match m with
  | MTimeAt ms => Z.eqb ms stat
  | MTimeInvalid | MTimeMissing => false
  end.

Definition scanFile (db : ClassInfoDb) (className library : string)
    (stat : Z) (outputStat : option Z) : Dispatch :=
  let compile :=
    Compile (mkDbClassInfo (MTimeAt stat) library None None None None)
            (JsObj.get className db) in
  match JsObj.get className db, outputStat with
  | Some dbClassInfo, Some omtime =>
      if sameMTime (mtime dbClassInfo) stat then
        if Z.geb omtime stat then Cached dbClassInfo else compile
      else compile
  | _, _ => compile
  end.

Definition getClassInfo (w : World) (db : ClassInfoDb)
    (className : string) (forceScan : bool) : Dispatch :=
  match getLibraryFromClassname w className with
  | None => Failed ENOCLASSFILE
  | Some library =>
      match stat_source w library className with
      | None => Failed SourceStatFailed
      | Some stat =>
          if negb (exists_output w className) || forceScan then
            scanFile db className library stat None
          else if negb (exists_meta w className) then
            scanFile db className library stat None
          else
            match stat_output w className with
            | None => Failed OutputStatFailed
            | Some outputStat =>
                scanFile db className library stat (Some outputStat)
            end
      end
  end.

(** ** The indirect-load lift of analyseClasses

    [None] stands for the TypeError that [info.dependsOn] raises when
    [t.__db.classInfo[className]] is undefined; the exception leaves the
    [forEach] of the done-callback, so the run stops there. *)
Definition getConstructDependencies (db : ClassInfoDb) (className : string)
    : option (list string) :=
  match JsObj.get className db with
  | None => None
  | Some info =>
      match dependsOn info with
      | None => Some []
      | Some deps =>
          Some (map fst (filter (fun d => construct (snd d)) deps))
      end
  end.

(** The loop body of [getIndirectLoadDependencies] over the entries of
    [info.dependsOn]. *)
Fixpoint indirectLoadOf (db : ClassInfoDb) (deps : JsObj.t DepFlags)
    : option (list string) :=
  match deps with
  | [] => Some []
  | (depName, flags) :: rest =>
      if load flags then
        match getConstructDependencies db depName with
        | None => None
        | Some cs =>
            match indirectLoadOf db rest with
            | None => None
            | Some more => Some (cs ++ more)
            end
        end
      else indirectLoadOf db rest
  end.

Definition getIndirectLoadDependencies (db : ClassInfoDb)
    (className : string) : option (list string) :=
  match JsObj.get className db with
  | None => Some []
  | Some info =>
      match dependsOn info with
      | None => Some []
      | Some deps => indirectLoadOf db deps
      end
  end.

(** [info.dependsOn[depName].load = true], creating [dependsOn] and the
    entry when they are missing. *)
Definition setLoad (info : DbClassInfo) (depName : string) : DbClassInfo :=
  let deps := match dependsOn info with Some d => d | None => [] end in
  let flags :=
    match JsObj.get depName deps with
    | Some f => f
    | None => mkDepFlags false false false
    end in
  mkDbClassInfo (mtime info) (libraryName info) (extends info)
    (implement info) (include info)
    (Some (JsObj.set depName
             (mkDepFlags true (construct flags) (runtime flags)) deps)).

(** One turn of [classes.forEach] in the done-callback. *)
Definition liftClass (db : ClassInfoDb) (className : string)
    : option ClassInfoDb :=
  match getIndirectLoadDependencies db className with
  | None => None
  | Some deps =>
      match JsObj.get className db with
      | None => Some db
      | Some info => Some (JsObj.set className (fold_left setLoad deps info) db)
      end
  end.

Fixpoint liftIndirectLoad (db : ClassInfoDb) (classes : list string)
    : option ClassInfoDb :=
  match classes with
  | [] => Some db
  | className :: rest =>
      match liftClass db className with
      | None => None
      | Some db' => liftIndirectLoad db' rest
      end
  end.

(** [db.classInfo[C].dependsOn[D].load] as a boolean. *)
Definition loadFlag (db : ClassInfoDb) (c d : string) : bool :=
  match JsObj.get c db with
  | Some info =>
      match dependsOn info with
      | Some deps =>
          match JsObj.get d deps with Some f => load f | None => false end
      | None => false
      end
  | None => false
  end.

Definition constructFlag (db : ClassInfoDb) (c d : string) : bool :=
  match JsObj.get c db with
  | Some info =>
      match dependsOn info with
      | Some deps =>
          match JsObj.get d deps with Some f => construct f | None => false end
      | None => false
      end
  | None => false
  end.

(** ** Class meta

    The part of the [.meta.json] descriptor that the merger reads and
    writes.  A JSDoc block is an object from tag name to the list of its
    entries; a [Slot] tells a key that is absent from one that holds
    [null]. *)
Record DocTag : Type := mkDocTag {
  tag_name : string;
  tag_body : option string;
  tag_type : option string;
  tag_paramName : option string;
  tag_desc : option string
}.

Definition JsDoc : Type := JsObj.t (list DocTag).

Inductive Slot (A : Type) : Type :=
  | NoKey
  | IsNull
  | Is (a : A).
Arguments NoKey {A}.
Arguments IsNull {A}.
Arguments Is {A} a.

(** [appearsIn] is written as the table's map (class name to type) for a
    refined property and as [Object.keys] of it elsewhere. *)
Inductive AppearsIn : Type :=
  | AppearsInMap (m : JsObj.t string)
  | AppearsInKeys (l : list string).

Record MemberMeta : Type := mkMemberMeta {
  m_type : string;
  m_name : option string;
  m_abstract : option bool;
  m_mixin : option bool;
  m_inherited : option bool;
  m_access : option string;
  m_property : option string;
  m_overriddenFrom : Slot string;
  m_appearsIn : option (list string);
  m_jsdoc : option JsDoc
}.

Record PropertyMeta : Type := mkPropertyMeta {
  p_type : option string;
  p_name : option string;
  p_check : option string;
  p_async : bool;
  p_refine : bool;
  p_abstract : option bool;
  p_mixin : option bool;
  p_access : option string;
  p_overriddenFrom : Slot string;
  p_appearsIn : option AppearsIn;
  p_jsdoc : option JsDoc
}.

Inductive SuperClass : Type :=
  | NoSuperClass
  | SuperClassName (name : string)
  | SuperClassArray (names : list string).

Record Meta : Type := mkMeta {
  className : string;
  meta_type : string;
  superClass : SuperClass;
  interfaces : option (list string);
  mixins : option (list string);
  properties : option (JsObj.t PropertyMeta);
  members : option (JsObj.t MemberMeta);
  descendants : option (list string);
  meta_abstract : option bool
}.

(** A row of the working table [classEntities]. *)
Record EntityInfo : Type := mkEntityInfo {
  ei_appearsIn : JsObj.t string;
  ei_overriddenFrom : option string;
  ei_jsdoc : option JsDoc;
  ei_abstract : bool;
  ei_mixin : bool;
  ei_inherited : bool;
  ei_access : string;
  ei_property : option string;
  ei_interface : bool
}.

Record ClassEntities : Type := mkClassEntities {
  ce_members : JsObj.t EntityInfo;
  ce_properties : JsObj.t EntityInfo
}.

Definition truthyOpt (s : option string) : bool :=
  match s with Some v => truthy v | None => false end.

Definition nonEmpty {A} (l : option (list A)) : bool :=
  match l with Some (_ :: _) => true | _ => false end.

Definition hasSignature (jsdoc : option JsDoc) : bool :=
  match jsdoc with
  | None => false
  | Some j => nonEmpty (JsObj.get "@param" j) || nonEmpty (JsObj.get "@return" j)
  end.

(** [mergeSignature(src, meta)], on the [jsdoc] of the meta entry. *)
Definition mergeSignature (src : option JsDoc) (jsdoc : option JsDoc)
    : option JsDoc :=
  match src with
  | None => jsdoc
  | Some s =>
      if negb (hasSignature src) || hasSignature jsdoc then jsdoc
      else
        let j0 := match jsdoc with Some j => j | None => [] end in
        let j1 := match JsObj.get "@param" s with
                  | Some ps => JsObj.set "@param" ps j0
                  | None => j0
                  end in
        let j2 := match JsObj.get "@return" s with
                  | Some rs => JsObj.set "@return" rs j1
                  | None => j1
                  end in
        Some j2
  end.

Definition accessOf (entityName : string) : string :=
  if String.prefix "__" entityName then "private"
  else if String.prefix "_" entityName then "protected"
  else "public".

(** The body of the [for (let entityName in meta[entityTypeName])] loop of
    [analyseClassEntities], for an entity that passed the test
    [entityMeta.type === "function" || entityTypeName === "properties"]. *)
Definition recordEntity (meta : Meta) (first : bool) (entityName : string)
    (property : option string) (jsdoc : option JsDoc)
    (tbl : JsObj.t EntityInfo) : JsObj.t EntityInfo :=
  let isInterface := String.eqb (meta_type meta) "interface" in
  let isMixin := String.eqb (meta_type meta) "mixin" in
  let e0 :=
    match JsObj.get entityName tbl with
    | Some e => e
    | None =>
        mkEntityInfo [] None None isInterface isMixin (negb first)
          (accessOf entityName) None false
    end in
  let property1 := if truthyOpt property then property else ei_property e0 in
  let mixin1 := if isMixin && ei_abstract e0 then true else ei_mixin e0 in
  let abstract1 := if negb isInterface then false else ei_abstract e0 in
  let interface1 := if negb isInterface then ei_interface e0 else true in
  let appearsIn1 :=
    if negb first
    then JsObj.set (className meta) (meta_type meta) (ei_appearsIn e0)
    else ei_appearsIn e0 in
  let overriddenFrom1 :=
    if negb first && negb (truthyOpt (ei_overriddenFrom e0))
    then Some (className meta)
    else ei_overriddenFrom e0 in
  let jsdoc1 :=
    match ei_jsdoc e0 with
    | Some _ => ei_jsdoc e0
    | None => if hasSignature jsdoc then jsdoc else None
    end in
  JsObj.set entityName
    (mkEntityInfo appearsIn1 overriddenFrom1 jsdoc1 abstract1 mixin1
       (ei_inherited e0) (ei_access e0) property1 interface1)
    tbl.

Definition recordMembers (meta : Meta) (first : bool)
    (tbl : JsObj.t EntityInfo) : JsObj.t EntityInfo :=
  match members meta with
  | None => tbl
  | Some ms =>
      fold_left
        (fun t (kv : string * MemberMeta) =>
           if String.eqb (m_type (snd kv)) "function"
           then recordEntity meta first (fst kv)
                  (m_property (snd kv)) (m_jsdoc (snd kv)) t
           else t)
        ms tbl
  end.

(** Property entries carry no [property] key. *)
Definition recordProperties (meta : Meta) (first : bool)
    (tbl : JsObj.t EntityInfo) : JsObj.t EntityInfo :=
  match properties meta with
  | None => tbl
  | Some ps =>
      fold_left
        (fun t (kv : string * PropertyMeta) =>
           recordEntity meta first (fst kv) None (p_jsdoc (snd kv)) t)
        ps tbl
  end.

Definition recordEntities (meta : Meta) (first : bool)
    (tbl : ClassEntities) : ClassEntities :=
  mkClassEntities (recordMembers meta first (ce_members tbl))
                  (recordProperties meta first (ce_properties tbl)).

(** ** Property accessor synthesis *)

Definition nl : string := String (ascii_of_nat 10) EmptyString.

Definition descriptionJsDoc (desc : string) : JsDoc :=
  [("@description", [mkDocTag "@description" (Some desc) None None None])].

(** [propertyMeta.name] inside a string concatenation. *)
Definition nameText (propertyMeta : PropertyMeta) : string :=
  match p_name propertyMeta with Some n => n | None => "undefined" end.

(** The row that [addPropertyAccessor] builds; [entityInfo] is the row it
    found under [methodName].  [entityInfo.appearsIn[0]] reads the key "0"
    of the map. *)
Definition newAccessorInfo (propertyMeta : PropertyMeta) (first : bool)
    (entityInfo : option EntityInfo) (accessorType : string)
    (returnType valueType : option string) (desc : string) : EntityInfo :=
  let appearsIn :=
    match entityInfo with Some e => ei_appearsIn e | None => [] end in
  let overriddenFrom :=
    match entityInfo with
    | Some e =>
        match JsObj.get "0" (ei_appearsIn e) with
        | Some ty => if truthy ty then Some ty else None
        | None => None
        end
    | None => None
    end in
  let jsdoc0 := descriptionJsDoc desc in
  let jsdoc1 :=
    match returnType with
    | Some ty =>
        if truthy ty then
          JsObj.set "@return"
            [mkDocTag "@return" None (Some ty) None
               (Some (String.append "Returns the value for "
                        (nameText propertyMeta)))]
            jsdoc0
        else jsdoc0
    | None => jsdoc0
    end in
  let jsdoc2 :=
    match valueType with
    | Some ty =>
        if truthy ty then
          JsObj.set "@param"
            [mkDocTag "@param" None (Some ty) (Some "value")
               (Some (String.append "Value for " (nameText propertyMeta)))]
            jsdoc1
        else jsdoc1
    | None => jsdoc1
    end in
  mkEntityInfo appearsIn overriddenFrom (Some jsdoc2) false
    (match p_mixin propertyMeta with Some b => b | None => false end)
    (negb first) "public" (Some accessorType) false.

(** [!entityInfo || entityInfo.abstract] *)
Definition absentOrAbstract (entityInfo : option EntityInfo) : bool :=
  match entityInfo with None => true | Some e => ei_abstract e end.

Definition addPropertyAccessor (first : bool) (propertyMeta : PropertyMeta)
    (methodName accessorType : string) (returnType valueType : option string)
    (desc : string) (tbl : JsObj.t EntityInfo) : JsObj.t EntityInfo :=
  let entityInfo := JsObj.get methodName tbl in
  if absentOrAbstract entityInfo then
    JsObj.set methodName
      (newAccessorInfo propertyMeta first entityInfo accessorType
         returnType valueType desc)
      tbl
  else tbl.

Definition linkLine (propertyName : string) : string :=
  String.append "For further details take a look at the property definition: {@link #"
    (String.append propertyName "}.").

Definition getterDescription (propertyName : string) : string :=
  String.append "Gets the (computed) value of the property <code>"
    (String.append propertyName
       (String.append "</code>."
          (String.append nl (String.append nl (linkLine propertyName))))).

Definition setterDescription (propertyName : string) : string :=
  String.append "Sets the user value of the property <code>"
    (String.append propertyName
       (String.append "</code>."
          (String.append nl (String.append nl (linkLine propertyName))))).

Definition resetDescription (propertyName : string) : string :=
  String.append "Resets the user value of the property <code>"
    (String.append propertyName
       (String.append "</code>."
          (String.append nl
             (String.append nl
                (String.append
                   "The computed value falls back to the next available value e.g. appearance, init or inheritance value depending on the property configuration and value availability."
                   (String.append nl
                      (String.append nl (linkLine propertyName)))))))).

Definition asyncGetterDescription (propertyName : string) : string :=
  String.append
    "Returns a {@link qx.Promise} which resolves to the (computed) value of the property <code>"
    (String.append propertyName
       (String.append "</code>."
          (String.append nl (linkLine propertyName)))).

Definition asyncSetterDescription (propertyName : string) : string :=
  String.append "Sets the user value of the property <code>"
    (String.append propertyName
       (String.append
          "</code>, returns a {@link qx.Promise} which resolves when the value change has fully completed (in the case where there are asynchronous apply methods or events)."
          (String.append nl (String.append nl (linkLine propertyName))))).

(** One call of [addPropertyAccessor], as the loop over [meta.properties]
    issues it. *)
Record AccessorCall : Type := mkAccessorCall {
  methodName : string;
  accessorType : string;
  returnType : option string;
  valueType : option string;
  desc : string
}.

(** The three ways a step of the run ends: it returns, it throws, or (for
    the ancestor walk) it does not return within the fuel. *)
Inductive Run (A : Type) : Type :=
  | Done (a : A)
  | Throws (message : string)
  | NoReturn.
Arguments Done {A} a.
Arguments Throws {A} message.
Arguments NoReturn {A}.

Section Merger.

(** [qx.lang.String.firstUp], from the qooxdoo framework: the string with
    its first character in upper case. *)
Variable firstUp : string -> string.

(** [qx.tool.compiler.jsdoc.Parser.parseJsDoc(jsdoc, classname, analyser)],
    which rewrites a JSDoc block in place. *)
Variable parseJsDoc : JsDoc -> string -> JsDoc.

(** The calls of one turn of [for (let propertyName in meta.properties)],
    in order. *)
Definition accessorCalls (propertyName : string) (propertyMeta : PropertyMeta)
    : list AccessorCall :=
  let upname := firstUp propertyName in
  let type :=
    match p_check propertyMeta with
    | Some c => if truthy c then c else "any"
    | None => "any"
    end in
  let isBoolean := String.eqb type "Boolean" in
  let msg := getterDescription propertyName in
  let amsg := asyncGetterDescription propertyName in
  [mkAccessorCall (String.append "get" upname) "get" (Some type) None msg]
  ++ (if isBoolean
      then [mkAccessorCall (String.append "is" upname) "is" (Some type) None msg]
      else [])
  ++ [mkAccessorCall (String.append "set" upname) "set" None (Some type)
        (setterDescription propertyName);
      mkAccessorCall (String.append "reset" upname) "reset" None None
        (resetDescription propertyName)]
  ++ (if p_async propertyMeta then
        [mkAccessorCall (String.append "get" (String.append upname "Async"))
           "getAsync" (Some "Promise") None amsg]
        ++ (if isBoolean
            then [mkAccessorCall
                    (String.append "is" (String.append upname "Async"))
                    "isAsync" (Some "Promise") None amsg]
            else [])
        ++ [mkAccessorCall (String.append "set" (String.append upname "Async"))
              "setAsync" (Some "Promise") (Some type)
              (asyncSetterDescription propertyName)]
      else []).

Definition applyAccessorCall (first : bool) (propertyMeta : PropertyMeta)
    (tbl : JsObj.t EntityInfo) (c : AccessorCall) : JsObj.t EntityInfo :=
  addPropertyAccessor first propertyMeta (methodName c) (accessorType c)
    (returnType c) (valueType c) (desc c) tbl.

(** The [if (meta.properties)] block that ends [analyseClassEntities]. *)
Definition synthesizeAccessors (meta : Meta) (first : bool)
    (tbl : JsObj.t EntityInfo) : JsObj.t EntityInfo :=
  match properties meta with
  | None => tbl
  | Some ps =>
      fold_left
        (fun t (kv : string * PropertyMeta) =>
           fold_left (applyAccessorCall first (snd kv))
             (accessorCalls (fst kv) (snd kv)) t)
        ps tbl
  end.

(** ** The ancestor walk

    [loadMeta] is [loadMetaData] against the cache and the meta files of the
    run.  The source recurses without a visited set, so the walk does not
    return on a cyclic ancestry; [fuel] bounds the depth, and [None] is a
    walk that did not return within it. *)
Fixpoint walkNames (visit : Meta -> ClassEntities -> option ClassEntities)
    (loadMeta : string -> option Meta) (names : list string)
    (tbl : ClassEntities) : option ClassEntities :=
  match names with
  | [] => Some tbl
  | name :: rest =>
      match loadMeta name with
      | None => walkNames visit loadMeta rest tbl
      | Some meta =>
          match visit meta tbl with
          | None => None
          | Some tbl' => walkNames visit loadMeta rest tbl'
          end
      end
  end.

Definition superClassNames (s : SuperClass) : list string :=
  match s with
  | NoSuperClass => []
  | SuperClassName name => if truthy name then [name] else []
  | SuperClassArray names => names
  end.

Definition optList {A} (l : option (list A)) : list A :=
  match l with Some x => x | None => [] end.

(** The three loops of [analyseClassEntities] over [meta.interfaces],
    [meta.mixins] and [meta.superClass], in that order. *)
Definition walkAncestors
    (visit : Meta -> ClassEntities -> option ClassEntities)
    (loadMeta : string -> option Meta) (meta : Meta) (tbl : ClassEntities)
    : option ClassEntities :=
  match walkNames visit loadMeta (optList (interfaces meta)) tbl with
  | None => None
  | Some tbl2 =>
      match walkNames visit loadMeta (optList (mixins meta)) tbl2 with
      | None => None
      | Some tbl3 =>
          walkNames visit loadMeta (superClassNames (superClass meta)) tbl3
      end
  end.

Fixpoint analyseClassEntities (fuel : nat) (loadMeta : string -> option Meta)
    (meta : Meta) (first : bool) (tbl : ClassEntities)
    : option ClassEntities :=
  match fuel with
  | O => None
  | S fuel' =>
      match walkAncestors
              (fun m t => analyseClassEntities fuel' loadMeta m false t)
              loadMeta meta (recordEntities meta first tbl) with
      | None => None
      | Some tbl4 =>
          Some (mkClassEntities
                  (synthesizeAccessors meta first (ce_members tbl4))
                  (ce_properties tbl4))
      end
  end.

Definition emptyEntities : ClassEntities := mkClassEntities [] [].

(** The table of [updateMetaData] as the class's own accessor synthesis
    finds it: the class and all its ancestors are recorded, and the
    ancestors' properties have their accessors. *)
Definition beforeOwnSynthesis (fuel : nat) (loadMeta : string -> option Meta)
    (meta : Meta) : option ClassEntities :=
  match fuel with
  | O => None
  | S fuel' =>
      walkAncestors (fun m t => analyseClassEntities fuel' loadMeta m false t)
        loadMeta meta (recordEntities meta true emptyEntities)
  end.

(** ** Write-back to meta *)

Definition slotOf (o : option string) : Slot string :=
  match o with Some s => Is s | None => IsNull end.

(** [!x.overriddenFrom] on a meta entry. *)
Definition slotFalsy (s : Slot string) : bool :=
  match s with Is v => negb (truthy v) | _ => true end.

(** [info.appearsIn.length]: the key "length" of the map. *)
Definition appearsInLength (e : EntityInfo) : bool :=
  truthyOpt (JsObj.get "length" (ei_appearsIn e)).

(** First loop over [meta.properties]: refined properties take
    [overriddenFrom], [appearsIn] and a missing signature from the table. *)
Definition refineProperty (tbl : ClassEntities)
    (kv : string * PropertyMeta) : string * PropertyMeta :=
  let pm := snd kv in
  if p_refine pm then
    match JsObj.get (fst kv) (ce_properties tbl) with
    | Some result =>
        (fst kv,
         mkPropertyMeta (p_type pm) (p_name pm) (p_check pm) (p_async pm)
           (p_refine pm) (p_abstract pm) (p_mixin pm) (p_access pm)
           (slotOf (ei_overriddenFrom result))
           (Some (AppearsInMap (ei_appearsIn result)))
           (mergeSignature (ei_jsdoc result) (p_jsdoc pm)))
    | None => kv
    end
  else kv.

(** The entry that the second loop stores under [propertyName]. *)
Definition materializedProperty (propertyName : string)
    (propertyInfo : EntityInfo) : PropertyMeta :=
  mkPropertyMeta (Some "property") (Some propertyName) None false false
    (Some (ei_abstract propertyInfo)) (Some (ei_mixin propertyInfo))
    (Some (ei_access propertyInfo))
    (if truthyOpt (ei_overriddenFrom propertyInfo)
     then slotOf (ei_overriddenFrom propertyInfo) else NoKey)
    (if appearsInLength propertyInfo
     then match JsObj.keys (ei_appearsIn propertyInfo) with
          | [] => None
          | ks => Some (AppearsInKeys ks)
          end
     else None)
    (ei_jsdoc propertyInfo).

(** Second loop: [meta.properties[propertyInfo]] converts the row object to
    the key "[object Object]". *)
Definition materializeProperty (props : JsObj.t PropertyMeta)
    (kv : string * EntityInfo) : JsObj.t PropertyMeta :=
  let propertyInfo := snd kv in
  if (ei_abstract propertyInfo || ei_mixin propertyInfo)
     && negb (JsObj.has "[object Object]" props)
  then JsObj.set (fst kv) (materializedProperty (fst kv) propertyInfo) props
  else props.

Definition writeBackProperties (tbl : ClassEntities)
    (props : option (JsObj.t PropertyMeta)) : option (JsObj.t PropertyMeta) :=
  match props with
  | None => None
  | Some ps =>
      Some (fold_left materializeProperty (ce_properties tbl)
              (map (refineProperty tbl) ps))
  end.

(** First loop over [meta.members]. *)
Definition mergeMember (tbl : ClassEntities)
    (kv : string * MemberMeta) : string * MemberMeta :=
  let mm := snd kv in
  if String.eqb (m_type mm) "function" then
    match JsObj.get (fst kv) (ce_members tbl) with
    | Some result =>
        (fst kv,
         mkMemberMeta (m_type mm) (m_name mm) (m_abstract mm) (m_mixin mm)
           (m_inherited mm) (m_access mm) (m_property mm)
           (slotOf (ei_overriddenFrom result))
           (Some (JsObj.keys (ei_appearsIn result)))
           (mergeSignature (ei_jsdoc result) (m_jsdoc mm)))
    | None => kv
    end
  else kv.

Definition materializedMember (memberName : string)
    (memberInfo : EntityInfo) : MemberMeta :=
  mkMemberMeta "function" (Some memberName)
    (Some (ei_abstract memberInfo)) (Some (ei_mixin memberInfo))
    (Some (ei_inherited memberInfo)) (Some (ei_access memberInfo))
    (if truthyOpt (ei_property memberInfo) then ei_property memberInfo
     else None)
    (slotOf (ei_overriddenFrom memberInfo))
    (if appearsInLength memberInfo
     then Some (JsObj.keys (ei_appearsIn memberInfo)) else None)
    (ei_jsdoc memberInfo).

Definition setType (t : string) (mm : MemberMeta) : MemberMeta :=
  mkMemberMeta t (m_name mm) (m_abstract mm) (m_mixin mm) (m_inherited mm)
    (m_access mm) (m_property mm) (m_overriddenFrom mm) (m_appearsIn mm)
    (m_jsdoc mm).

(** Second loop over [classEntities.members]; the state is [meta.members]
    and [meta.abstract]. *)
Definition materializeMember
    (st : JsObj.t MemberMeta * option bool) (kv : string * EntityInfo)
    : JsObj.t MemberMeta * option bool :=
  let memberInfo := snd kv in
  match JsObj.get (fst kv) (fst st) with
  | Some memberMeta =>
      if String.eqb (m_type memberMeta) "variable"
      then (JsObj.set (fst kv) (setType "function" memberMeta) (fst st), snd st)
      else st
  | None =>
      if ei_abstract memberInfo || ei_mixin memberInfo
         || truthyOpt (ei_property memberInfo)
      then (JsObj.set (fst kv) (materializedMember (fst kv) memberInfo) (fst st),
            if ei_abstract memberInfo then Some true else snd st)
      else st
  end.

(** Third loop: empty [appearsIn] and falsy [overriddenFrom] are deleted. *)
Definition cleanMember (kv : string * MemberMeta) : string * MemberMeta :=
  let mm := snd kv in
  (fst kv,
   mkMemberMeta (m_type mm) (m_name mm) (m_abstract mm) (m_mixin mm)
     (m_inherited mm) (m_access mm) (m_property mm)
     (if slotFalsy (m_overriddenFrom mm) then NoKey else m_overriddenFrom mm)
     (match m_appearsIn mm with Some [] => None | a => a end)
     (m_jsdoc mm)).

Definition writeBack (tbl : ClassEntities) (meta : Meta) : Meta :=
  let props := writeBackProperties tbl (properties meta) in
  let ms0 := map (mergeMember tbl) (optList (members meta)) in
  let st := fold_left materializeMember (ce_members tbl)
              (ms0, meta_abstract meta) in
  let ms := map cleanMember (fst st) in
  mkMeta (className meta) (meta_type meta) (superClass meta)
    (interfaces meta) (mixins meta) props
    (match ms with [] => None | _ => Some ms end)
    (descendants meta) (snd st).

Definition updateMetaData (fuel : nat) (loadMeta : string -> option Meta)
    (meta : Meta) : option Meta :=
  match analyseClassEntities fuel loadMeta meta true emptyEntities with
  | None => None
  | Some tbl => Some (writeBack tbl meta)
  end.

(** ** Pass 1: JSDoc fixup

    [fixupMetaData] parses the JSDoc of every entry in place.  Of the
    sections it visits, [properties] and [members] are part of [Meta]; the
    merger reads nothing of [events], [statics], [clazz], [construct],
    [destruct] and [defer]. *)
Definition fixupJsDoc (classname : string) (jsdoc : option JsDoc)
    : option JsDoc :=
  match jsdoc with
  | Some j => Some (parseJsDoc j classname)
  | None => None
  end.

Definition fixupProperty (classname : string) (pm : PropertyMeta)
    : PropertyMeta :=
  mkPropertyMeta (p_type pm) (p_name pm) (p_check pm) (p_async pm)
    (p_refine pm) (p_abstract pm) (p_mixin pm) (p_access pm)
    (p_overriddenFrom pm) (p_appearsIn pm) (fixupJsDoc classname (p_jsdoc pm)).

Definition fixupMember (classname : string) (mm : MemberMeta) : MemberMeta :=
  mkMemberMeta (m_type mm) (m_name mm) (m_abstract mm) (m_mixin mm)
    (m_inherited mm) (m_access mm) (m_property mm) (m_overriddenFrom mm)
    (m_appearsIn mm) (fixupJsDoc classname (m_jsdoc mm)).

Definition fixupSection {A} (f : A -> A) (section : option (JsObj.t A))
    : option (JsObj.t A) :=
  match section with
  | Some s => Some (map (fun kv => (fst kv, f (snd kv))) s)
  | None => None
  end.

Definition fixupMetaData (classname : string) (meta : Meta) : Meta :=
  mkMeta (className meta) (meta_type meta) (superClass meta)
    (interfaces meta) (mixins meta)
    (fixupSection (fixupProperty classname) (properties meta))
    (fixupSection (fixupMember classname) (members meta))
    (descendants meta) (meta_abstract meta).

(** ** The meta cache and the meta files

    [cachedMeta] holds the live meta of the classes compiled in this run
    ([null] when a class file produced none); [metaFiles] are the
    [.meta.json] files by class name; [metaWrittenLog] is the log of
    [saveMetaData]; [writes] lists the calls of [writeFile], oldest first.
    A meta read from its file is cached by the source as well; the files do
    not change before the final save and a cached ancestor is never
    modified by a merge, so reading the file again gives the same meta and
    the cache of file reads is left out of the state. *)
Record MetaStore : Type := mkMetaStore {
  cachedMeta : JsObj.t (option Meta);
  metaFiles : JsObj.t Meta;
  metaWrittenLog : JsObj.t bool;
  writes : list string
}.

Definition isRootName (classname : string) : bool :=
  String.eqb classname "Object" || String.eqb classname "Array"
  || String.eqb classname "Error".

Definition loadMetaData (st : MetaStore) (classname : string)
    : option Meta :=
  if isRootName classname then None
  else
    match JsObj.get classname (cachedMeta st) with
    | Some (Some meta) => Some meta
    | _ => JsObj.get classname (metaFiles st)
    end.

Definition saveMetaData (st : MetaStore) (classname : string) (meta : Meta)
    : Run MetaStore :=
  match JsObj.get classname (metaWrittenLog st) with
  | Some true =>
      Throws (String.append " *** ERRROR *** Writing "
                (String.append classname " more than once"))
  | _ =>
      Done (mkMetaStore (cachedMeta st)
              (JsObj.set classname meta (metaFiles st))
              (JsObj.set classname true (metaWrittenLog st))
              (writes st ++ [classname]))
  end.

(** [tmp.extends == classname] *)
Definition extendsClass (classname : string) (tmp : DbClassInfo) : bool :=
  match extends tmp with
  | Some e => String.eqb e classname
  | None => false
  end.

Definition descendantsOf (db : ClassInfoDb) (classname : string)
    : list string :=
  map fst (filter (fun kv => extendsClass classname (snd kv)) db).

Definition calcDescendants (db : ClassInfoDb) (classname : string)
    (meta : Meta) : Meta :=
  mkMeta (className meta) (meta_type meta) (superClass meta)
    (interfaces meta) (mixins meta) (properties meta) (members meta)
    (Some (descendantsOf db classname)) (meta_abstract meta).

(** ** The compiledClass listener of analyseClasses *)
Record CompiledClass : Type := mkCompiledClass {
  dbClassInfo : DbClassInfo;
  oldDbClassInfo : option DbClassInfo;
  classFile_getClassName : string;
  classFile_getOuterClassMeta : option Meta
}.

Definition markAll (names : list string) (fixups : JsObj.t bool)
    : JsObj.t bool :=
  fold_left (fun f name => JsObj.set name true f) names fixups.

Definition markAncestors (info : DbClassInfo) (fixups : JsObj.t bool)
    : JsObj.t bool :=
  let f1 := match extends info with
            | Some e => if truthy e then JsObj.set e true fixups else fixups
            | None => fixups
            end in
  let f2 := markAll (optList (implement info)) f1 in
  markAll (optList (include info)) f2.

Record Collected : Type := mkCollected {
  compiledClasses : JsObj.t CompiledClass;
  metaFixupDescendants : JsObj.t bool
}.

Definition onCompiledClass (c : Collected) (data : CompiledClass)
    : Collected :=
  let f1 := match oldDbClassInfo data with
            | Some old => markAncestors old (metaFixupDescendants c)
            | None => metaFixupDescendants c
            end in
  mkCollected
    (JsObj.set (classFile_getClassName data) data (compiledClasses c))
    (markAncestors (dbClassInfo data) f1).

Definition collect (events : list CompiledClass) : Collected :=
  fold_left onCompiledClass events (mkCollected [] []).

(** ** analyzeMeta *)

Definition setCached (st : MetaStore) (classname : string)
    (meta : option Meta) : MetaStore :=
  mkMetaStore (JsObj.set classname meta (cachedMeta st)) (metaFiles st)
    (metaWrittenLog st) (writes st).

(** First loop: the live meta of each compiled class enters the cache,
    after its JSDoc fixup. *)
Definition stageMeta (st : MetaStore) (kv : string * CompiledClass)
    : MetaStore :=
  setCached st (fst kv)
    (match classFile_getOuterClassMeta (snd kv) with
     | Some meta => Some (fixupMetaData (fst kv) meta)
     | None => None
     end).

(** Second loop: merge, recompute the descendants, queue for saving. *)
Fixpoint mergeCompiled (fuel : nat) (db : ClassInfoDb)
    (names : list string) (st : MetaStore) (toSave : JsObj.t Meta)
    : option (MetaStore * JsObj.t Meta) :=
  match names with
  | [] => Some (st, toSave)
  | classname :: rest =>
      match JsObj.get classname (cachedMeta st) with
      | Some (Some meta) =>
          match updateMetaData fuel (loadMetaData st) meta with
          | None => None
          | Some merged =>
              let meta' := calcDescendants db classname merged in
              mergeCompiled fuel db rest
                (setCached st classname (Some meta'))
                (JsObj.set classname meta' toSave)
          end
      | _ => mergeCompiled fuel db rest st toSave
      end
  end.

(** Third loop: classes named as ancestors that were not compiled. *)
Definition fixupDescendants (db : ClassInfoDb)
    (compiled : JsObj.t CompiledClass) (st : MetaStore)
    (toSave : JsObj.t Meta) (classname : string) : JsObj.t Meta :=
  if negb (JsObj.has classname compiled) && JsObj.has classname db then
    match loadMetaData st classname with
    | Some meta => JsObj.set classname (calcDescendants db classname meta) toSave
    | None => toSave
    end
  else toSave.

Fixpoint saveAll (st : MetaStore) (toSave : list (string * Meta))
    : Run MetaStore :=
  match toSave with
  | [] => Done st
  | (classname, meta) :: rest =>
      match saveMetaData st classname meta with
      | Done st' => saveAll st' rest
      | Throws m => Throws m
      | NoReturn => NoReturn
      end
  end.

(** [analyzeMeta], from the listener's collections, the database and the
    meta files as the worklist left them; [metaWrittenLog] and [cachedMeta]
    start empty with each call of [analyseClasses]. *)
Definition analyzeMeta (fuel : nat) (db : ClassInfoDb) (c : Collected)
    (files : JsObj.t Meta) : Run MetaStore :=
  let st0 := mkMetaStore [] files [] [] in
  let st1 := fold_left stageMeta (compiledClasses c) st0 in
  match mergeCompiled fuel db (JsObj.keys (compiledClasses c)) st1 [] with
  | None => NoReturn
  | Some (st2, toSave) =>
      let toSave' :=
        fold_left (fixupDescendants db (compiledClasses c) st2)
          (JsObj.keys (metaFixupDescendants c)) toSave in
      saveAll st2 toSave'
  end.

End Merger.

(** ** Around analyseClasses

    The members of [qx.tool.compiler.Analyser] around [analyseClasses]:
    the worklist and what [getClassInfo] does once it has decided to
    compile, the registry of libraries, the locales, the environment
    checks, the database file and the translations.  Each function takes
    the instance fields it reads and returns those it writes.  The maps of
    this part are keyed by class names, namespaces, locale ids, environment
    keys and message ids; none of them is taken to be a property name of
    [Object.prototype]. *)

(** ** The list of required classes

    [indexOf(name) == -1] followed by [push(name)]. *)
Definition pushNew (name : string) (names : list string) : list string :=
  if existsb (String.eqb name) names then names else names ++ [name].

(** [__classes] is [null] until [analyseClasses] runs or a class is
    required. *)
Definition _addRequiredClass (classes : option (list string))
    (className : string) : option (list string) :=
  Some (pushNew className (optList classes)).

Definition getDependentClasses (classes : option (list string))
    : option (list string) := classes.

(** ** getClassInfo: compiling

    What the analyser sees of a [qx.tool.compiler.ClassFile]: whether
    [load] hands an error to its callback (with the error's [code], if it
    has one), the files as [load] leaves them, what [writeDbInfo] makes of
    the row it is given, and the answers of [getClassName] and
    [getOuterClassMeta]. *)
Inductive LoadResult : Type :=
  | Loaded
  | LoadFails (code : option string).

Record ClassFile : Type := mkClassFile {
  classFile_load : LoadResult;
  classFile_files : World;
  classFile_writeDbInfo : DbClassInfo -> DbClassInfo;
  classFile_className : string;
  classFile_outerClassMeta : option Meta
}.

(** The errors that reach the callback of [getClassInfo]: its own, and
    those of [classFile.load]. *)
Inductive ScanError : Type :=
  | InfoError (e : ClassInfoError)
  | LoadError (code : option string).

(** [err.code === "ENOCLASSFILE"]; the errors of [fs.stat] carry the code
    of the system call. *)
Definition isNoClassFile (err : ScanError) : bool :=
  match err with
  | InfoError ENOCLASSFILE => true
  | InfoError _ => false
  | LoadError (Some code) => String.eqb code "ENOCLASSFILE"
  | LoadError None => false
  end.

(** What [getClassInfo] hands to its callback: [cb(null, dbClassInfo)] or
    [cb(err)]. *)
Inductive ClassInfoResult : Type :=
  | GotInfo (info : DbClassInfo)
  | GotError (err : ScanError).

Section ClassInfoRun.

(** [new qx.tool.compiler.ClassFile(t, className, library)], for the files
    and the database as they are at that moment; the library is given by
    its namespace.  A class file writes to the database through
    [writeDbInfo] only. *)
Variable newClassFile : World -> ClassInfoDb -> string -> string -> ClassFile.

(** The second half of [scanFile]: the new row replaces the old one, the
    class file is loaded, and on success [writeDbInfo] fills the row and
    "compiledClass" is fired with the filled row and the copy of the old
    one.  The result is the files, the database, the callback's arguments
    and the data of the event, if it was fired. *)
Definition compileClass (w : World) (db : ClassInfoDb) (className : string)
    (newInfo : DbClassInfo) (oldInfo : option DbClassInfo)
    : World * ClassInfoDb * ClassInfoResult * option CompiledClass :=
  let db1 := JsObj.set className newInfo db in
  let classFile := newClassFile w db1 className (libraryName newInfo) in
  match classFile_load classFile with
  | LoadFails code =>
      (classFile_files classFile, db1, GotError (LoadError code), None)
  | Loaded =>
      let dbClassInfo := classFile_writeDbInfo classFile newInfo in
      (classFile_files classFile,
       JsObj.set className dbClassInfo db1,
       GotInfo dbClassInfo,
       Some (mkCompiledClass dbClassInfo oldInfo
               (classFile_className classFile)
               (classFile_outerClassMeta classFile)))
  end.

Definition getClassInfoRun (w : World) (db : ClassInfoDb)
    (className : string) (forceScan : bool)
    : World * ClassInfoDb * ClassInfoResult * option CompiledClass :=
  match getClassInfo w db className forceScan with
  | Cached info => (w, db, GotInfo info, None)
  | Failed e => (w, db, GotError (InfoError e), None)
  | Compile newInfo oldInfo => compileClass w db className newInfo oldInfo
  end.

End ClassInfoRun.

(** ** The worklist of analyseClasses

    [async.whilst] over [classes], which grows while it is read.  [St] is
    all that [getClassInfo] reads and writes; [classInfo] is one call of
    it.  The run keeps a log of the calls with what each handed to the
    callback.  [None] is a loop that has not ended within the fuel. *)
Record Worklist (St : Type) : Type := mkWorklist {
  wl_state : St;
  wl_classes : list string;
  wl_calls : list (string * ClassInfoResult);
  wl_err : option ScanError
}.
Arguments mkWorklist {St} _ _ _ _.
Arguments wl_state {St} _.
Arguments wl_classes {St} _.
Arguments wl_calls {St} _.
Arguments wl_err {St} _.

(** [for (var depName in deps) t._addRequiredClass(depName)] *)
Definition addDependencies (r : ClassInfoResult) (classes : list string)
    : list string :=
  match r with
  | GotInfo info =>
      fold_left (fun l depName => pushNew depName l)
        (JsObj.keys (optList (dependsOn info))) classes
  | GotError _ => classes
  end.

Section Whilst.

Variable St : Type.
Variable classInfo : St -> string -> St * ClassInfoResult.

Fixpoint whilst (fuel : nat) (st : St) (classes : list string)
    (classIndex : nat) (calls : list (string * ClassInfoResult))
    : option (Worklist St) :=
  match fuel with
  | O => None
  | S fuel' =>
      match nth_error classes classIndex with
      | None => Some (mkWorklist st classes calls None)
      | Some className =>
          let (st', r) := classInfo st className in
          let classes' := addDependencies r classes in
          let calls' := calls ++ [(className, r)] in
          match r with
          | GotInfo _ => whilst fuel' st' classes' (S classIndex) calls'
          | GotError err =>
              if isNoClassFile err
              then whilst fuel' st' classes' (S classIndex) calls'
              else Some (mkWorklist st' classes' calls' (Some err))
          end
      end
  end.

End Whilst.

(** The loop as [analyseClasses] runs it: [getClassInfo] without
    [forceScan], with the "compiledClass" listener in place.  The state is
    the files, the database and what the listener has collected. *)
Definition worklistStep
    (newClassFile : World -> ClassInfoDb -> string -> string -> ClassFile)
    (st : World * ClassInfoDb * Collected) (className : string)
    : (World * ClassInfoDb * Collected) * ClassInfoResult :=
  match st with
  | (w, db, collected) =>
      match getClassInfoRun newClassFile w db className false with
      | (w', db', r, Some data) =>
          ((w', db', onCompiledClass collected data), r)
      | (w', db', r, None) => ((w', db', collected), r)
      end
  end.

Definition analyseWorklist
    (newClassFile : World -> ClassInfoDb -> string -> string -> ClassFile)
    (fuel : nat) (w : World) (db : ClassInfoDb) (seeds : list string)
    : option (Worklist (World * ClassInfoDb * Collected)) :=
  whilst (World * ClassInfoDb * Collected) (worklistStep newClassFile)
    fuel (w, db, mkCollected [] []) seeds 0 [].

(** ** The database

    [db.json] as the analyser reads it: an object whose [classInfo], when
    it is there, is the class database. *)
Record Database : Type := mkDatabase {
  classInfo : option ClassInfoDb
}.

(** What [readDb] finds: no file, a file that cannot be read, or its
    text. *)
Inductive DbFile : Type :=
  | NoDbFile
  | UnreadableDbFile
  | DbFileText (data : string).

(** The characters below 256 that [String.prototype.trim] removes. *)
Definition isWhiteSpace (c : ascii) : bool :=
  let n := nat_of_ascii c in
  (Nat.leb 9 n && Nat.leb n 13) || Nat.eqb n 32 || Nat.eqb n 160.

Fixpoint isBlank (s : string) : bool :=
  match s with
  | EmptyString => true
  | String c s' => isWhiteSpace c && isBlank s'
  end.

Section LoadDatabase.

(** [jsonlint.parse], which returns the value ([None] for [null]) or
    throws. *)
Variable jsonlint_parse : string -> Run (option Database).

(** [loadDatabase]: [__db] as the call leaves it.  A read error makes
    [async.waterfall] skip [parseDb]; the final callback logs the error
    and calls [cb()].  [Throws] is an exception of the parser, which
    nothing in [loadDatabase] catches. *)
Definition loadDatabase (file : DbFile) (db : option Database)
    : Run (option Database) :=
  match file with
  | NoDbFile => Done (Some (mkDatabase None))
  | UnreadableDbFile => Done db
  | DbFileText data =>
      if negb (isBlank data) then jsonlint_parse data
      else Done (Some (mkDatabase None))
  end.

End LoadDatabase.

Definition getDatabase (db : option Database) : option Database := db.

(** [this.__db ? this.__db.classInfo[className] : null]: [IsNull] without
    a database, a TypeError when the database has no [classInfo], else the
    row or [undefined]. *)
Definition getCachedClassInfo (db : option Database) (className : string)
    : Run (Slot DbClassInfo) :=
  match db with
  | None => Done IsNull
  | Some d =>
      match classInfo d with
      | None => Throws "TypeError"
      | Some rows =>
          Done (match JsObj.get className rows with
                | Some info => Is info
                | None => NoKey
                end)
      end
  end.

(** [getClassInfo] from the instance: [__db] and [db.classInfo] are
    created when they are missing. *)
Definition getClassInfoOn
    (newClassFile : World -> ClassInfoDb -> string -> string -> ClassFile)
    (w : World) (db : option Database) (className : string)
    (forceScan : bool)
    : World * option Database * ClassInfoResult * option CompiledClass :=
  let rows :=
    match db with
    | Some d => optList (classInfo d)
    | None => []
    end in
  match getClassInfoRun newClassFile w rows className forceScan with
  | (w', rows', r, data) => (w', Some (mkDatabase (Some rows')), r, data)
  end.

(** ** The database file names *)

(** [this.__dbFilename = dbFilename || "db.json"] *)
Definition newDbFilename (dbFilename : option string) : string :=
  match dbFilename with
  | Some f => if truthy f then f else "db.json"
  | None => "db.json"
  end.

(** The characters below 256 that [.] does not match. *)
Definition isLineTerminator (c : ascii) : bool :=
  let n := nat_of_ascii c in Nat.eqb n 10 || Nat.eqb n 13.

Definition isSlash (c : ascii) : bool := Ascii.eqb c "/".

(** Group 2 against the whole of [s]. *)
Fixpoint noSlash (s : string) : bool :=
  match s with
  | EmptyString => true
  | String c s' => negb (isSlash c) && noSlash s'
  end.

Definition matchName (s : string) : bool :=
  match s with
  | EmptyString => false
  | _ => noSlash s
  end.

(** The pattern of [getResDbFilename], from the start of [s]: group 1 is a
    greedy run of characters other than line terminators, then come a
    slash and group 2, a non-empty run without slash up to the end of the
    input.  The run takes the next character when it may and the rest
    still matches, else the slash and the name have to follow here.  The
    result is group 1. *)
Fixpoint matchDir (s : string) : option string :=
  match s with
  | EmptyString => None
  | String c rest =>
      match (if isLineTerminator c then None else matchDir rest) with
      | Some dir => Some (String c dir)
      | None =>
          if isSlash c && matchName rest then Some EmptyString else None
      end
  end.

Definition getResDbFilename (dbFilename : string) : string :=
  match matchDir dbFilename with
  | Some dir => String.append dir "/resource-db.json"
  | None => "resource-db.json"
  end.

(** ** Locales *)

(** [this.__locales = ["en"]] *)
Definition newLocales : list string := ["en"].

Definition addLocale (locales : list string) (locale : string)
    : list string :=
  pushNew locale locales.

Definition getLocales (locales : list string) : list string := locales.

(** ** Environment checks

    A value is [None] for [undefined]; [V] is every other value. *)
Definition deleteKey {A} (k : string) (o : JsObj.t A) : JsObj.t A :=
  filter (fun kv => negb (String.eqb k (fst kv))) o.

Section EnvironmentChecks.

Variable V : Type.

(** The first argument of [setEnvironmentCheck]: a key, or something
    whose [typeof] is "object", which is a map or [null]. *)
Inductive EnvKey : Type :=
  | KeyName (key : string)
  | KeyMap (map : JsObj.t (option V))
  | KeyNull.

Definition setEnvironmentCheck (checks : JsObj.t (option V))
    (key : EnvKey) (value : option V) : JsObj.t (option V) :=
  match key with
  | KeyMap map =>
      fold_left (fun c kv => JsObj.set (fst kv) (snd kv) c) map checks
  | KeyNull => checks
  | KeyName k =>
      match value with
      | None => deleteKey k checks
      | Some v => JsObj.set k (Some v) checks
      end
  end.

Definition getEnvironmentCheck (checks : JsObj.t (option V))
    (key : string) : option V :=
  match JsObj.get key checks with
  | Some v => v
  | None => None
  end.

End EnvironmentChecks.

Arguments KeyName {V} key.
Arguments KeyMap {V} map.
Arguments KeyNull {V}.

(** ** Libraries *)
Module Libraries.

(** The answer of [library.getSymbolType(name)]. *)
Record SymbolInfo : Type := mkSymbolInfo {
  symbolType : string;
  symbolName : string;
  symbolClassName : option string
}.

(** What the analyser reads of a [qx.tool.compiler.app.Library]. *)
Record Library : Type := mkLibrary {
  getNamespace : string;
  getRootDir : string;
  getSourcePath : string;
  getVersion : option string;
  library_getSymbolType : string -> option SymbolInfo
}.

(** [__libraries], [__librariesByNamespace] and [__classFiles]; an entry
    of [__classFiles] is given by its [library]. *)
Record Registry : Type := mkRegistry {
  libraries : list Library;
  librariesByNamespace : JsObj.t Library;
  classFiles : JsObj.t Library
}.

Definition newRegistry : Registry := mkRegistry [] [] [].

Definition addLibrary (r : Registry) (library : Library) : Registry :=
  mkRegistry (libraries r ++ [library])
    (JsObj.set (getNamespace library) library (librariesByNamespace r))
    (classFiles r).

Definition getLibraries (r : Registry) : list Library := libraries r.

(** [undefined] for a namespace that is not there. *)
Definition findLibrary (r : Registry) (name : string) : Slot Library :=
  match JsObj.get name (librariesByNamespace r) with
  | Some lib => Is lib
  | None => NoKey
  end.

(** [lib !== null] holds for [undefined]. *)
Definition getQooxdooPath (r : Registry) : Run (option string) :=
  match findLibrary r "qx" with
  | IsNull => Done None
  | NoKey => Throws "TypeError"
  | Is lib => Done (Some (getRootDir lib))
  end.

(** The result and [__qooxdooVersion] as the call leaves it. *)
Definition getQooxdooVersion (r : Registry) (qooxdooVersion : option string)
    : option string * option string :=
  if truthyOpt qooxdooVersion then (qooxdooVersion, qooxdooVersion)
  else
    match findLibrary r "qx" with
    | Is lib => (getVersion lib, getVersion lib)
    | _ => (qooxdooVersion, qooxdooVersion)
    end.

Fixpoint firstSymbolType (libs : list Library) (name : string)
    : option SymbolInfo :=
  match libs with
  | [] => None
  | library :: rest =>
      match library_getSymbolType library name with
      | Some info => Some info
      | None => firstSymbolType rest name
      end
  end.

Definition getSymbolType (r : Registry) (name : string)
    : option SymbolInfo :=
  firstSymbolType (libraries r) name.

(** [info && (info.symbolType == "class" || info.symbolType == "member")] *)
Definition isClassOrMember (info : option SymbolInfo) : bool :=
  match info with
  | Some i =>
      String.eqb (symbolType i) "class" || String.eqb (symbolType i) "member"
  | None => false
  end.

Fixpoint firstLibraryOf (libs : list Library) (className : string)
    : option Library :=
  match libs with
  | [] => None
  | library :: rest =>
      if isClassOrMember (library_getSymbolType library className)
      then Some library
      else firstLibraryOf rest className
  end.

Definition getLibraryFromClassname (r : Registry) (className : string)
    : option Library :=
  match JsObj.get className (classFiles r) with
  | Some library => Some library
  | None => firstLibraryOf (libraries r) className
  end.

(** [className.replace(/\./g, "/")] *)
Fixpoint dotsToSlashes (s : string) : string :=
  match s with
  | EmptyString => EmptyString
  | String c s' =>
      String (if Ascii.eqb c "." then "/"%char else c) (dotsToSlashes s')
  end.

Definition getClassFilename (r : Registry) (className : string)
    : option string :=
  match getLibraryFromClassname r className with
  | None => None
  | Some library =>
      Some (String.append (getRootDir library)
              (String.append "/"
                 (String.append (getSourcePath library)
                    (String.append "/"
                       (String.append (dotsToSlashes className) ".js")))))
  end.

End Libraries.

(** The library lookup of [getClassInfo], from the registry; the files are
    those of [w]. *)
Definition worldOf (r : Libraries.Registry) (w : World) : World :=
  mkWorld
    (fun className =>
       match Libraries.getLibraryFromClassname r className with
       | Some library => Some (Libraries.getNamespace library)
       | None => None
       end)
    (stat_source w) (exists_output w) (exists_meta w) (stat_output w).

(** ** Translations *)

(** [src.lineNo]: a line number or an array of them. *)
Inductive LineNo : Type :=
  | OneLine (n : Z)
  | Lines (ns : list Z).

(** An entry of [dbClassInfo.translations]. *)
Record TranslationSrc : Type := mkTranslationSrc {
  src_msgid : string;
  src_msgid_plural : option string;
  src_comment : option string;
  src_lineNo : LineNo
}.

(** [entry.comments]; [reference] maps a file name to its line numbers. *)
Record Comments : Type := mkComments {
  reference : option (JsObj.t (list Z))
}.

(** An entry of a translation, as [updateTranslations] reads and writes
    it; the keys that it does not touch are left out, and so are those of
    [entry.comments]. *)
Record Entry : Type := mkEntry {
  entry_msgid : string;
  entry_msgid_plural : option string;
  entry_comment : option string;
  entry_comments : option Comments
}.

(** [ref[fileName].includes(x)] followed by [ref[fileName].push(lineNo)]
    when it fails; [included] is the outcome of [includes]. *)
Definition pushLine (fileName : string) (included : list Z -> bool)
    (ref : JsObj.t (list Z)) (lineNo : Z) : JsObj.t (list Z) :=
  let ref1 :=
    match JsObj.get fileName ref with
    | Some _ => ref
    | None => JsObj.set fileName [] ref
    end in
  let lines := optList (JsObj.get fileName ref1) in
  if included lines then ref1
  else JsObj.set fileName (lines ++ [lineNo]) ref1.

(** The body of [dbClassInfo.translations.forEach] in
    [updateTranslations], on the entry that [getOrCreateEntry] returned.
    In the array branch [includes] is asked for the array [src.lineNo]
    itself, which is no element of a list of numbers. *)
Definition recordTranslation (classname : string) (src : TranslationSrc)
    (entry : Entry) : Entry :=
  let plural :=
    if truthyOpt (src_msgid_plural src) then src_msgid_plural src
    else entry_msgid_plural entry in
  let comment :=
    if truthyOpt (src_comment src) then src_comment src
    else entry_comment entry in
  let ref :=
    match entry_comments entry with
    | Some c => optList (reference c)
    | None => []
    end in
  let fileName :=
    String.append (Libraries.dotsToSlashes classname) ".js" in
  let ref' :=
    match src_lineNo src with
    | Lines ns => fold_left (pushLine fileName (fun _ => false)) ns ref
    | OneLine n =>
        pushLine fileName (existsb (Z.eqb n)) ref n
    end in
  mkEntry (entry_msgid entry) plural comment
    (Some (mkComments (Some ref'))).

(** ** The caches of getCldr and getTranslation

    One call after the other: a call starts when the promise of the one
    before is settled. *)
Section Caches.

Variable Cldr : Type.

(** [qx.tool.compiler.app.Cldr.loadCLDR(locale)]: the data, which is an
    object, or [None] for a promise that is rejected.  The results of
    [getCldr] and [getTranslation] are read the same way. *)
Variable loadCLDR : string -> option Cldr.

Definition getCldr (cldrs : JsObj.t Cldr) (locale : string)
    : option Cldr * JsObj.t Cldr :=
  match JsObj.get locale cldrs with
  | Some cldr => (Some cldr, cldrs)
  | None =>
      match loadCLDR locale with
      | Some cldr => (Some cldr, JsObj.set locale cldr cldrs)
      | None => (None, cldrs)
      end
  end.

(** A [qx.tool.compiler.app.Translation] is given by the library's
    namespace and the locale it was made for; [checkRead] tells whether
    the promise of [translation.checkRead()] is fulfilled. *)
Variable checkRead : string * string -> bool.

Definition getTranslation (translations : JsObj.t (string * string))
    (library : Libraries.Library) (locale : string)
    : option (string * string) * JsObj.t (string * string) :=
  let id :=
    String.append locale
      (String.append ":" (Libraries.getNamespace library)) in
  match JsObj.get id translations with
  | Some translation => (Some translation, translations)
  | None =>
      let translation := (Libraries.getNamespace library, locale) in
      let translations' := JsObj.set id translation translations in
      if checkRead translation then (Some translation, translations')
      else (None, translations')
  end.

End Caches.

(** * Statements *)

(** ** getClassInfo *)

(** The class is fresh: no [forceScan], a row whose [mtime] is the
    source's, both output files present and the compiled file not older
    than the source. *)
Definition fresh (w : World) (db : ClassInfoDb) (className : string)
    (forceScan : bool) (info : DbClassInfo) : Prop :=
  forceScan = false /\
  JsObj.get className db = Some info /\
  exists library t o,
    getLibraryFromClassname w className = Some library /\
    stat_source w library className = Some t /\
    mtime info = MTimeAt t /\
    exists_output w className = true /\
    exists_meta w className = true /\
    stat_output w className = Some o /\
    (o >= t)%Z.

(** No library provides the class, or its source file cannot be stat-ed. *)
Definition sourceMissing (w : World) (className : string) : Prop :=
  match getLibraryFromClassname w className with
  | None => True
  | Some library => stat_source w library className = None
  end.

(** [getClassInfo] gets as far as [fs.stat] of the compiled file, and that
    call fails. *)
Definition outputStatFails (w : World) (className : string)
    (forceScan : bool) : Prop :=
  forceScan = false /\ exists_output w className = true /\
  exists_meta w className = true /\ stat_output w className = None.

Definition isCompile (d : Dispatch) : Prop :=
  match d with Compile _ _ => True | _ => False end.

Definition isFailed (d : Dispatch) : Prop :=
  match d with Failed _ => True | _ => False end.

(** C3, as stated: the cached row is returned exactly when the class is
    fresh, a missing source is an error, and every other case compiles. *)
Definition getClassInfo_claim (w : World) (db : ClassInfoDb)
    (className : string) (forceScan : bool) : Prop :=
  (forall info, getClassInfo w db className forceScan = Cached info <->
                fresh w db className forceScan info) /\
  (sourceMissing w className ->
   isFailed (getClassInfo w db className forceScan)) /\
  (~ sourceMissing w className ->
   (forall info, ~ fresh w db className forceScan info) ->
   isCompile (getClassInfo w db className forceScan)).

(** ** The lift *)

(** [info.dependsOn[d].load] and [info.dependsOn[d].construct] as
    booleans. *)
Definition infoLoad (info : DbClassInfo) (d : string) : bool :=
  match dependsOn info with
  | Some deps =>
      match JsObj.get d deps with Some f => load f | None => false end
  | None => false
  end.

Definition infoConstruct (info : DbClassInfo) (d : string) : bool :=
  match dependsOn info with
  | Some deps =>
      match JsObj.get d deps with Some f => construct f | None => false end
  | None => false
  end.

(** ** Saving and descendants *)









(** ** Accessor synthesis and write-back *)

(** The body of the first [@description] entry of a row's JSDoc. *)
Definition descriptionBody (e : option EntityInfo) : option string :=
  match e with
  | Some row =>
      match ei_jsdoc row with
      | Some j =>
          match JsObj.get "@description" j with
          | Some (tag :: _) => tag_body tag
          | _ => None
          end
      | None => None
      end
  | None => None
  end.

(** The getter description as the specification words it (section 6),
    with the property name between backticks. *)
Definition canonicalGetterDescription (propertyName : string) : string :=
  ("Gets the (computed) value of the property `" ++ propertyName ++ "`."
   ++ nl ++ nl
   ++ "For further details take a look at the property definition: {@link #"
   ++ propertyName ++ "}.")%string.




(** The method names the accessor synthesis of a meta is called with. *)
Definition accessorNames (firstUp : string -> string) (meta : Meta)
    : list string :=
  flat_map (fun kv : string * PropertyMeta =>
              map methodName (accessorCalls firstUp (fst kv) (snd kv)))
           (optList (properties meta)).



(** ** The walk order *)

(** The names [analyseClassEntities] recurses into, in order. *)
Definition ancestorNames (meta : Meta) : list string :=
  optList (interfaces meta) ++ optList (mixins meta)
  ++ superClassNames (superClass meta).



(** The walk order: the ancestors that the walk from a class visits, each
    followed by its own ancestors, interfaces before mixins before the
    super-class; [sub] lists the visits below one ancestor. *)
Fixpoint visitsOf (sub : Meta -> option (list Meta))
    (loadMeta : string -> option Meta) (names : list string)
    : option (list Meta) :=
  match names with
  | [] => Some []
  | name :: rest =>
      match loadMeta name with
      | None => visitsOf sub loadMeta rest
      | Some m =>
          match sub m with
          | None => None
          | Some below =>
              match visitsOf sub loadMeta rest with
              | None => None
              | Some after => Some (m :: below ++ after)
              end
          end
      end
  end.

Fixpoint ancestorsInOrder (fuel : nat) (loadMeta : string -> option Meta)
    (meta : Meta) : option (list Meta) :=
  match fuel with
  | O => None
  | S fuel' =>
      visitsOf (ancestorsInOrder fuel' loadMeta) loadMeta (ancestorNames meta)
  end.

(** One turn of a loop of [analyseClassEntities] over the entries of a
    section of [meta]: [active] is the test on the entry, [key],
    [property] and [jsdoc] read the entry. *)
Definition recordStep {X : Type} (key : X -> string) (active : X -> bool)
    (property : X -> option string) (jsdoc : X -> option JsDoc)
    (meta : Meta) (first : bool) (t : JsObj.t EntityInfo) (x : X)
    : JsObj.t EntityInfo :=
  if active x
  then recordEntity meta first (key x) (property x) (jsdoc x) t
  else t.

(** Some entry that passes the test has the name. *)
Definition recorded {X : Type} (key : X -> string) (active : X -> bool)
    (n : string) (l : list X) : bool :=
  existsb (fun x => active x && String.eqb (key x) n) l.

(** The meta declares the property. *)
Definition definesProperty (name : string) (m : Meta) : bool :=
  JsObj.has name (optList (properties m)).

(** The meta declares the member, as a function. *)
Definition definesFunction (name : string) (m : Meta) : bool :=
  existsb (fun kv : string * MemberMeta =>
             String.eqb (m_type (snd kv)) "function" && String.eqb (fst kv) name)
          (optList (members m)).

(** [overriddenFrom] of the row under a name, null when there is no row. *)
Definition overriddenFromAt (name : string) (tbl : JsObj.t EntityInfo)
    : option string :=
  match JsObj.get name tbl with
  | Some row => ei_overriddenFrom row
  | None => None
  end.

(** The first ancestor of the walk order that satisfies [defines]. *)
Definition firstDefining (defines : Meta -> bool) (order : list Meta)
    : option string :=
  option_map className (find defines order).

(** ** Suppliers of an entity *)

Definition isInterface (m : Meta) : bool := String.eqb (meta_type m) "interface".

Definition isMixin (m : Meta) : bool := String.eqb (meta_type m) "mixin".



(** ** The worklist *)

(** The names that a row depends on: the keys of [dependsOn]. *)
Definition depNames (info : DbClassInfo) : list string :=
  JsObj.keys (optList (dependsOn info)).

(** The loop goes on after this result: a row, or the error
    ENOCLASSFILE. *)
Definition continues (r : ClassInfoResult) : bool :=
  match r with
  | GotInfo _ => true
  | GotError err => isNoClassFile err
  end.

(** ** The lift *)

(** No [dependsOn] of the database lists a name twice, as no object
    does. *)
Definition distinctDependsOn (db : ClassInfoDb) : Prop :=
  forall c info deps,
    JsObj.get c db = Some info -> dependsOn info = Some deps ->
    NoDup (JsObj.keys deps).

Definition infoRuntime (info : DbClassInfo) (d : string) : bool :=
  match dependsOn info with
  | Some deps =>
      match JsObj.get d deps with Some f => runtime f | None => false end
  | None => false
  end.

(** Two rows that differ in [load] flags at most. *)
Definition sameButLoad (info info' : DbClassInfo) : Prop :=
  mtime info' = mtime info /\
  libraryName info' = libraryName info /\
  extends info' = extends info /\
  implement info' = implement info /\
  include info' = include info /\
  forall d,
    infoConstruct info' d = infoConstruct info d /\
    infoRuntime info' d = infoRuntime info d.

(** ** Libraries *)

(** The registry of a new analyser after [addLibrary] for each library of
    the list, in order. *)
Definition registryOf (libs : list Libraries.Library) : Libraries.Registry :=
  fold_left Libraries.addLibrary libs Libraries.newRegistry.

(** The library knows the name as a class or as a member of one. *)
Definition definesClass (className : string) (library : Libraries.Library)
    : bool :=
  Libraries.isClassOrMember
    (Libraries.library_getSymbolType library className).

(** [x] is the first element of [l] that satisfies [p]. *)
Definition firstWith {A} (p : A -> Prop) (l : list A) (x : A) : Prop :=
  exists before after,
    l = before ++ x :: after /\ p x /\ forall y, In y before -> ~ p y.

(** [x] is the last element of [l] that satisfies [p]. *)
Definition lastWith {A} (p : A -> Prop) (l : list A) (x : A) : Prop :=
  exists before after,
    l = before ++ x :: after /\ p x /\ forall y, In y after -> ~ p y.

(** ** The database file names *)

(** No character of [s] is a line terminator. *)
Fixpoint noLineTerminator (s : string) : bool :=
  match s with
  | EmptyString => true
  | String c s' => negb (isLineTerminator c) && noLineTerminator s'
  end.

(** [dbFilename] is [dir], a slash and a file name that is not empty and
    has no slash, and [dir] is on one line. *)
Definition inDirectory (dbFilename dir : string) : Prop :=
  exists name,
    dbFilename = String.append dir (String "/" name) /\
    noLineTerminator dir = true /\
    name <> EmptyString /\
    noSlash name = true.

(** ** Translations *)

(** The line numbers that an entry refers to in a file. *)
Definition referencesOf (entry : Entry) (fileName : string) : list Z :=
  match entry_comments entry with
  | Some c => optList (JsObj.get fileName (optList (reference c)))
  | None => []
  end.

(** The file name that [updateTranslations] refers to for a class. *)
Definition sourceFileOf (classname : string) : string :=
  String.append (Libraries.dotsToSlashes classname) ".js".

(** ** Members that the write-back creates *)

(** No row of the table has the key "length" in its [appearsIn]. *)
Definition noLengthKey (tbl : JsObj.t EntityInfo) : Prop :=
  Forall (fun kv => JsObj.get "length" (ei_appearsIn (snd kv)) = None) tbl.

(** An entry as the write-back creates it for [name]. *)
Definition createdMember (name : string) (entry : MemberMeta) : Prop :=
  m_type entry = "function" /\
  m_name entry = Some name /\
  (m_abstract entry = Some true \/ m_mixin entry = Some true \/
   truthyOpt (m_property entry) = true) /\
  m_appearsIn entry = None.

(** * Example inputs *)

(** [firstUp] on ASCII names, for the examples: a first letter in a-z goes
    to upper case. *)
Definition asciiFirstUp (s : string) : string :=
  match s with
  | EmptyString => EmptyString
  | String c rest =>
      let n := nat_of_ascii c in
      if (97 <=? n)%nat && (n <=? 122)%nat
      then String (ascii_of_nat (n - 32)) rest
      else s
  end.

(** A JSDoc parser that leaves the block as it is, for the examples. *)
Definition keepJsDoc (jsdoc : JsDoc) (classname : string) : JsDoc := jsdoc.

(** [loadMetaData] against a fixed set of metas. *)
Definition lookupMeta (store : JsObj.t Meta) (name : string) : option Meta :=
  JsObj.get name store.


Definition plainRow (super : option string) : DbClassInfo :=
  mkDbClassInfo (MTimeAt 1) "app" super None None None.

Definition functionMember (name : string) : string * MemberMeta :=
  (name, mkMemberMeta "function" None None None None None None NoKey None None).

Definition checkedProperty (name check : string) : string * PropertyMeta :=
  (name, mkPropertyMeta None (Some name) (Some check) false false None None
           None NoKey None None).

(** What the scenarios of the specification look at in a member. *)
Definition memberSummary (m : Meta)
    : list (string * option bool * option string * Slot string
            * option (list string)) :=
  map (fun kv => (fst kv, m_abstract (snd kv), m_property (snd kv),
                  m_overriddenFrom (snd kv), m_appearsIn (snd kv)))
      (optList (members m)).

(** ** Class files and rows *)

(** A library "app" holds the class "app.Main"; source, compiled file and
    meta file exist, but the compiled file cannot be stat-ed. *)
Definition unreadableOutput : World :=
  mkWorld (fun _ => Some "app") (fun _ _ => Some 10%Z)
          (fun _ => true) (fun _ => true) (fun _ => None).

Definition mainRow : ClassInfoDb :=
  [("app.Main", mkDbClassInfo (MTimeAt 10) "app" None None None None)].

Definition rowWithDeps (deps : JsObj.t DepFlags) : DbClassInfo :=
  mkDbClassInfo (MTimeAt 1) "app" None None None (Some deps).

Definition loadDep : DepFlags := mkDepFlags true false false.
Definition constructDep : DepFlags := mkDepFlags false true false.

(** Scenario S5: F load-depends on G, G construct-depends on H. *)
Definition dbS5 : ClassInfoDb :=
  [("F", rowWithDeps [("G", loadDep)]);
   ("G", rowWithDeps [("H", constructDep)]);
   ("H", mkDbClassInfo (MTimeAt 1) "app" None None None None)].

(** S5 with one more load dependency of F: "X", which no library provides.
    The worklist logs ENOCLASSFILE for "X" and goes on, so "X" is in the
    class list and has no row. *)
Definition dbUnknownDep : ClassInfoDb :=
  [("F", rowWithDeps [("G", loadDep); ("X", loadDep)]);
   ("G", rowWithDeps [("H", constructDep)]);
   ("H", mkDbClassInfo (MTimeAt 1) "app" None None None None)].







(** ** Metas *)

Definition enabledProperty : PropertyMeta :=
  mkPropertyMeta None (Some "enabled") (Some "Boolean") false false None None
    None NoKey None None.

(** Scenario S3: a class with the Boolean property [enabled]. *)
Definition classD : Meta :=
  mkMeta "D" "class" NoSuperClass None None
    (Some [("enabled", enabledProperty)]) None None None.

(** Scenario S4: class "E" with the async property [data]. *)
Definition classE : Meta :=
  mkMeta "E" "class" NoSuperClass None None
    (Some [("data", mkPropertyMeta None (Some "data") (Some "String") true
                      false None None None NoKey None None)])
    None None None.



(** Interface "I" declares a method [getP]; class "C" implements "I" and
    declares a property [p]. *)
Definition interfaceWithGetP : Meta :=
  mkMeta "I" "interface" NoSuperClass None None None
    (Some [functionMember "getP"]) None None.

Definition classWithP : Meta :=
  mkMeta "C" "class" NoSuperClass (Some ["I"]) None
    (Some [checkedProperty "p" "String"]) None None None.

(** Interface "I1" declares the property [p], interface "I2" the method
    [getP]; class "K" implements both, "I1" first. *)
Definition interfaceWithP : Meta :=
  mkMeta "I1" "interface" NoSuperClass None None
    (Some [checkedProperty "p" "String"]) None None None.

Definition interfaceWithGetP2 : Meta :=
  mkMeta "I2" "interface" NoSuperClass None None None
    (Some [functionMember "getP"]) None None.

Definition classOfBoth : Meta :=
  mkMeta "K" "class" NoSuperClass (Some ["I1"; "I2"]) None None None None None.

(** A mixin "M" with its own property [p], checked as "String". *)
Definition mixinWithP : Meta :=
  mkMeta "M" "mixin" NoSuperClass None None
    (Some [checkedProperty "p" "String"]) None None None.

(** Scenario S1: classes "A" and "B extends A", both declaring [foo]. *)
Definition classA : Meta :=
  mkMeta "A" "class" NoSuperClass None None None
    (Some [functionMember "foo"]) None None.

Definition classB : Meta :=
  mkMeta "B" "class" (SuperClassName "A") None None None
    (Some [functionMember "foo"]) None None.

(** Scenario S1: the seed is "B", so "B" is compiled before "A". *)
Definition dbS1 : ClassInfoDb :=
  [("B", plainRow (Some "A")); ("A", plainRow None)].

Definition eventsS1 : list CompiledClass :=
  [mkCompiledClass (plainRow (Some "A")) None "B" (Some classB);
   mkCompiledClass (plainRow None) None "A" (Some classA)].

(** Scenario S2: interface "I" declares [bar]; "C" implements "I". *)
Definition interfaceWithBar : Meta :=
  mkMeta "I" "interface" NoSuperClass None None None
    (Some [functionMember "bar"]) None None.

Definition classWithoutBar : Meta :=
  mkMeta "C" "class" NoSuperClass (Some ["I"]) None None None None None.

Definition classWithBar : Meta :=
  mkMeta "C" "class" NoSuperClass (Some ["I"]) None None
    (Some [functionMember "bar"]) None None.

(** A class that names itself as its super-class. *)
Definition selfExtending : Meta :=
  mkMeta "Loop" "class" (SuperClassName "Loop") None None None None None None.



(** ** Inputs of the worklist, the database and the registry *)

(** Library "app" with the sources of every class "app.*", none of them
    compiled yet. *)
Definition appSources : World :=
  mkWorld (fun c => if String.prefix "app." c then Some "app" else None)
    (fun _ _ => Some 100%Z) (fun _ => false) (fun _ => false)
    (fun _ => None).

(** The same, with a source file of "app.B" that [fs.stat] fails on. *)
Definition appSourcesWithoutB : World :=
  mkWorld (fun c => if String.prefix "app." c then Some "app" else None)
    (fun _ c => if String.eqb c "app.B" then None else Some 100%Z)
    (fun _ => false) (fun _ => false) (fun _ => None).

(** "app.A" depends on "app.B" and "app.C", "app.B" on "app.C" and on
    "lib.Missing", which no library has. *)
Definition appDependsOn (c : string) : JsObj.t DepFlags :=
  if String.eqb c "app.A" then [("app.B", loadDep); ("app.C", loadDep)]
  else if String.eqb c "app.B"
       then [("app.C", constructDep); ("lib.Missing", loadDep)]
       else [].

(** The files once a class is compiled at time [t]: its output and its
    meta file are there. *)
Definition withOutput (w : World) (c : string) (t : Z) : World :=
  mkWorld (getLibraryFromClassname w) (stat_source w)
    (fun c' => String.eqb c' c || exists_output w c')
    (fun c' => String.eqb c' c || exists_meta w c')
    (fun c' => if String.eqb c' c then Some t else stat_output w c').

(** The class files of "app": they load, write their output at time 200
    and record [appDependsOn]. *)
Definition appClassFile (w : World) (db : ClassInfoDb) (c library : string)
    : ClassFile :=
  mkClassFile Loaded (withOutput w c 200)
    (fun row =>
       mkDbClassInfo (mtime row) (libraryName row) None None None
         (Some (appDependsOn c)))
    c None.

Definition appClasses : list string :=
  ["app.A"; "app.B"; "app.C"; "lib.Missing"].

(** A class file that fails to load and writes nothing. *)
Definition brokenClassFile (w : World) (db : ClassInfoDb)
    (c library : string) : ClassFile :=
  mkClassFile (LoadFails None) w (fun row => row) c None.

(** A database whose row of "app.A" was written by an earlier run. *)
Definition dbWithA : ClassInfoDb :=
  [("app.A",
    mkDbClassInfo (MTimeAt 50) "app" (Some "app.Base") None None
      (Some [("app.B", loadDep)]))].

Definition knows (names : list string) (kind : string) (name : string)
    : option Libraries.SymbolInfo :=
  if existsb (String.eqb name) names
  then Some (Libraries.mkSymbolInfo kind name (Some name))
  else None.

(** The framework, and an application that has a class of the
    framework's name. *)
Definition qxLibrary : Libraries.Library :=
  Libraries.mkLibrary "qx" "/opt/qx" "source/class" (Some "6.0.0")
    (knows ["qx.core.Object"] "class").

Definition appLibrary : Libraries.Library :=
  Libraries.mkLibrary "app" "/home/app" "source/class" (Some "1.0.0")
    (knows ["app.Main"; "qx.core.Object"] "class").

(** A second copy of the framework. *)
Definition qxLibrary7 : Libraries.Library :=
  Libraries.mkLibrary "qx" "/opt/qx7" "source/class" (Some "7.0.0")
    (knows ["qx.core.Object"] "class").

(** * Properties *)

(** ** Facts about JsObj *)

Lemma get_set_same {A} k (v : A) o : JsObj.get k (JsObj.set k v o) = Some v.
Proof.
  induction o as [|[k' v'] o IH]; simpl.
  - now rewrite String.eqb_refl.
  - destruct (String.eqb k k') eqn:E; simpl; rewrite E; auto.
Qed.

Lemma get_set_other {A} k k' (v : A) o :
  k <> k' -> JsObj.get k' (JsObj.set k v o) = JsObj.get k' o.
Proof.
  intros Hne. induction o as [|[k0 v0] o IH]; simpl.
  - destruct (String.eqb k' k) eqn:E; auto.
    apply String.eqb_eq in E. congruence.
  - destruct (String.eqb k k0) eqn:E; simpl.
    + apply String.eqb_eq in E. subst k0.
      destruct (String.eqb k' k) eqn:E'; auto.
      apply String.eqb_eq in E'. congruence.
    + now rewrite IH.
Qed.

Lemma get_set {A} k k' (v : A) o :
  JsObj.get k' (JsObj.set k v o)
  = if String.eqb k k' then Some v else JsObj.get k' o.
Proof.
  destruct (String.eqb k k') eqn:E.
  - apply String.eqb_eq in E. subst. apply get_set_same.
  - apply String.eqb_neq in E. now apply get_set_other.
Qed.

Lemma get_In {A} k (v : A) o : JsObj.get k o = Some v -> In (k, v) o.
Proof.
  induction o as [|[k' v'] o IH]; simpl; [discriminate|].
  destruct (String.eqb k k') eqn:E.
  - apply String.eqb_eq in E. intros [= ->]. subst. now left.
  - intros H. right. auto.
Qed.

Lemma get_None_keys {A} k (o : JsObj.t A) :
  JsObj.get k o = None <-> ~ In k (JsObj.keys o).
Proof.
  induction o as [|[k' v'] o IH]; simpl.
  - tauto.
  - destruct (String.eqb k k') eqn:E.
    + apply String.eqb_eq in E. subst. split; [discriminate | tauto].
    + apply String.eqb_neq in E. rewrite IH. split.
      * intros H [H'|H']; [congruence | tauto].
      * tauto.
Qed.

Lemma get_Some_keys {A} k (o : JsObj.t A) :
  (exists v, JsObj.get k o = Some v) <-> In k (JsObj.keys o).
Proof.
  destruct (JsObj.get k o) eqn:E.
  - split; [intros _ | eauto].
    apply get_In in E. unfold JsObj.keys. now apply (in_map fst) in E.
  - split; [intros [v Hv]; discriminate |].
    intros H. apply get_None_keys in E. tauto.
Qed.

Lemma keys_set {A} k (v : A) o :
  JsObj.keys (JsObj.set k v o)
  = if JsObj.has k o then JsObj.keys o else JsObj.keys o ++ [k].
Proof.
  unfold JsObj.has. induction o as [|[k' v'] o IH]; simpl; auto.
  destruct (String.eqb k k') eqn:E; simpl; auto.
  rewrite IH. now destruct (JsObj.get k o).
Qed.

Lemma NoDup_keys_set {A} k (v : A) o :
  NoDup (JsObj.keys o) -> NoDup (JsObj.keys (JsObj.set k v o)).
Proof.
  intros H. rewrite keys_set. unfold JsObj.has.
  destruct (JsObj.get k o) eqn:E; auto.
  apply get_None_keys in E.
  apply NoDup_app; auto.
  - constructor; [tauto | constructor].
  - intros x Hx [<-|[]]. tauto.
Qed.

(** ** getClassInfo: fresh, stale or failed *)

Lemma scanFile_no_outputStat db className library stat :
  scanFile db className library stat None =
  Compile (mkDbClassInfo (MTimeAt stat) library None None None None)
          (JsObj.get className db).
Proof.
  unfold scanFile. now destruct (JsObj.get className db).
Qed.

Lemma scanFile_cached db className library stat o info :
  scanFile db className library stat (Some o) = Cached info <->
  JsObj.get className db = Some info /\ mtime info = MTimeAt stat /\
  (o >= stat)%Z.
Proof.
  unfold scanFile. destruct (JsObj.get className db) as [i|] eqn:E.
  - destruct (mtime i) as [| |ms] eqn:Em; simpl.
    + split; [discriminate | intros ([= ->] & H & _); congruence].
    + split; [discriminate | intros ([= ->] & H & _); congruence].
    + destruct (Z.eqb_spec ms stat) as [->|Hne].
      * destruct (Z.geb_spec o stat) as [Hge|Hlt].
        -- split; [intros [= ->]; repeat split; auto; lia |].
           now intros ([= ->] & _).
        -- split; [discriminate | intros (_ & _ & H); lia].
      * split; [discriminate | intros ([= ->] & H & _); congruence].
  - split; [discriminate | intros (H & _); discriminate].
Qed.

Lemma scanFile_cached_or_compile db className library stat outputStat :
  (exists info, scanFile db className library stat outputStat = Cached info)
  \/ scanFile db className library stat outputStat =
     Compile (mkDbClassInfo (MTimeAt stat) library None None None None)
             (JsObj.get className db).
Proof.
  unfold scanFile. destruct (JsObj.get className db) as [i|]; auto.
  destruct outputStat as [o|]; auto.
  destruct (sameMTime (mtime i) stat); auto.
  destruct (Z.geb o stat); eauto.
Qed.

Lemma getClassInfo_cached_iff w db className forceScan info :
  getClassInfo w db className forceScan = Cached info <->
  fresh w db className forceScan info.
Proof.
  unfold getClassInfo, fresh.
  destruct (getLibraryFromClassname w className) as [library|] eqn:El.
  2:{ split; [discriminate |]. intros (_ & _ & l & t & o & H & _).
      discriminate. }
  destruct (stat_source w library className) as [stat|] eqn:Es.
  2:{ split; [discriminate |]. intros (_ & _ & l & t & o & [= <-] & H & _).
      congruence. }
  destruct (exists_output w className) eqn:Eo; simpl.
  2:{ rewrite scanFile_no_outputStat. split; [discriminate |].
      intros (_ & _ & l & t & o & _ & _ & _ & H & _). discriminate. }
  destruct forceScan.
  { rewrite scanFile_no_outputStat. split; [discriminate |].
    intros (H & _). discriminate. }
  destruct (exists_meta w className) eqn:Em; simpl.
  2:{ rewrite scanFile_no_outputStat. split; [discriminate |].
      intros (_ & _ & l & t & o & _ & _ & _ & _ & H & _). discriminate. }
  destruct (stat_output w className) as [o|] eqn:Eso.
  2:{ split; [discriminate |].
      intros (_ & _ & l & t & o & _ & _ & _ & _ & _ & H & _). discriminate. }
  rewrite scanFile_cached. split.
  - intros (Hg & Hm & Hge). repeat split; auto.
    exists library, stat, o. repeat split; auto.
  - intros (_ & Hg & l & t & o' & [= <-] & Hs & Hm & _ & _ & [= <-] & Hge).
    rewrite Es in Hs. injection Hs as <-. auto.
Qed.

(** C3 (counterexample): with the source present and the class not fresh,
    a failing [fs.stat] of the compiled file ends [getClassInfo] with that
    error; nothing is compiled. *)
Lemma getClassInfo_output_stat_error :
  ~ getClassInfo_claim unreadableOutput mainRow "app.Main" false.
Proof.
  intros (_ & _ & H).
  assert (Hc : isCompile (getClassInfo unreadableOutput mainRow "app.Main" false)).
  { apply H.
    - unfold sourceMissing. simpl. discriminate.
    - intros info (_ & _ & l & t & o & _ & _ & _ & _ & _ & Hs & _).
      discriminate. }
  exact Hc.
Qed.

(** C3 (amended): [getClassInfo] returns the cached row if and only if the
    class is fresh; it passes an error to the callback when no library has
    the class or the source cannot be stat-ed, and also when both output
    files exist but the compiled file cannot be stat-ed; in every other
    case it compiles, from a new row holding the source's mtime and the
    library name and a copy of the old row. *)
Theorem getClassInfo_dispatch (w : World) (db : ClassInfoDb)
    (className : string) (forceScan : bool) :
  (forall info, getClassInfo w db className forceScan = Cached info <->
                fresh w db className forceScan info) /\
  (sourceMissing w className ->
   isFailed (getClassInfo w db className forceScan)) /\
  (~ sourceMissing w className -> outputStatFails w className forceScan ->
   getClassInfo w db className forceScan = Failed OutputStatFailed) /\
  (~ sourceMissing w className -> ~ outputStatFails w className forceScan ->
   (forall info, ~ fresh w db className forceScan info) ->
   exists library t,
     getLibraryFromClassname w className = Some library /\
     stat_source w library className = Some t /\
     getClassInfo w db className forceScan =
     Compile (mkDbClassInfo (MTimeAt t) library None None None None)
             (JsObj.get className db)).
Proof.
  split; [intros info; apply getClassInfo_cached_iff |].
  unfold sourceMissing, outputStatFails.
  split; [| split].
  - unfold getClassInfo.
    destruct (getLibraryFromClassname w className) as [library|]; simpl; auto.
    intros ->. exact I.
  - unfold getClassInfo.
    destruct (getLibraryFromClassname w className) as [library|]; [|tauto].
    destruct (stat_source w library className) as [stat|]; [|tauto].
    intros _ (-> & -> & -> & ->). reflexivity.
  - intros Hsrc Hout Hnot.
    pose proof (getClassInfo_cached_iff w db className forceScan) as Hiff.
    unfold getClassInfo in *.
    destruct (getLibraryFromClassname w className) as [library|]; [|tauto].
    destruct (stat_source w library className) as [stat|] eqn:Es; [|tauto].
    exists library, stat. repeat split; auto.
    destruct (negb (exists_output w className) || forceScan) eqn:E1.
    { apply scanFile_no_outputStat. }
    destruct (negb (exists_meta w className)) eqn:E2.
    { apply scanFile_no_outputStat. }
    apply orb_false_iff in E1. destruct E1 as [E1 ->].
    apply negb_false_iff in E1, E2.
    destruct (stat_output w className) as [o|].
    + destruct (scanFile_cached_or_compile db className library stat (Some o))
        as [[info Hi]|Hc]; auto.
      exfalso. apply (Hnot info). now apply Hiff.
    + exfalso. apply Hout. auto.
Qed.

(** ** The indirect-load lift *)

Lemma setLoad_load info d : infoLoad (setLoad info d) d = true.
Proof.
  unfold infoLoad, setLoad. simpl. now rewrite get_set_same.
Qed.

Lemma setLoad_load_mono info d x :
  infoLoad info x = true -> infoLoad (setLoad info d) x = true.
Proof.
  unfold infoLoad, setLoad. simpl. rewrite get_set.
  destruct (String.eqb_spec d x) as [->|Hne]; auto.
  destruct (dependsOn info); auto.
Qed.

Lemma setLoad_construct info d x :
  infoConstruct (setLoad info d) x = infoConstruct info x.
Proof.
  unfold infoConstruct, setLoad. simpl. rewrite get_set.
  destruct (String.eqb_spec d x) as [->|Hne].
  - simpl. destruct (dependsOn info) as [deps|]; simpl; auto.
    now destruct (JsObj.get x deps).
  - destruct (dependsOn info); auto.
Qed.

Lemma fold_setLoad_construct deps info x :
  infoConstruct (fold_left setLoad deps info) x = infoConstruct info x.
Proof.
  revert info. induction deps as [|d deps IH]; intros info; simpl; auto.
  now rewrite IH, setLoad_construct.
Qed.

Lemma fold_setLoad_mono deps info x :
  infoLoad info x = true -> infoLoad (fold_left setLoad deps info) x = true.
Proof.
  revert info. induction deps as [|d deps IH]; intros info H; simpl; auto.
  apply IH. now apply setLoad_load_mono.
Qed.

Lemma fold_setLoad_In deps info x :
  In x deps -> infoLoad (fold_left setLoad deps info) x = true.
Proof.
  revert info. induction deps as [|d deps IH]; intros info; simpl; [tauto|].
  intros [->|H]; auto.
  apply fold_setLoad_mono, setLoad_load.
Qed.

Lemma loadFlag_info db c d :
  loadFlag db c d =
  match JsObj.get c db with Some i => infoLoad i d | None => false end.
Proof. reflexivity. Qed.

Lemma constructFlag_info db c d :
  constructFlag db c d =
  match JsObj.get c db with Some i => infoConstruct i d | None => false end.
Proof. reflexivity. Qed.

Lemma getConstructDependencies_In db d e cs :
  getConstructDependencies db d = Some cs ->
  constructFlag db d e = true -> In e cs.
Proof.
  unfold getConstructDependencies. rewrite constructFlag_info.
  destruct (JsObj.get d db) as [i|]; [|discriminate].
  unfold infoConstruct. destruct (dependsOn i) as [deps|]; [|discriminate].
  intros [= <-]. destruct (JsObj.get e deps) as [f|] eqn:E; [|discriminate].
  intros Hc. apply get_In in E.
  apply (in_map fst) with (x := (e, f)).
  apply filter_In. auto.
Qed.

Lemma indirectLoadOf_In db deps d f e l :
  indirectLoadOf db deps = Some l ->
  In (d, f) deps -> load f = true ->
  constructFlag db d e = true -> In e l.
Proof.
  revert l. induction deps as [|[d0 f0] deps IH]; intros l; simpl; [tauto|].
  intros Hl [Heq|Hin] Hload Hc.
  - injection Heq as -> ->. rewrite Hload in Hl.
    destruct (getConstructDependencies db d) as [cs|] eqn:Ec; [|discriminate].
    destruct (indirectLoadOf db deps); [|discriminate].
    injection Hl as <-. apply in_or_app. left.
    eapply getConstructDependencies_In; eauto.
  - destruct (load f0).
    + destruct (getConstructDependencies db d0); [|discriminate].
      destruct (indirectLoadOf db deps) as [more|]; [|discriminate].
      injection Hl as <-. apply in_or_app. right. now apply IH.
    + now apply IH.
Qed.

(** One turn of the lift leaves every [construct] flag as it was, keeps
    every [load] flag that was set, and lifts the construct dependencies of
    the load dependencies of its class. *)
Lemma liftClass_spec db c db' :
  liftClass db c = Some db' ->
  (forall x y, constructFlag db' x y = constructFlag db x y) /\
  (forall x y, loadFlag db x y = true -> loadFlag db' x y = true) /\
  (forall d e, loadFlag db c d = true -> constructFlag db d e = true ->
               loadFlag db' c e = true).
Proof.
  unfold liftClass.
  destruct (getIndirectLoadDependencies db c) as [deps|] eqn:Ed; [|discriminate].
  destruct (JsObj.get c db) as [info|] eqn:Ec.
  - intros [= <-]. split; [|split].
    + intros x y. rewrite !constructFlag_info, get_set.
      destruct (String.eqb_spec c x) as [->|Hne]; auto.
      now rewrite Ec, fold_setLoad_construct.
    + intros x y. rewrite !loadFlag_info, get_set.
      destruct (String.eqb_spec c x) as [->|Hne]; auto.
      rewrite Ec. apply fold_setLoad_mono.
    + intros d e Hl Hc. rewrite loadFlag_info in *.
      rewrite get_set_same. rewrite Ec in Hl.
      apply fold_setLoad_In.
      unfold getIndirectLoadDependencies in Ed. rewrite Ec in Ed.
      unfold infoLoad in Hl.
      destruct (dependsOn info) as [ds|]; [|discriminate].
      destruct (JsObj.get d ds) as [f|] eqn:Eg; [|discriminate].
      eapply indirectLoadOf_In; eauto using get_In.
  - intros [= <-]. split; [|split]; auto.
    intros d e Hl. rewrite loadFlag_info, Ec in Hl. discriminate.
Qed.

(** X1: when the lift runs to its end, every class [C] of the list has
    [C.dependsOn[E].load] set for every construct dependency [E] of each of
    its load dependencies [D], flags read before the lift. *)
Lemma liftIndirectLoad_lifts classes : forall db db' c d e,
  liftIndirectLoad db classes = Some db' ->
  In c classes ->
  loadFlag db c d = true -> constructFlag db d e = true ->
  loadFlag db' c e = true.
Proof.
  assert (Hmono : forall classes db db',
             liftIndirectLoad db classes = Some db' ->
             forall x y, loadFlag db x y = true -> loadFlag db' x y = true).
  { induction classes0 as [|k ks IH]; simpl; intros db db' H.
    - injection H as <-. auto.
    - destruct (liftClass db k) as [db1|] eqn:E; [|discriminate].
      intros x y Hxy. eapply IH; eauto.
      now apply (liftClass_spec _ _ _ E). }
  induction classes as [|k ks IH]; simpl; intros db db' c d e H Hin Hl Hc;
    [tauto|].
  destruct (liftClass db k) as [db1|] eqn:E; [|discriminate].
  destruct (liftClass_spec _ _ _ E) as (Hcon & Hld & Hlift).
  destruct Hin as [->|Hin].
  - eapply Hmono; eauto.
  - apply (IH db1 db' c d e); auto. now rewrite Hcon.
Qed.

Example lift_S5 :
  exists db', liftIndirectLoad dbS5 ["F"; "G"; "H"] = Some db' /\
              loadFlag db' "F" "H" = true.
Proof. eexists. split; reflexivity. Qed.

(** C5 (failing input): F load-depends on G and G construct-depends on H,
    but [getConstructDependencies] reads [dependsOn] of the missing row of
    "X" and throws; the lift stops and [F.dependsOn.H.load] is never set. *)
Theorem lift_throws_on_unknown_load_dependency :
  loadFlag dbUnknownDep "F" "G" = true /\
  constructFlag dbUnknownDep "G" "H" = true /\
  getConstructDependencies dbUnknownDep "X" = None /\
  liftClass dbUnknownDep "F" = None /\
  liftIndirectLoad dbUnknownDep ["F"; "G"; "X"; "H"] = None /\
  loadFlag dbUnknownDep "F" "H" = false.
Proof. repeat split; reflexivity. Qed.

(** ** Property accessor synthesis *)

Lemma descriptionBody_newAccessorInfo pm first e kind rt vt desc :
  descriptionBody (Some (newAccessorInfo pm first e kind rt vt desc))
  = Some desc.
Proof.
  unfold descriptionBody, newAccessorInfo. simpl.
  destruct rt as [r|]; [destruct (truthy r)|];
    (destruct vt as [v|]; [destruct (truthy v)|]); reflexivity.
Qed.


(** C7 (counterexample): the getter synthesized for [enabled] does not
    carry the description with backticks; the name stands between
    [<code>] and [</code>]. *)
Lemma getter_description_not_in_backticks :
  ~ (descriptionBody
       (JsObj.get "getEnabled" (synthesizeAccessors asciiFirstUp classD true []))
     = Some (canonicalGetterDescription "enabled")).
Proof. vm_compute. discriminate. Qed.

(** C7 (amended): the loop over [meta.properties] issues exactly one call
    of kind "get"; it is the first call, its method name is "get" followed
    by the capitalized property name, and whenever it synthesizes a row the
    [@description] body of that row is "Gets the (computed) value of the
    property <code>P</code>.", an empty line, and "For further details
    take a look at the property definition: {@link #P}.". *)
Theorem getter_description_canonical (firstUp : string -> string)
    (propertyName : string) (pm : PropertyMeta) :
  exists c rest,
    accessorCalls firstUp propertyName pm = c :: rest /\
    accessorType c = "get" /\
    methodName c = ("get" ++ firstUp propertyName)%string /\
    (forall c', In c' rest -> accessorType c' <> "get") /\
    (forall first tbl,
       absentOrAbstract (JsObj.get (methodName c) tbl) = true ->
       descriptionBody
         (JsObj.get (methodName c) (applyAccessorCall first pm tbl c))
       = Some ("Gets the (computed) value of the property <code>"
               ++ propertyName ++ "</code>." ++ nl ++ nl
               ++ "For further details take a look at the property definition: {@link #"
               ++ propertyName ++ "}.")%string).
Proof.
  unfold accessorCalls. simpl. eexists. eexists. split; [reflexivity|].
  simpl. repeat split.
  - intros c' Hin.
    repeat (apply in_app_or in Hin; destruct Hin as [Hin|Hin]);
      repeat match goal with
        | H : In _ (if ?b then _ else _) |- _ => destruct b
        | H : In _ (_ ++ _) |- _ => apply in_app_or in H; destruct H as [H|H]
        | H : In _ (_ :: _) |- _ => destruct H as [<-|H]
        | H : In _ [] |- _ => destruct H
        end; simpl; try discriminate.
  - intros first tbl Ha. unfold applyAccessorCall, addPropertyAccessor. simpl.
    rewrite Ha, get_set_same, descriptionBody_newAccessorInfo.
    reflexivity.
Qed.

(** ** Saving meta: written once *)


Lemma has_true_iff {A} k (o : JsObj.t A) :
  JsObj.has k o = true <-> In k (JsObj.keys o).
Proof.
  rewrite <- get_Some_keys. unfold JsObj.has.
  destruct (JsObj.get k o); split; eauto; try discriminate.
  intros [v Hv]. discriminate.
Qed.

Lemma has_false_iff {A} k (o : JsObj.t A) :
  JsObj.has k o = false <-> ~ In k (JsObj.keys o).
Proof.
  rewrite <- has_true_iff. destruct (JsObj.has k o); split; congruence.
Qed.

Lemma has_cons {A} k k0 (v : A) o :
  JsObj.has k ((k0, v) :: o) = String.eqb k k0 || JsObj.has k o.
Proof.
  unfold JsObj.has. simpl. now destruct (String.eqb k k0).
Qed.

Lemma In_set {A} k (v : A) o kv :
  In kv (JsObj.set k v o) -> In kv o \/ snd kv = v /\ fst kv = k.
Proof.
  induction o as [|[k0 v0] o IH]; simpl.
  - intros [<-|[]]. auto.
  - destruct (String.eqb_spec k k0) as [->|Hne]; simpl.
    + intros [<-|H]; auto.
    + intros [<-|H]; auto. destruct (IH H); auto.
Qed.

Lemma Forall_set {A} (P : string * A -> Prop) k v o :
  Forall P o -> P (k, v) -> Forall P (JsObj.set k v o).
Proof.
  intros Ho Hk. apply Forall_forall. intros [k1 v1] Hin.
  apply In_set in Hin. destruct Hin as [Hin|[Hv Hk1]].
  - rewrite Forall_forall in Ho. auto.
  - simpl in *. now subst.
Qed.




Section MetaRun.

Variable firstUp : string -> string.
Variable parseJsDoc : JsDoc -> string -> JsDoc.




End MetaRun.


(** ** Descendants *)





Section Staging.

Variable parseJsDoc : JsDoc -> string -> JsDoc.




End Staging.





(** ** The class's own accessor synthesis *)


Lemma fold_left_preserves {S X} (f : S -> X -> S) (Q : S -> Prop) l :
  (forall s x, Q s -> Q (f s x)) ->
  forall s, Q s -> Q (fold_left f l s).
Proof.
  intros Hq. induction l as [|x l IH]; simpl; auto.
Qed.




Section OwnSynthesis.

Variable firstUp : string -> string.




Lemma applyAccessorCall_other first pm tbl c n :
  methodName c <> n ->
  JsObj.get n (applyAccessorCall first pm tbl c) = JsObj.get n tbl.
Proof.
  intros Hne. unfold applyAccessorCall, addPropertyAccessor.
  destruct (absentOrAbstract _); auto. now apply get_set_other.
Qed.

Lemma applyAccessorCall_concrete first pm tbl c n row :
  JsObj.get n tbl = Some row -> ei_abstract row = false ->
  JsObj.get n (applyAccessorCall first pm tbl c) = Some row.
Proof.
  intros Hg Ha. destruct (String.eqb_spec (methodName c) n) as [He|Hne].
  - unfold applyAccessorCall, addPropertyAccessor.
    rewrite He, Hg. simpl. now rewrite Ha.
  - now rewrite applyAccessorCall_other.
Qed.









End OwnSynthesis.

(** C8: [addPropertyAccessor] leaves the table as it is when the row under
    the method name exists and is not abstract; when the row is absent or
    abstract it stores a new row there, not abstract and marked with the
    accessor kind, and leaves every other row alone.  The whole loop over
    [meta.properties] leaves a row that is there and not abstract
    unchanged as well. *)
Theorem addPropertyAccessor_replaces_only_absent_or_abstract
    (first : bool) (pm : PropertyMeta) (name kind : string)
    (rt vt : option string) (desc : string) (tbl : JsObj.t EntityInfo) :
  (forall row, JsObj.get name tbl = Some row -> ei_abstract row = false ->
     addPropertyAccessor first pm name kind rt vt desc tbl = tbl) /\
  (JsObj.get name tbl = None \/
   (exists row, JsObj.get name tbl = Some row /\ ei_abstract row = true) ->
     exists row',
       JsObj.get name (addPropertyAccessor first pm name kind rt vt desc tbl)
       = Some row' /\
       row' = newAccessorInfo pm first (JsObj.get name tbl) kind rt vt desc /\
       ei_property row' = Some kind /\ ei_abstract row' = false) /\
  (forall other, other <> name ->
     JsObj.get other (addPropertyAccessor first pm name kind rt vt desc tbl)
     = JsObj.get other tbl) /\
  (forall firstUp meta row,
     JsObj.get name tbl = Some row -> ei_abstract row = false ->
     JsObj.get name (synthesizeAccessors firstUp meta first tbl) = Some row).
Proof.
  unfold addPropertyAccessor. split; [|split; [|split]].
  - intros row -> Ha. simpl. now rewrite Ha.
  - intros H.
    assert (Ha : absentOrAbstract (JsObj.get name tbl) = true).
    { destruct H as [->|(row & -> & Ha)]; auto. }
    rewrite Ha. eexists. rewrite get_set_same. repeat split.
  - intros other Hne.
    destruct (absentOrAbstract (JsObj.get name tbl)); auto.
    apply get_set_other. congruence.
  - intros firstUp meta row Hg Ha. unfold synthesizeAccessors.
    destruct (properties meta) as [ps|]; auto.
    apply (fold_left_preserves _ (fun t => JsObj.get name t = Some row));
      auto.
    intros s kv Hs.
    apply (fold_left_preserves _ (fun t => JsObj.get name t = Some row));
      auto.
    intros s' c Hs'. eapply applyAccessorCall_concrete; eauto.
Qed.

(** ** Write-back of members *)











Section MergeFacts.

Variable firstUp : string -> string.




End MergeFacts.

(** ** Examples of merges *)



(** ** overriddenFrom of synthesized accessors *)

Section SynthesizedOverride.

Variable firstUp : string -> string.


End SynthesizedOverride.



(** ** overriddenFrom of a replaced row *)

(** C1 (failing input): "C" implements "I", which declares [getP], and
    declares the property [p].  The walk records "I" under [getP] as the
    first ancestor ([appearsIn] holds it), but the getter synthesized for
    [p] takes [overriddenFrom] from [appearsIn[0]], a key the map does not
    have: the row ends with [overriddenFrom] null, and the member is saved
    without the key although the ancestor "I" defines it. *)
Theorem synthesis_drops_overriddenFrom :
  JsObj.has "getP" (optList (members interfaceWithGetP)) = true /\
  exists tbl4 tbl row4 row merged entry,
    beforeOwnSynthesis asciiFirstUp 5 (lookupMeta [("I", interfaceWithGetP)])
      classWithP = Some tbl4 /\
    JsObj.get "getP" (ce_members tbl4) = Some row4 /\
    ei_overriddenFrom row4 = Some "I" /\
    analyseClassEntities asciiFirstUp 5 (lookupMeta [("I", interfaceWithGetP)])
      classWithP true emptyEntities = Some tbl /\
    JsObj.get "getP" (ce_members tbl) = Some row /\
    ei_appearsIn row = [("I", "interface")] /\
    ei_overriddenFrom row = None /\
    updateMetaData asciiFirstUp 5 (lookupMeta [("I", interfaceWithGetP)])
      classWithP = Some merged /\
    JsObj.get "getP" (optList (members merged)) = Some entry /\
    m_overriddenFrom entry = NoKey.
Proof.
  split; [reflexivity|].
  do 6 eexists. repeat split; vm_compute; reflexivity.
Qed.

(** ** Materialized properties *)

(** Whatever [meta.properties] holds under the property's own name, a table
    row that is abstract or a mixin's is stored over it, unless the map has
    a key "[object Object]". *)
Lemma materializeProperty_overwrites props name row :
  ei_abstract row || ei_mixin row = true ->
  JsObj.has "[object Object]" props = false ->
  JsObj.get name (materializeProperty props (name, row))
  = Some (materializedProperty name row).
Proof.
  intros Hc Hk. unfold materializeProperty. simpl.
  rewrite Hc, Hk. simpl. apply get_set_same.
Qed.

(** C9 (failing input): [p] is in the mixin's own [meta.properties], and
    the write-back stores the minimal entry over it; the declared check is
    gone from the merged meta. *)
Theorem own_property_materialized_over :
  exists declared merged entry,
    JsObj.get "p" (optList (properties mixinWithP)) = Some declared /\
    p_check declared = Some "String" /\
    updateMetaData asciiFirstUp 5 (lookupMeta []) mixinWithP = Some merged /\
    JsObj.get "p" (optList (properties merged)) = Some entry /\
    entry = mkPropertyMeta (Some "property") (Some "p") None false false
              (Some false) (Some true) (Some "public") NoKey None None /\
    p_check entry = None.
Proof.
  do 3 eexists. repeat split; vm_compute; reflexivity.
Qed.

(** ** The walk and its fuel *)

Lemma walkNames_app visit loadMeta l1 : forall l2 tbl,
  walkNames visit loadMeta (l1 ++ l2) tbl =
  match walkNames visit loadMeta l1 tbl with
  | Some tbl' => walkNames visit loadMeta l2 tbl'
  | None => None
  end.
Proof.
  induction l1 as [|name l1 IH]; intros l2 tbl; simpl; auto.
  destruct (loadMeta name) as [m|]; auto.
  destruct (visit m tbl); auto.
Qed.

Lemma walkAncestors_names visit loadMeta meta tbl :
  walkAncestors visit loadMeta meta tbl =
  walkNames visit loadMeta (ancestorNames meta) tbl.
Proof.
  unfold walkAncestors, ancestorNames. rewrite walkNames_app.
  destruct (walkNames visit loadMeta (optList (interfaces meta)) tbl); auto.
  now rewrite walkNames_app.
Qed.



Lemma walkNames_visits (visit : Meta -> ClassEntities -> option ClassEntities)
    loadMeta names name m :
  In name names -> loadMeta name = Some m ->
  forall tbl tbl', walkNames visit loadMeta names tbl = Some tbl' ->
                   exists t t', visit m t = Some t'.
Proof.
  induction names as [|n names IH]; simpl; [tauto|].
  intros [->|Hin] Hl tbl tbl'.
  - rewrite Hl. destruct (visit m tbl) as [t'|] eqn:E; [eauto|discriminate].
  - destruct (loadMeta n) as [m0|]; [|eauto].
    destruct (visit m0 tbl) as [t0|]; [eauto|discriminate].
Qed.

Section WalkFuel.

Variable firstUp : string -> string.




(** X3: the walk has no visited set: when a class is among its own ancestors
    it does not return, whatever the fuel. *)
Theorem walk_never_returns_on_self_ancestry
    (loadMeta : string -> option Meta) (meta : Meta) (name : string) :
  In name (ancestorNames meta) -> loadMeta name = Some meta ->
  forall fuel first tbl,
    analyseClassEntities firstUp fuel loadMeta meta first tbl = None.
Proof.
  intros Hin Hl. induction fuel as [|fuel IH]; intros first tbl; simpl; auto.
  rewrite walkAncestors_names.
  destruct (walkNames _ loadMeta (ancestorNames meta) _) as [t4|] eqn:E; auto.
  destruct (walkNames_visits _ _ _ _ _ Hin Hl _ _ E) as (t & t' & Ht).
  rewrite IH in Ht. discriminate.
Qed.

End WalkFuel.

(** ** First hit wins *)

Lemma recordEntity_other meta first k p j tbl n :
  k <> n -> JsObj.get n (recordEntity meta first k p j tbl) = JsObj.get n tbl.
Proof. intros H. unfold recordEntity. now apply get_set_other. Qed.

Lemma recordEntity_congruence meta first k p j tbl1 tbl2 n :
  JsObj.get n tbl1 = JsObj.get n tbl2 ->
  JsObj.get n (recordEntity meta first k p j tbl1)
  = JsObj.get n (recordEntity meta first k p j tbl2).
Proof.
  intros H. destruct (String.eqb_spec k n) as [->|Hne].
  - unfold recordEntity. rewrite !get_set_same, H. reflexivity.
  - now rewrite !recordEntity_other.
Qed.

Lemma recordEntity_overriddenFrom meta first n p j tbl :
  overriddenFromAt n (recordEntity meta first n p j tbl) =
  if negb first && negb (truthyOpt (overriddenFromAt n tbl))
  then Some (className meta) else overriddenFromAt n tbl.
Proof.
  unfold overriddenFromAt, recordEntity. rewrite get_set_same. simpl.
  destruct (JsObj.get n tbl); simpl; auto; now destruct first.
Qed.

Section RecordLoop.

Context {X : Type}.
Variables (key : X -> string) (active : X -> bool)
          (property : X -> option string) (jsdoc : X -> option JsDoc).
Variables (meta : Meta) (first : bool).

Let step : JsObj.t EntityInfo -> X -> JsObj.t EntityInfo :=
  recordStep key active property jsdoc meta first.

Lemma recordStep_congruence x tbl1 tbl2 n :
  JsObj.get n tbl1 = JsObj.get n tbl2 ->
  JsObj.get n (step tbl1 x) = JsObj.get n (step tbl2 x).
Proof.
  intros H. unfold step, recordStep. destruct (active x); auto.
  now apply recordEntity_congruence.
Qed.

Lemma fold_recordStep_congruence l : forall tbl1 tbl2 n,
  JsObj.get n tbl1 = JsObj.get n tbl2 ->
  JsObj.get n (fold_left step l tbl1) = JsObj.get n (fold_left step l tbl2).
Proof.
  induction l as [|x l IH]; intros tbl1 tbl2 n H; simpl; auto.
  apply IH. now apply recordStep_congruence.
Qed.

Lemma fold_recordStep_not_recorded l : forall tbl n,
  recorded key active n l = false ->
  JsObj.get n (fold_left step l tbl) = JsObj.get n tbl.
Proof.
  induction l as [|x l IH]; intros tbl n; simpl; auto.
  intros H. apply orb_false_iff in H. destruct H as [Hx Hl].
  rewrite IH by exact Hl. unfold step, recordStep.
  destruct (active x); auto. simpl in Hx.
  apply recordEntity_other. now apply String.eqb_neq.
Qed.

Lemma overriddenFromAt_congruence (tbl1 tbl2 : JsObj.t EntityInfo) n :
  JsObj.get n tbl1 = JsObj.get n tbl2 ->
  overriddenFromAt n tbl1 = overriddenFromAt n tbl2.
Proof. unfold overriddenFromAt. now intros ->. Qed.

Lemma recordStep_overriddenFrom x tbl n :
  overriddenFromAt n (step tbl x) =
  if active x && String.eqb (key x) n && negb first
     && negb (truthyOpt (overriddenFromAt n tbl))
  then Some (className meta) else overriddenFromAt n tbl.
Proof.
  unfold step, recordStep. destruct (active x); simpl; auto.
  destruct (String.eqb_spec (key x) n) as [->|Hne]; simpl.
  - apply recordEntity_overriddenFrom.
  - apply overriddenFromAt_congruence. now apply recordEntity_other.
Qed.

(** After the loop over one section, the row of a recorded name has
    [overriddenFrom] as it was when that was truthy or the meta is the
    class itself; otherwise it names the meta. *)
Lemma fold_recordStep_overriddenFrom l : forall tbl n,
  overriddenFromAt n (fold_left step l tbl) =
  if recorded key active n l && negb first
     && negb (truthyOpt (overriddenFromAt n tbl))
  then Some (className meta) else overriddenFromAt n tbl.
Proof.
  induction l as [|x l IH]; intros tbl n; simpl; auto.
  rewrite IH, recordStep_overriddenFrom.
  destruct (active x && String.eqb (key x) n) eqn:Ex; simpl.
  - destruct first; simpl.
    + rewrite !andb_false_r. reflexivity.
    + rewrite !andb_true_r.
      destruct (truthyOpt (overriddenFromAt n tbl)) eqn:Eo; simpl.
      * rewrite Eo. rewrite andb_false_r. reflexivity.
      * destruct (recorded key active n l); simpl; auto.
        now destruct (truthy (className meta)).
  - reflexivity.
Qed.

End RecordLoop.

Lemma recordMembers_fold meta first tbl :
  recordMembers meta first tbl =
  fold_left (recordStep fst
               (fun kv : string * MemberMeta =>
                  String.eqb (m_type (snd kv)) "function")
               (fun kv => m_property (snd kv)) (fun kv => m_jsdoc (snd kv))
               meta first)
    (optList (members meta)) tbl.
Proof.
  unfold recordMembers. destruct (members meta); reflexivity.
Qed.

Lemma recordProperties_fold meta first tbl :
  recordProperties meta first tbl =
  fold_left (recordStep fst (fun _ : string * PropertyMeta => true)
               (fun _ => None) (fun kv => p_jsdoc (snd kv)) meta first)
    (optList (properties meta)) tbl.
Proof.
  unfold recordProperties. destruct (properties meta); reflexivity.
Qed.

Lemma recorded_definesFunction n (ms : JsObj.t MemberMeta) m :
  optList (members m) = ms ->
  recorded fst (fun kv : string * MemberMeta =>
                  String.eqb (m_type (snd kv)) "function") n ms
  = definesFunction n m.
Proof. intros <-. reflexivity. Qed.

Lemma recorded_definesProperty n m :
  recorded fst (fun _ : string * PropertyMeta => true) n
    (optList (properties m))
  = definesProperty n m.
Proof.
  unfold definesProperty, recorded.
  induction (optList (properties m)) as [|[k v] l IH]; auto.
  rewrite has_cons, <- IH, (String.eqb_sym n k). reflexivity.
Qed.

Lemma recordProperties_overriddenFrom m first tbl n :
  overriddenFromAt n (recordProperties m first tbl) =
  if definesProperty n m && negb first
     && negb (truthyOpt (overriddenFromAt n tbl))
  then Some (className m) else overriddenFromAt n tbl.
Proof.
  rewrite recordProperties_fold, fold_recordStep_overriddenFrom.
  now rewrite recorded_definesProperty.
Qed.

Lemma recordMembers_overriddenFrom m first tbl n :
  overriddenFromAt n (recordMembers m first tbl) =
  if definesFunction n m && negb first
     && negb (truthyOpt (overriddenFromAt n tbl))
  then Some (className m) else overriddenFromAt n tbl.
Proof.
  rewrite recordMembers_fold, fold_recordStep_overriddenFrom.
  now rewrite (recorded_definesFunction n _ m eq_refl).
Qed.

Lemma recordMembers_congruence m first tbl1 tbl2 n :
  JsObj.get n tbl1 = JsObj.get n tbl2 ->
  JsObj.get n (recordMembers m first tbl1)
  = JsObj.get n (recordMembers m first tbl2).
Proof.
  intros H. rewrite !recordMembers_fold.
  now apply fold_recordStep_congruence.
Qed.

Lemma fold_recordMembers_congruence order : forall tbl1 tbl2 n,
  JsObj.get n tbl1 = JsObj.get n tbl2 ->
  JsObj.get n (fold_left (fun t m => recordMembers m false t) order tbl1)
  = JsObj.get n (fold_left (fun t m => recordMembers m false t) order tbl2).
Proof.
  induction order as [|m order IH]; intros tbl1 tbl2 n H; simpl; auto.
  apply IH. now apply recordMembers_congruence.
Qed.

(** Over the ancestors in walk order, a row that starts without a truthy
    [overriddenFrom] gets the class name of the first ancestor that
    defines the entity, and keeps it. *)
Lemma order_overriddenFrom
    (record : Meta -> bool -> JsObj.t EntityInfo -> JsObj.t EntityInfo)
    (defines : Meta -> bool) (n : string) :
  (forall m tbl,
     overriddenFromAt n (record m false tbl) =
     if defines m && negb false && negb (truthyOpt (overriddenFromAt n tbl))
     then Some (className m) else overriddenFromAt n tbl) ->
  forall order tbl,
    (forall m, In m order -> truthy (className m) = true) ->
    overriddenFromAt n (fold_left (fun t m => record m false t) order tbl) =
    if truthyOpt (overriddenFromAt n tbl) then overriddenFromAt n tbl
    else match firstDefining defines order with
         | Some c => Some c
         | None => overriddenFromAt n tbl
         end.
Proof.
  intros Hrec. unfold firstDefining.
  induction order as [|m order IH]; intros tbl Hnames; simpl.
  - now destruct (truthyOpt (overriddenFromAt n tbl)).
  - rewrite IH by (intros m' Hm'; apply Hnames; now right).
    rewrite Hrec. simpl.
    destruct (truthyOpt (overriddenFromAt n tbl)) eqn:Eo; simpl.
    + rewrite andb_false_r, Eo. reflexivity.
    + rewrite andb_true_r. destruct (defines m); simpl.
      * rewrite (Hnames m (or_introl eq_refl)). reflexivity.
      * rewrite Eo. reflexivity.
Qed.

Section FirstHit.

Variable firstUp : string -> string.

Lemma fold_applyAccessorCall_other first pm n cs : forall tbl,
  ~ In n (map methodName cs) ->
  JsObj.get n (fold_left (applyAccessorCall first pm) cs tbl)
  = JsObj.get n tbl.
Proof.
  induction cs as [|c cs IH]; intros tbl Hn; auto.
  cbn [fold_left]. rewrite IH.
  - apply applyAccessorCall_other. intros He. apply Hn. left. exact He.
  - intros Hin. apply Hn. right. exact Hin.
Qed.

Lemma synthesizeAccessors_other meta first tbl n :
  ~ In n (accessorNames firstUp meta) ->
  JsObj.get n (synthesizeAccessors firstUp meta first tbl) = JsObj.get n tbl.
Proof.
  unfold accessorNames, synthesizeAccessors.
  destruct (properties meta) as [ps|]; auto. cbn [optList].
  revert tbl. induction ps as [|[P pm] ps IH]; intros tbl Hn; auto.
  cbn [flat_map fst snd] in Hn. rewrite in_app_iff in Hn.
  cbn [fold_left fst snd]. rewrite IH by tauto.
  apply fold_applyAccessorCall_other. tauto.
Qed.

(** The table of a walk that returns, against the walk order: the
    properties are those recorded for the class and then for each visited
    ancestor in order; so is the row of every member name that no
    accessor synthesis on the way was called with. *)
Lemma analyseClassEntities_in_order fuel : forall loadMeta meta first tbl tbl',
  analyseClassEntities firstUp fuel loadMeta meta first tbl = Some tbl' ->
  exists order,
    ancestorsInOrder fuel loadMeta meta = Some order /\
    ce_properties tbl' =
      fold_left (fun t m => recordProperties m false t) order
        (recordProperties meta first (ce_properties tbl)) /\
    forall n,
      ~ In n (accessorNames firstUp meta) ->
      (forall m, In m order -> ~ In n (accessorNames firstUp m)) ->
      JsObj.get n (ce_members tbl') =
      JsObj.get n (fold_left (fun t m => recordMembers m false t) order
                     (recordMembers meta first (ce_members tbl))).
Proof.
  induction fuel as [|fuel IH]; intros loadMeta meta first tbl tbl';
    simpl; [discriminate|].
  rewrite walkAncestors_names.
  assert (G : forall names t t',
             walkNames (fun m t0 => analyseClassEntities firstUp fuel loadMeta m false t0)
               loadMeta names t = Some t' ->
             exists order,
               visitsOf (ancestorsInOrder fuel loadMeta) loadMeta names
               = Some order /\
               ce_properties t' =
                 fold_left (fun t0 m => recordProperties m false t0) order
                   (ce_properties t) /\
               forall n,
                 (forall m, In m order -> ~ In n (accessorNames firstUp m)) ->
                 JsObj.get n (ce_members t') =
                 JsObj.get n (fold_left (fun t0 m => recordMembers m false t0)
                                order (ce_members t))).
  { induction names as [|name names IHn]; intros t t'; simpl.
    - intros [= <-]. exists []. auto.
    - destruct (loadMeta name) as [m|]; [|apply IHn].
      destruct (analyseClassEntities firstUp fuel loadMeta m false t)
        as [t1|] eqn:E1; [|discriminate].
      intros Hrest.
      destruct (IH _ _ _ _ _ E1) as (below & Hb & Hp1 & Hm1).
      destruct (IHn _ _ Hrest) as (after & Ha & Hp2 & Hm2).
      exists (m :: below ++ after). rewrite Hb, Ha.
      split; [reflexivity|]. split.
      + simpl. rewrite fold_left_app, <- Hp1. exact Hp2.
      + intros n Hn. simpl. rewrite fold_left_app.
        rewrite Hm2 by (intros m' Hm'; apply Hn; right; apply in_or_app; auto).
        apply fold_recordMembers_congruence.
        apply Hm1.
        * apply Hn. now left.
        * intros m' Hm'. apply Hn. right. apply in_or_app. auto. }
  destruct (walkNames _ loadMeta (ancestorNames meta) _) as [t4|] eqn:E4;
    [|discriminate].
  intros [= <-].
  destruct (G _ _ _ E4) as (order & Ho & Hp & Hm).
  exists order. split; [exact Ho|]. split; [exact Hp|].
  intros n Hself Hanc. simpl.
  rewrite synthesizeAccessors_other by exact Hself.
  now apply Hm.
Qed.

(** X4: override wins, for properties: when the walk of [updateMetaData]
    returns, the row of every property holds as [overriddenFrom] the class
    name of the first ancestor in walk order (interfaces, then mixins,
    then the super-class, each followed by its own ancestors) that
    declares the property, and null when none does. *)
Theorem property_overriddenFrom_first_hit
    (fuel : nat) (loadMeta : string -> option Meta) (meta : Meta)
    (tbl : ClassEntities) :
  analyseClassEntities firstUp fuel loadMeta meta true emptyEntities
  = Some tbl ->
  exists order,
    ancestorsInOrder fuel loadMeta meta = Some order /\
    ((forall m, In m order -> truthy (className m) = true) ->
     forall P,
       overriddenFromAt P (ce_properties tbl)
       = firstDefining (definesProperty P) order).
Proof.
  intros H.
  destruct (analyseClassEntities_in_order _ _ _ _ _ _ H) as (order & Ho & Hp & _).
  exists order. split; [exact Ho|]. intros Hnames P.
  rewrite Hp.
  rewrite (order_overriddenFrom recordProperties (definesProperty P) P).
  - rewrite recordProperties_overriddenFrom. simpl.
    rewrite andb_false_r. simpl.
    now destruct (firstDefining (definesProperty P) order).
  - intros m t. apply recordProperties_overriddenFrom.
  - exact Hnames.
Qed.

(** X5: override wins, for function members outside the accessor synthesis:
    a member name that no accessor synthesis of the walk was called with
    has as [overriddenFrom] the class name of the first ancestor in walk
    order that declares it as a function, and null when none does. *)
Theorem member_overriddenFrom_first_hit
    (fuel : nat) (loadMeta : string -> option Meta) (meta : Meta)
    (tbl : ClassEntities) :
  analyseClassEntities firstUp fuel loadMeta meta true emptyEntities
  = Some tbl ->
  exists order,
    ancestorsInOrder fuel loadMeta meta = Some order /\
    ((forall m, In m order -> truthy (className m) = true) ->
     forall n,
       ~ In n (accessorNames firstUp meta) ->
       (forall m, In m order -> ~ In n (accessorNames firstUp m)) ->
       overriddenFromAt n (ce_members tbl)
       = firstDefining (definesFunction n) order).
Proof.
  intros H.
  destruct (analyseClassEntities_in_order _ _ _ _ _ _ H) as (order & Ho & _ & Hm).
  exists order. split; [exact Ho|]. intros Hnames n Hself Hanc.
  rewrite (overriddenFromAt_congruence _ _ n (Hm n Hself Hanc)).
  rewrite (order_overriddenFrom recordMembers (definesFunction n) n).
  - rewrite recordMembers_overriddenFrom. simpl.
    rewrite andb_false_r. simpl.
    now destruct (firstDefining (definesFunction n) order).
  - intros m t. apply recordMembers_overriddenFrom.
  - exact Hnames.
Qed.

End FirstHit.

(** ** Instances *)

(** X1 (witness): scenario S5. *)
Lemma liftIndirectLoad_lifts_witness :
  match liftIndirectLoad dbS5 ["F"; "G"; "H"] with
  | Some db' => loadFlag db' "F" "H" = true
  | None => False
  end.
Proof.
  destruct (liftIndirectLoad dbS5 ["F"; "G"; "H"]) as [db'|] eqn:E.
  - apply (liftIndirectLoad_lifts ["F"; "G"; "H"] dbS5 db' "F" "G" "H" E).
    + left. reflexivity.
    + reflexivity.
    + reflexivity.
  - vm_compute in E. discriminate.
Defined.


(** X3 (witness): the walk from a class that extends itself has not
    returned after a thousand levels. *)
Lemma walk_never_returns_witness :
  analyseClassEntities asciiFirstUp 1000
    (lookupMeta [("Loop", selfExtending)]) selfExtending true emptyEntities
  = None.
Proof.
  apply (walk_never_returns_on_self_ancestry asciiFirstUp
           (lookupMeta [("Loop", selfExtending)]) selfExtending "Loop").
  - left. reflexivity.
  - reflexivity.
Defined.

(** X5 (witness): scenario S1, [foo] of "B" is overridden from "A". *)
Lemma member_overriddenFrom_first_hit_witness :
  match analyseClassEntities asciiFirstUp 3 (lookupMeta [("A", classA)])
          classB true emptyEntities with
  | Some tbl => overriddenFromAt "foo" (ce_members tbl) = Some "A"
  | None => False
  end.
Proof.
  destruct (analyseClassEntities asciiFirstUp 3 (lookupMeta [("A", classA)])
              classB true emptyEntities) as [tbl|] eqn:E.
  - destruct (member_overriddenFrom_first_hit asciiFirstUp _ _ _ _ E)
      as (order & Ho & H).
    vm_compute in Ho. injection Ho as <-.
    rewrite H.
    + reflexivity.
    + intros m [<-|[]]. reflexivity.
    + intros [].
    + intros m [<-|[]] [].
  - vm_compute in E. discriminate.
Defined.

(** X4 (witness): the property [p] of "K" is overridden from "I1". *)
Lemma property_overriddenFrom_first_hit_witness :
  match analyseClassEntities asciiFirstUp 3
          (lookupMeta [("I1", interfaceWithP); ("I2", interfaceWithGetP2)])
          classOfBoth true emptyEntities with
  | Some tbl => overriddenFromAt "p" (ce_properties tbl) = Some "I1"
  | None => False
  end.
Proof.
  destruct (analyseClassEntities asciiFirstUp 3
              (lookupMeta [("I1", interfaceWithP); ("I2", interfaceWithGetP2)])
              classOfBoth true emptyEntities) as [tbl|] eqn:E.
  - destruct (property_overriddenFrom_first_hit asciiFirstUp _ _ _ _ E)
      as (order & Ho & H).
    vm_compute in Ho. injection Ho as <-.
    rewrite H.
    + reflexivity.
    + intros m [<-|[<-|[]]]; reflexivity.
  - vm_compute in E. discriminate.
Defined.


(** ** The scenarios of the specification *)

Example scenario_S1 :
  exists st' metaA metaB,
    analyzeMeta asciiFirstUp keepJsDoc 5 dbS1 (collect eventsS1) [] = Done st' /\
    writes st' = ["B"; "A"] /\
    JsObj.get "A" (metaFiles st') = Some metaA /\
    JsObj.get "B" (metaFiles st') = Some metaB /\
    descendants metaA = Some ["B"] /\
    memberSummary metaB = [("foo", None, None, Is "A", Some ["A"])].
Proof. do 3 eexists. repeat split; vm_compute; reflexivity. Qed.

Example scenario_S2 :
  exists without with_bar,
    updateMetaData asciiFirstUp 5 (lookupMeta [("I", interfaceWithBar)])
      classWithoutBar = Some without /\
    memberSummary without = [("bar", Some true, None, Is "I", None)] /\
    meta_abstract without = Some true /\
    updateMetaData asciiFirstUp 5 (lookupMeta [("I", interfaceWithBar)])
      classWithBar = Some with_bar /\
    memberSummary with_bar = [("bar", None, None, Is "I", Some ["I"])] /\
    meta_abstract with_bar = None.
Proof. do 2 eexists. repeat split; vm_compute; reflexivity. Qed.

Example scenario_S3 :
  exists merged,
    updateMetaData asciiFirstUp 5 (lookupMeta []) classD = Some merged /\
    memberSummary merged =
      [("getEnabled", Some false, Some "get", NoKey, None);
       ("isEnabled", Some false, Some "is", NoKey, None);
       ("setEnabled", Some false, Some "set", NoKey, None);
       ("resetEnabled", Some false, Some "reset", NoKey, None)].
Proof. eexists. split; vm_compute; reflexivity. Qed.

Example scenario_S4 :
  exists merged,
    updateMetaData asciiFirstUp 5 (lookupMeta []) classE = Some merged /\
    memberSummary merged =
      [("getData", Some false, Some "get", NoKey, None);
       ("setData", Some false, Some "set", NoKey, None);
       ("resetData", Some false, Some "reset", NoKey, None);
       ("getDataAsync", Some false, Some "getAsync", NoKey, None);
       ("setDataAsync", Some false, Some "setAsync", NoKey, None)].
Proof. eexists. split; vm_compute; reflexivity. Qed.

(** ** Abstract and mixin flags *)








Section Flags.

Context {X : Type}.
Variables (key : X -> string) (active : X -> bool)
          (property : X -> option string) (jsdoc : X -> option JsDoc).
Variables (meta : Meta) (first : bool).

Let step : JsObj.t EntityInfo -> X -> JsObj.t EntityInfo :=
  recordStep key active property jsdoc meta first.






End Flags.




Section SupplierFlags.

Variable firstUp : string -> string.


End SupplierFlags.


(** ** Names pushed once *)

Lemma existsb_eqb_In x l : existsb (String.eqb x) l = true <-> In x l.
Proof.
  rewrite existsb_exists. split.
  - intros (y & Hy & E). apply String.eqb_eq in E. now subst.
  - intros H. exists x. split; [exact H | apply String.eqb_refl].
Qed.

Lemma pushNew_cases name names :
  (In name names /\ pushNew name names = names)
  \/ (~ In name names /\ pushNew name names = names ++ [name]).
Proof.
  unfold pushNew. destruct (existsb (String.eqb name) names) eqn:E.
  - left. split; [now apply existsb_eqb_In | reflexivity].
  - right. split; [|reflexivity].
    intros H. apply existsb_eqb_In in H. congruence.
Qed.

Lemma pushNew_In name names x :
  In x (pushNew name names) <-> In x names \/ x = name.
Proof.
  destruct (pushNew_cases name names) as [[Hin ->]|[Hn ->]].
  - split; [tauto | intros [H| ->]; assumption].
  - rewrite in_app_iff. simpl. split; [intros [H|[H|[]]]; auto | intros [H|H]; auto].
Qed.

Lemma pushNew_NoDup name names : NoDup names -> NoDup (pushNew name names).
Proof.
  intros H. destruct (pushNew_cases name names) as [[Hin ->]|[Hn ->]]; auto.
  apply NoDup_app; [exact H | repeat constructor; simpl; tauto |].
  intros x Hx [<-|[]]. tauto.
Qed.

(** What a run of pushes adds to a list: new names only, each once, all
    of them among the names pushed. *)
Lemma fold_pushNew_grows pushed : forall names,
  exists added,
    fold_left (fun l n => pushNew n l) pushed names = names ++ added /\
    NoDup added /\
    (forall x, In x added -> ~ In x names) /\
    (forall x, In x added -> In x pushed) /\
    (forall x, In x pushed -> In x (names ++ added)).
Proof.
  induction pushed as [|n pushed IH]; intros names; simpl.
  - exists []. rewrite app_nil_r. repeat split; auto using NoDup_nil; simpl; tauto.
  - destruct (pushNew_cases n names) as [[Hin ->]|[Hn ->]].
    + destruct (IH names) as (added & E & Hnd & Hnew & Hfrom & Hall).
      exists added. repeat split; auto.
      intros x [<-|Hx]; [apply in_or_app; now left | auto].
    + destruct (IH (names ++ [n])) as (added & E & Hnd & Hnew & Hfrom & Hall).
      exists (n :: added). rewrite E, <- app_assoc. simpl.
      split; [reflexivity|]. split.
      * constructor; [|exact Hnd]. intros Hc. apply (Hnew n Hc).
        apply in_or_app. right. now left.
      * split; [|split].
        -- intros x [<-|Hx]; [exact Hn|].
           intros Hc. apply (Hnew x Hx). apply in_or_app. now left.
        -- intros x [<-|Hx]; auto.
        -- intros x [<-|Hx].
           ++ apply in_or_app. right. now left.
           ++ specialize (Hall x Hx). rewrite <- app_assoc in Hall. exact Hall.
Qed.

(** X8: the locales.  Whatever locales are added to a new analyser, and in
    whatever order, [getLocales] starts with "en", lists no locale twice,
    holds "en" and the locales added and nothing else, and a later
    [addLocale] leaves the locales listed before where they are. *)
Theorem addLocale_keeps_locales_distinct (added : list string) :
  let locales := getLocales (fold_left addLocale added newLocales) in
  hd_error locales = Some "en" /\
  NoDup locales /\
  (forall l, In l locales <-> l = "en" \/ In l added) /\
  (forall before after, added = before ++ after ->
     exists more,
       locales = getLocales (fold_left addLocale before newLocales) ++ more).
Proof.
  unfold getLocales, addLocale, newLocales. cbv zeta.
  destruct (fold_pushNew_grows added ["en"])
    as (more & E & Hnd & Hnew & Hfrom & Hall).
  rewrite E. split; [reflexivity|]. split; [|split].
  - simpl. constructor; [|exact Hnd]. intros H. apply (Hnew _ H). now left.
  - intros l. split.
    + intros [<-|H]; [now left | right; auto].
    + intros [->|H]; [now left | apply (Hall l H)].
  - intros before after ->. rewrite fold_left_app in E.
    destruct (fold_pushNew_grows after
                (fold_left (fun l n => pushNew n l) before ["en"]))
      as (more' & E' & _).
    exists more'. rewrite <- E. exact E'.
Qed.

(** ** The worklist *)

Lemma addDependencies_grows r classes :
  exists added,
    addDependencies r classes = classes ++ added /\
    NoDup added /\
    (forall x, In x added -> ~ In x classes) /\
    (forall x, In x added ->
       exists info, r = GotInfo info /\ In x (depNames info)) /\
    (forall info, r = GotInfo info ->
       forall d, In d (depNames info) -> In d (classes ++ added)).
Proof.
  destruct r as [info|err]; simpl.
  - destruct (fold_pushNew_grows (depNames info) classes)
      as (added & E & Hnd & Hnew & Hfrom & Hall).
    exists added. unfold depNames in *.
    split; [exact E|]. split; [exact Hnd|]. split; [exact Hnew|]. split.
    + intros x Hx. exists info. auto.
    + intros info' [= <-]. exact Hall.
  - exists []. rewrite app_nil_r.
    split; [reflexivity|]. split; [constructor|]. split; [intros x []|].
    split; [intros x []|]. intros info; discriminate.
Qed.

Lemma skipn_nth_error {A} (l : list A) : forall i x,
  nth_error l i = Some x -> skipn i l = x :: skipn (S i) l.
Proof.
  induction l as [|a l IH]; intros [|i] x H; simpl in *; try discriminate.
  - now injection H as ->.
  - now apply IH.
Qed.

Lemma NoDup_app_disjoint {A} (l1 l2 : list A) :
  NoDup l1 -> NoDup l2 -> (forall x, In x l2 -> ~ In x l1) -> NoDup (l1 ++ l2).
Proof.
  intros H1 H2 H. apply NoDup_app; auto.
  intros x Hx1 Hx2. now apply (H x Hx2).
Qed.

Section WhilstFacts.

Variable St : Type.
Variable classInfo : St -> string -> St * ClassInfoResult.

(** What a run of the loop does from index [i] on. *)
Lemma whilst_run fuel : forall st classes i calls out,
  whilst St classInfo fuel st classes i calls = Some out ->
  exists added newCalls,
    wl_classes out = classes ++ added /\
    wl_calls out = calls ++ newCalls /\
    NoDup added /\
    (forall x, In x added -> ~ In x classes) /\
    (forall x, In x added ->
       exists c info, In (c, GotInfo info) newCalls /\ In x (depNames info)) /\
    (forall c info, In (c, GotInfo info) newCalls ->
       forall d, In d (depNames info) -> In d (wl_classes out)) /\
    map fst newCalls = firstn (List.length newCalls) (skipn i (wl_classes out)) /\
    match wl_err out with
    | None =>
        Forall (fun cr => continues (snd cr) = true) newCalls /\
        List.length newCalls = List.length (wl_classes out) - i
    | Some err =>
        isNoClassFile err = false /\
        exists earlier c,
          newCalls = earlier ++ [(c, GotError err)] /\
          Forall (fun cr => continues (snd cr) = true) earlier
    end.
Proof.
  induction fuel as [|fuel IH]; intros st classes i calls out H;
    [discriminate|].
  simpl in H. destruct (nth_error classes i) as [c|] eqn:En.
  - destruct (classInfo st c) as [st' r] eqn:Ec.
    destruct (addDependencies_grows r classes)
      as (a1 & Ea & Hnd1 & Hnew1 & Hfrom1 & Hall1).
    assert (Hgo :
      whilst St classInfo fuel st' (addDependencies r classes) (S i)
        (calls ++ [(c, r)]) = Some out ->
      continues r = true ->
      exists added newCalls,
        wl_classes out = classes ++ added /\
        wl_calls out = calls ++ newCalls /\
        NoDup added /\
        (forall x, In x added -> ~ In x classes) /\
        (forall x, In x added ->
           exists c info,
             In (c, GotInfo info) newCalls /\ In x (depNames info)) /\
        (forall c info, In (c, GotInfo info) newCalls ->
           forall d, In d (depNames info) -> In d (wl_classes out)) /\
        map fst newCalls
        = firstn (List.length newCalls) (skipn i (wl_classes out)) /\
        match wl_err out with
        | None =>
            Forall (fun cr => continues (snd cr) = true) newCalls /\
            List.length newCalls = List.length (wl_classes out) - i
        | Some err =>
            isNoClassFile err = false /\
            exists earlier c,
              newCalls = earlier ++ [(c, GotError err)] /\
              Forall (fun cr => continues (snd cr) = true) earlier
        end).
    { intros Hw Hcont. rewrite Ea in Hw.
      destruct (IH _ _ _ _ _ Hw)
        as (a2 & nc & Ecl & Eca & Hnd2 & Hnew2 & Hfrom2 & Hclo & Hmap & Herr).
      assert (Hnth : nth_error (wl_classes out) i = Some c).
      { rewrite Ecl, <- app_assoc.
        rewrite nth_error_app1; [exact En|].
        apply nth_error_Some. congruence. }
      assert (Hlen : i < List.length (wl_classes out)).
      { apply nth_error_Some. congruence. }
      exists (a1 ++ a2), ((c, r) :: nc).
      split; [now rewrite Ecl, app_assoc|].
      split; [now rewrite Eca, <- app_assoc|].
      split.
      { apply NoDup_app_disjoint; auto.
        intros x Hx2 Hx1. apply (Hnew2 x Hx2). apply in_or_app. now right. }
      split.
      { intros x Hx Hc. apply in_app_or in Hx. destruct Hx as [Hx|Hx].
        - now apply (Hnew1 x Hx).
        - apply (Hnew2 x Hx). apply in_or_app. now left. }
      split.
      { intros x Hx. apply in_app_or in Hx. destruct Hx as [Hx|Hx].
        - destruct (Hfrom1 x Hx) as (info & -> & Hd).
          exists c, info. split; [now left | exact Hd].
        - destruct (Hfrom2 x Hx) as (c' & info & Hin & Hd).
          exists c', info. split; [now right | exact Hd]. }
      split.
      { intros c' info [Heq|Hin] d Hd.
        - injection Heq as <- ->.
          rewrite Ecl. apply in_or_app. left. now apply (Hall1 info eq_refl).
        - now apply (Hclo c' info Hin). }
      split.
      { simpl length. rewrite (skipn_nth_error _ _ _ Hnth).
        simpl. now rewrite Hmap. }
      destruct (wl_err out) as [err|].
      - destruct Herr as (Hno & earlier & c' & -> & Hcs).
        split; [exact Hno|].
        exists ((c, r) :: earlier), c'. split; [reflexivity|].
        constructor; [exact Hcont | exact Hcs].
      - destruct Herr as (Hcs & Hl). split.
        + constructor; [exact Hcont | exact Hcs].
        + simpl. lia. }
    destruct r as [info|err].
    + now apply Hgo.
    + destruct (isNoClassFile err) eqn:Eno.
      * apply Hgo; [exact H | exact Eno].
      * injection H as <-. simpl.
        exists [], [(c, GotError err)]. rewrite app_nil_r.
        split; [reflexivity|]. split; [reflexivity|].
        split; [constructor|]. split; [intros x []|].
        split; [intros x []|].
        split.
        { intros c' info [Heq|[]]. discriminate. }
        split.
        { simpl. now rewrite (skipn_nth_error _ _ _ En). }
        split; [exact Eno|].
        exists [], c. split; [reflexivity | constructor].
  - injection H as <-. simpl.
    exists [], []. rewrite !app_nil_r.
    split; [reflexivity|]. split; [reflexivity|].
    split; [constructor|]. split; [intros x []|].
    split; [intros x []|]. split; [intros c info []|].
    split; [reflexivity|]. split; [constructor|].
    apply nth_error_None in En. simpl. lia.
Qed.

(** The loop ends when the rows name classes of a finite set only: [Inv]
    holds of the states the loop goes through. *)
Lemma whilst_ends (Inv : St -> Prop) (U : list string) :
  (forall st c, Inv st -> Inv (fst (classInfo st c))) ->
  (forall st c info, Inv st -> snd (classInfo st c) = GotInfo info ->
     incl (depNames info) U) ->
  forall fuel st classes i calls base added,
    Inv st -> classes = base ++ added -> NoDup added -> incl added U ->
    i <= List.length classes ->
    List.length base + List.length U + 1 <= fuel + i ->
    exists out, whilst St classInfo fuel st classes i calls = Some out.
Proof.
  intros Hinv Hdeps.
  induction fuel as [|fuel IH];
    intros st classes i calls base added Hst -> Hnd Hincl Hi Hfuel.
  - exfalso. pose proof (NoDup_incl_length Hnd Hincl) as Hl.
    rewrite length_app in Hi. lia.
  - simpl. destruct (nth_error (base ++ added) i) as [c|] eqn:En;
      [|eauto].
    assert (Hlt : i < List.length (base ++ added)).
    { apply nth_error_Some. congruence. }
    pose proof (Hinv st c Hst) as Hst'.
    pose proof (Hdeps st c) as Hd.
    destruct (classInfo st c) as [st' r]. simpl in Hst', Hd.
    destruct (addDependencies_grows r (base ++ added))
      as (a1 & Ea & Hnd1 & Hnew1 & Hfrom1 & _).
    assert (Hgo : exists out,
      whilst St classInfo fuel st' (addDependencies r (base ++ added))
        (S i) (calls ++ [(c, r)]) = Some out).
    { apply (IH _ _ _ _ base (added ++ a1)); auto.
      - now rewrite Ea, app_assoc.
      - apply NoDup_app_disjoint; auto.
        intros x Hx1 Hx. apply (Hnew1 x Hx1). apply in_or_app. now right.
      - intros x Hx. apply in_app_or in Hx. destruct Hx as [Hx|Hx]; auto.
        destruct (Hfrom1 x Hx) as (info & -> & Hin).
        now apply (Hd info Hst eq_refl).
      - rewrite Ea, length_app. lia.
      - lia. }
    destruct r as [info|err]; [exact Hgo|].
    destruct (isNoClassFile err); [exact Hgo | eauto].
Qed.

End WhilstFacts.

(** X9: the class list is closed under [dependsOn].  When the worklist
    ends, every name that a delivered row depends on is in the list; the
    list holds nothing but the seeds and such names; and when the loop
    went to the end of the list, [getClassInfo] was asked for every class
    of it, in list order. *)
Theorem worklist_closed_under_dependsOn
    (St : Type) (classInfo : St -> string -> St * ClassInfoResult)
    (fuel : nat) (st : St) (seeds : list string) (out : Worklist St) :
  whilst St classInfo fuel st seeds 0 [] = Some out ->
  (forall c info, In (c, GotInfo info) (wl_calls out) ->
     forall d, In d (depNames info) -> In d (wl_classes out)) /\
  (forall x, In x (wl_classes out) ->
     In x seeds \/
     exists c info,
       In (c, GotInfo info) (wl_calls out) /\ In x (depNames info)) /\
  (wl_err out = None -> map fst (wl_calls out) = wl_classes out).
Proof.
  intros H.
  destruct (whilst_run St classInfo _ _ _ _ _ _ H)
    as (added & nc & Ecl & Eca & Hnd & Hnew & Hfrom & Hclo & Hmap & Herr).
  simpl in Eca. subst nc. split; [exact Hclo|]. split.
  - intros x Hx. rewrite Ecl in Hx. apply in_app_or in Hx.
    destruct Hx as [Hx|Hx]; [now left | right; auto].
  - intros He. rewrite He in Herr. destruct Herr as (_ & Hl).
    rewrite Hmap. simpl. rewrite Hl, Nat.sub_0_r. apply firstn_all.
Qed.

(** X9 (witness): from the seed "app.A" the list grows to the four names
    that the rows reach. *)
Lemma worklist_closed_witness :
  match analyseWorklist appClassFile 10 appSources [] ["app.A"] with
  | Some out => In "lib.Missing" (wl_classes out)
  | None => False
  end.
Proof.
  destruct (analyseWorklist appClassFile 10 appSources [] ["app.A"])
    as [out|] eqn:E.
  - destruct (worklist_closed_under_dependsOn _ _ _ _ _ _ E) as (Hclo & _).
    assert (Hc : exists info,
               In ("app.B", GotInfo info) (wl_calls out) /\
               In "lib.Missing" (depNames info)).
    { vm_compute in E. injection E as <-. simpl.
      eexists. split; [right; left; reflexivity|].
      vm_compute. right. now left. }
    destruct Hc as (info & Hin & Hd). exact (Hclo _ _ Hin _ Hd).
  - vm_compute in E. discriminate.
Defined.

(** X10: the list only grows at its end, and no class is asked twice.
    The seeds stay in front in their order, the names added behind them
    are distinct and none of them is a seed, and the classes asked are
    the front of the list, in list order; so when no seed is repeated, no
    class is asked twice. *)
Theorem worklist_asks_in_list_order
    (St : Type) (classInfo : St -> string -> St * ClassInfoResult)
    (fuel : nat) (st : St) (seeds : list string) (out : Worklist St) :
  whilst St classInfo fuel st seeds 0 [] = Some out ->
  exists added,
    wl_classes out = seeds ++ added /\
    NoDup added /\
    (forall x, In x added -> ~ In x seeds) /\
    map fst (wl_calls out)
    = firstn (List.length (wl_calls out)) (wl_classes out) /\
    (NoDup seeds ->
     NoDup (wl_classes out) /\ NoDup (map fst (wl_calls out))).
Proof.
  intros H.
  destruct (whilst_run St classInfo _ _ _ _ _ _ H)
    as (added & nc & Ecl & Eca & Hnd & Hnew & Hfrom & Hclo & Hmap & Herr).
  simpl in Eca. subst nc. exists added.
  split; [exact Ecl|]. split; [exact Hnd|]. split; [exact Hnew|].
  split; [exact Hmap|].
  intros Hs.
  assert (Hall : NoDup (wl_classes out)).
  { rewrite Ecl. now apply NoDup_app_disjoint. }
  split; [exact Hall|].
  rewrite Hmap. simpl.
  rewrite <- (firstn_skipn (List.length (wl_calls out)) (wl_classes out))
    in Hall.
  now apply NoDup_app_remove_r in Hall.
Qed.

(** X10 (witness): the run from "app.A". *)
Lemma worklist_asks_in_list_order_witness :
  match analyseWorklist appClassFile 10 appSources [] ["app.A"] with
  | Some out => NoDup (map fst (wl_calls out))
  | None => False
  end.
Proof.
  destruct (analyseWorklist appClassFile 10 appSources [] ["app.A"])
    as [out|] eqn:E.
  - destruct (worklist_asks_in_list_order _ _ _ _ _ _ E)
      as (added & _ & _ & _ & _ & Hnd).
    apply Hnd. repeat constructor. simpl. tauto.
  - vm_compute in E. discriminate.
Defined.

(** X11: the errors of the worklist.  The error ENOCLASSFILE never ends
    the loop; any other error ends it with the class that raised it, so
    that error is the last call of the log and the done-callback gets
    it.  A loop that ends without an error has asked for every class of
    the list. *)
Theorem worklist_stops_at_first_error
    (St : Type) (classInfo : St -> string -> St * ClassInfoResult)
    (fuel : nat) (st : St) (seeds : list string) (out : Worklist St) :
  whilst St classInfo fuel st seeds 0 [] = Some out ->
  match wl_err out with
  | None =>
      Forall (fun cr => continues (snd cr) = true) (wl_calls out) /\
      List.length (wl_calls out) = List.length (wl_classes out)
  | Some err =>
      isNoClassFile err = false /\
      exists earlier c,
        wl_calls out = earlier ++ [(c, GotError err)] /\
        Forall (fun cr => continues (snd cr) = true) earlier
  end.
Proof.
  intros H.
  destruct (whilst_run St classInfo _ _ _ _ _ _ H)
    as (added & nc & Ecl & Eca & Hnd & Hnew & Hfrom & Hclo & Hmap & Herr).
  simpl in Eca. subst nc.
  destruct (wl_err out); [exact Herr|].
  destruct Herr as (Hc & Hl). split; [exact Hc | lia].
Qed.

(** X11 (witness): [fs.stat] fails on the source of "app.B"; the loop
    ends with that error, which is the last call of the log. *)
Lemma worklist_stops_witness :
  match analyseWorklist appClassFile 10 appSourcesWithoutB [] ["app.A"] with
  | Some out =>
      exists err earlier c,
        wl_err out = Some err /\
        isNoClassFile err = false /\
        wl_calls out = earlier ++ [(c, GotError err)]
  | None => False
  end.
Proof.
  destruct (analyseWorklist appClassFile 10 appSourcesWithoutB [] ["app.A"])
    as [out|] eqn:E.
  - pose proof (worklist_stops_at_first_error _ _ _ _ _ _ E) as Hs.
    destruct (wl_err out) as [err|] eqn:Ee.
    + destruct Hs as (Hno & earlier & c & Hc & _).
      exists err, earlier, c. auto.
    + vm_compute in E. injection E as <-. discriminate Ee.
  - vm_compute in E. discriminate.
Defined.

(** The rows of the database and the rows that class files write name
    classes of [U] only. *)
Lemma getClassInfoRun_names newClassFile (U : list string) w db c force :
  Forall (fun kv => incl (depNames (snd kv)) U) db ->
  (forall w db c library row,
     incl (depNames
             (classFile_writeDbInfo (newClassFile w db c library) row)) U) ->
  match getClassInfoRun newClassFile w db c force with
  | (_, db', r, _) =>
      Forall (fun kv => incl (depNames (snd kv)) U) db' /\
      (forall info, r = GotInfo info -> incl (depNames info) U)
  end.
Proof.
  intros Hdb Hcf. unfold getClassInfoRun.
  destruct (getClassInfo w db c force) as [info|newInfo oldInfo|e] eqn:E.
  - split; [exact Hdb|]. intros info' [= <-].
    apply getClassInfo_cached_iff in E. destruct E as (_ & Hg & _).
    apply get_In in Hg. rewrite Forall_forall in Hdb.
    exact (Hdb _ Hg).
  - unfold compileClass.
    assert (Hnew : dependsOn newInfo = None).
    { unfold getClassInfo in E.
      destruct (getLibraryFromClassname w c) as [library|]; [|discriminate].
      destruct (stat_source w library c) as [stat|]; [|discriminate].
      assert (Hs : forall o, scanFile db c library stat o
                             = Compile newInfo oldInfo ->
                             dependsOn newInfo = None).
      { intros o Ho.
        destruct (scanFile_cached_or_compile db c library stat o)
          as [[info Hi]|Hi]; rewrite Hi in Ho; [discriminate|].
        now injection Ho as <- _. }
      destruct (negb (exists_output w c) || force); [now apply (Hs None)|].
      destruct (negb (exists_meta w c)); [now apply (Hs None)|].
      destruct (stat_output w c) as [o|]; [|discriminate].
      now apply (Hs (Some o)). }
    assert (Hdb1 : Forall (fun kv => incl (depNames (snd kv)) U)
                     (JsObj.set c newInfo db)).
    { apply Forall_set; [exact Hdb|]. simpl. unfold depNames.
      rewrite Hnew. intros x []. }
    destruct (classFile_load
                (newClassFile w (JsObj.set c newInfo db) c
                   (libraryName newInfo))).
    + split.
      * apply Forall_set; [exact Hdb1 | apply Hcf].
      * intros info [= <-]. apply Hcf.
    + split; [exact Hdb1 | discriminate].
  - split; [exact Hdb | discriminate].
Qed.

(** X12: the worklist ends.  When the rows of the database and the rows
    that class files write depend on classes of a finite set only, the
    loop of [analyseClasses] ends within as many turns as there are seeds
    and classes in that set, and one more. *)
Theorem analyseWorklist_ends
    (newClassFile : World -> ClassInfoDb -> string -> string -> ClassFile)
    (U : list string) (w : World) (db : ClassInfoDb) (seeds : list string)
    (fuel : nat) :
  Forall (fun kv => incl (depNames (snd kv)) U) db ->
  (forall w db c library row,
     incl (depNames
             (classFile_writeDbInfo (newClassFile w db c library) row)) U) ->
  List.length seeds + List.length U < fuel ->
  exists out, analyseWorklist newClassFile fuel w db seeds = Some out.
Proof.
  intros Hdb Hcf Hfuel. unfold analyseWorklist.
  apply (whilst_ends _ _
           (fun st => Forall (fun kv => incl (depNames (snd kv)) U)
                        (snd (fst st)))
           U) with (base := seeds) (added := []).
  - intros [[w0 db0] col] c Hst. simpl in Hst.
    pose proof (getClassInfoRun_names newClassFile U w0 db0 c false Hst Hcf)
      as Hr.
    unfold worklistStep.
    destruct (getClassInfoRun newClassFile w0 db0 c false)
      as [[[w' db'] r] data].
    destruct Hr as (Hr & _). now destruct data.
  - intros [[w0 db0] col] c info Hst. simpl in Hst.
    pose proof (getClassInfoRun_names newClassFile U w0 db0 c false Hst Hcf)
      as Hr.
    unfold worklistStep.
    destruct (getClassInfoRun newClassFile w0 db0 c false)
      as [[[w' db'] r] data].
    destruct Hr as (_ & Hr). destruct data; simpl; intros ->; now apply Hr.
  - exact Hdb.
  - now rewrite app_nil_r.
  - constructor.
  - intros x [].
  - lia.
  - lia.
Qed.

(** X12 (witness): the classes of "app" name [appClasses] only; six turns
    are enough from one seed. *)
Lemma analyseWorklist_ends_witness :
  exists out, analyseWorklist appClassFile 6 appSources [] ["app.A"] = Some out.
Proof.
  apply (analyseWorklist_ends appClassFile appClasses).
  - constructor.
  - intros w db c library row. unfold appClassFile, depNames, appDependsOn.
    simpl.
    destruct (String.eqb c "app.A"); [|destruct (String.eqb c "app.B")];
      intros x Hx; simpl in *; unfold appClasses; simpl; tauto.
  - simpl. lia.
Defined.

(** ** getClassInfo: compiling *)

Lemma getClassInfo_compile_inv w db c force newInfo oldInfo :
  getClassInfo w db c force = Compile newInfo oldInfo ->
  oldInfo = JsObj.get c db /\
  exists library t,
    getLibraryFromClassname w c = Some library /\
    stat_source w library c = Some t /\
    newInfo = mkDbClassInfo (MTimeAt t) library None None None None.
Proof.
  unfold getClassInfo.
  destruct (getLibraryFromClassname w c) as [library|] eqn:El;
    [|discriminate].
  destruct (stat_source w library c) as [t|] eqn:Et; [|discriminate].
  assert (Hs : forall o,
    scanFile db c library t o = Compile newInfo oldInfo ->
    oldInfo = JsObj.get c db /\
    exists library0 t0,
      Some library = Some library0 /\ stat_source w library0 c = Some t0 /\
      newInfo = mkDbClassInfo (MTimeAt t0) library0 None None None None).
  { intros o Ho.
    destruct (scanFile_cached_or_compile db c library t o)
      as [[info Hi]|Hi]; rewrite Hi in Ho; [discriminate|].
    injection Ho as <- <-. split; [reflexivity|].
    exists library, t. auto. }
  destruct (negb (exists_output w c) || force); [apply (Hs None)|].
  destruct (negb (exists_meta w c)); [apply (Hs None)|].
  destruct (stat_output w c) as [o|]; [|discriminate].
  apply (Hs (Some o)).
Qed.

(** The row that goes to the callback is the row of the class in the
    database. *)
Lemma getClassInfoRun_delivers newClassFile w db className forceScan :
  match getClassInfoRun newClassFile w db className forceScan with
  | (_, db', r, _) =>
      forall info, r = GotInfo info -> JsObj.get className db' = Some info
  end.
Proof.
  unfold getClassInfoRun.
  destruct (getClassInfo w db className forceScan)
    as [info|newInfo oldInfo|e] eqn:E.
  - apply getClassInfo_cached_iff in E. destruct E as (_ & Hg & _).
    now intros ? [= <-].
  - unfold compileClass.
    destruct (classFile_load
                (newClassFile w (JsObj.set className newInfo db) className
                   (libraryName newInfo))); [|discriminate].
    intros info [= <-]. apply get_set_same.
  - discriminate.
Qed.

(** X13: [getClassInfo] writes one row.  Whatever the call does, the rows
    of the other classes stay as they are; a row that goes to the callback
    is the row that the database then holds for the class; the
    "compiledClass" event carries that row and, as the old one, the row
    that the database held before the call; and a row delivered without
    the event leaves the database and the files as they were. *)
Theorem getClassInfo_writes_one_row
    (newClassFile : World -> ClassInfoDb -> string -> string -> ClassFile)
    (w : World) (db : ClassInfoDb) (className : string) (forceScan : bool) :
  match getClassInfoRun newClassFile w db className forceScan with
  | (w', db', r, data) =>
      (forall c, c <> className -> JsObj.get c db' = JsObj.get c db) /\
      (forall info, r = GotInfo info ->
         JsObj.get className db' = Some info) /\
      (forall ev, data = Some ev ->
         r = GotInfo (dbClassInfo ev) /\
         oldDbClassInfo ev = JsObj.get className db) /\
      (forall info, r = GotInfo info -> data = None -> db' = db /\ w' = w)
  end.
Proof.
  unfold getClassInfoRun.
  destruct (getClassInfo w db className forceScan)
    as [info|newInfo oldInfo|e] eqn:E.
  - apply getClassInfo_cached_iff in E. destruct E as (_ & Hg & _).
    split; [reflexivity|]. split; [now intros ? [= <-]|].
    split; [discriminate | auto].
  - destruct (getClassInfo_compile_inv _ _ _ _ _ _ E) as (-> & _).
    unfold compileClass.
    destruct (classFile_load
                (newClassFile w (JsObj.set className newInfo db) className
                   (libraryName newInfo))).
    + split; [|split; [|split]].
      * intros c Hc. rewrite !get_set_other; auto.
      * intros info [= <-]. apply get_set_same.
      * intros ev [= <-]. simpl. auto.
      * discriminate.
    + split; [|split; [|split]]; try discriminate.
      intros c Hc. rewrite get_set_other; auto.
  - split; [reflexivity|]. split; [discriminate|].
    split; discriminate.
Qed.

(** X14: a failed load costs the old row.  When [classFile.load] fails, no
    event is fired and the database holds the new row for the class, with
    the time of the source file and the name of the library and nothing
    else: what an earlier run had recorded for the class is gone. *)
Theorem failed_load_leaves_bare_row
    (newClassFile : World -> ClassInfoDb -> string -> string -> ClassFile)
    (w : World) (db : ClassInfoDb) (className : string) (forceScan : bool)
    (code : option string) (w' : World) (db' : ClassInfoDb)
    (data : option CompiledClass) :
  getClassInfoRun newClassFile w db className forceScan
  = (w', db', GotError (LoadError code), data) ->
  data = None /\
  exists library t,
    getLibraryFromClassname w className = Some library /\
    stat_source w library className = Some t /\
    JsObj.get className db'
    = Some (mkDbClassInfo (MTimeAt t) library None None None None).
Proof.
  unfold getClassInfoRun.
  destruct (getClassInfo w db className forceScan)
    as [info|newInfo oldInfo|e] eqn:E; try discriminate.
  destruct (getClassInfo_compile_inv _ _ _ _ _ _ E)
    as (-> & library & t & Hl & Ht & ->).
  unfold compileClass.
  destruct (classFile_load _); [discriminate|].
  intros [= <- <- <- <-]. split; [reflexivity|].
  exists library, t. split; [exact Hl|]. split; [exact Ht|].
  apply get_set_same.
Qed.

(** X14 (witness): "app.A" had a superclass and a dependency in the
    database; after the failed load the row has neither. *)
Lemma failed_load_witness :
  exists library t,
    getLibraryFromClassname appSources "app.A" = Some library /\
    stat_source appSources library "app.A" = Some t /\
    JsObj.get "app.A"
      (snd (fst (fst (getClassInfoRun brokenClassFile appSources dbWithA
                        "app.A" false))))
    = Some (mkDbClassInfo (MTimeAt t) library None None None None).
Proof.
  destruct (failed_load_leaves_bare_row brokenClassFile appSources dbWithA
              "app.A" false None appSources
              (snd (fst (fst (getClassInfoRun brokenClassFile appSources
                                dbWithA "app.A" false))))
              None eq_refl) as (_ & H).
  exact H.
Defined.

(** ** The database *)

(** X15: [getCachedClassInfo] after [getClassInfo].  Once [getClassInfo]
    has been called, [getCachedClassInfo] does not throw, and for the
    class of the call it returns the row that went to the callback. *)
Theorem getCachedClassInfo_after_getClassInfo
    (newClassFile : World -> ClassInfoDb -> string -> string -> ClassFile)
    (w : World) (db : option Database) (className : string)
    (forceScan : bool) :
  match getClassInfoOn newClassFile w db className forceScan with
  | (_, db', r, _) =>
      (forall info, r = GotInfo info ->
         getCachedClassInfo db' className = Done (Is info)) /\
      (forall c, exists row, getCachedClassInfo db' c = Done row)
  end.
Proof.
  unfold getClassInfoOn.
  pose proof (getClassInfoRun_delivers newClassFile w
                (match db with
                 | Some d => optList (classInfo d)
                 | None => []
                 end) className forceScan) as H.
  destruct (getClassInfoRun newClassFile w _ className forceScan)
    as [[[w' rows'] r] data].
  split.
  - intros info Hr. simpl. now rewrite (H info Hr).
  - intros c. simpl. eauto.
Qed.


(** ** The lift, exactly *)

Lemma In_get {A} k (v : A) o :
  NoDup (JsObj.keys o) -> In (k, v) o -> JsObj.get k o = Some v.
Proof.
  induction o as [|[k0 v0] o IH]; simpl; [tauto|].
  intros Hnd [Heq|Hin].
  - injection Heq as -> ->. now rewrite String.eqb_refl.
  - inversion Hnd as [|? ? Hn Hnd']; subst.
    destruct (String.eqb_spec k k0) as [->|Hne]; [|auto].
    exfalso. apply Hn. now apply (in_map fst) in Hin.
Qed.

Lemma setLoad_load_inv info d x :
  infoLoad (setLoad info d) x = true -> infoLoad info x = true \/ x = d.
Proof.
  unfold infoLoad, setLoad. simpl. rewrite get_set.
  destruct (String.eqb_spec d x) as [->|Hne]; [now right|].
  intros H. left. destruct (dependsOn info); auto.
Qed.

Lemma fold_setLoad_inv deps : forall info x,
  infoLoad (fold_left setLoad deps info) x = true ->
  infoLoad info x = true \/ In x deps.
Proof.
  induction deps as [|d deps IH]; intros info x; simpl; [auto|].
  intros H. destruct (IH _ _ H) as [H1|H1]; [|auto].
  destruct (setLoad_load_inv _ _ _ H1) as [H2| ->]; auto.
Qed.

Lemma getConstructDependencies_inv db d e cs :
  distinctDependsOn db ->
  getConstructDependencies db d = Some cs -> In e cs ->
  constructFlag db d e = true.
Proof.
  intros Hdb. unfold getConstructDependencies. rewrite constructFlag_info.
  destruct (JsObj.get d db) as [i|] eqn:Ei; [|discriminate].
  unfold infoConstruct. destruct (dependsOn i) as [deps|] eqn:Ed.
  - intros [= <-] Hin. apply in_map_iff in Hin.
    destruct Hin as ([e' f] & He & Hf). simpl in He. subst e'.
    apply filter_In in Hf. destruct Hf as (Hf & Hc). simpl in Hc.
    now rewrite (In_get _ _ _ (Hdb _ _ _ Ei Ed) Hf).
  - intros [= <-] [].
Qed.

Lemma indirectLoadOf_inv db deps : forall l e,
  indirectLoadOf db deps = Some l -> In e l ->
  exists d f cs,
    In (d, f) deps /\ load f = true /\
    getConstructDependencies db d = Some cs /\ In e cs.
Proof.
  induction deps as [|[d0 f0] deps IH]; intros l e; simpl.
  - intros [= <-] [].
  - destruct (load f0) eqn:El.
    + destruct (getConstructDependencies db d0) as [cs|] eqn:Ec;
        [|discriminate].
      destruct (indirectLoadOf db deps) as [more|] eqn:Em; [|discriminate].
      intros [= <-] Hin. apply in_app_or in Hin. destruct Hin as [Hin|Hin].
      * exists d0, f0, cs. auto.
      * destruct (IH _ _ eq_refl Hin) as (d & f & cs' & H1 & H2 & H3 & H4).
        exists d, f, cs'. auto.
    + intros Hl Hin.
      destruct (IH _ _ Hl Hin) as (d & f & cs' & H1 & H2 & H3 & H4).
      exists d, f, cs'. auto.
Qed.

(** One turn of the lift sets the flags of the construct dependencies of
    the load dependencies of its class, and no other. *)
Lemma liftClass_exact db c db' :
  distinctDependsOn db ->
  liftClass db c = Some db' ->
  forall x e,
    loadFlag db' x e = true <->
    loadFlag db x e = true \/
    (x = c /\ exists d, loadFlag db c d = true /\ constructFlag db d e = true).
Proof.
  intros Hdb Hl x e. split.
  - revert Hl. unfold liftClass.
    destruct (getIndirectLoadDependencies db c) as [deps|] eqn:Ed;
      [|discriminate].
    destruct (JsObj.get c db) as [info|] eqn:Ec; [|intros [= <-]; auto].
    intros [= <-]. rewrite !loadFlag_info, get_set.
    destruct (String.eqb_spec c x) as [<-|Hne]; [|auto].
    rewrite Ec. intros H. destruct (fold_setLoad_inv _ _ _ H) as [H1|H1];
      [auto|].
    right. split; [reflexivity|].
    unfold getIndirectLoadDependencies in Ed. rewrite Ec in Ed.
    destruct (dependsOn info) as [ds|] eqn:Eds.
    + destruct (indirectLoadOf_inv _ _ _ _ Ed H1)
        as (d & f & cs & Hin & Hload & Hcs & He).
      exists d. split.
      * rewrite loadFlag_info, Ec. unfold infoLoad. rewrite Eds.
        now rewrite (In_get _ _ _ (Hdb _ _ _ Ec Eds) Hin).
      * eapply getConstructDependencies_inv; eauto.
    + injection Ed as <-. destruct H1.
  - destruct (liftClass_spec _ _ _ Hl) as (_ & Hmono & Hlift).
    intros [H|(-> & d & H1 & H2)]; eauto.
Qed.

Lemma setLoad_distinct info d deps :
  (forall ds, dependsOn info = Some ds -> NoDup (JsObj.keys ds)) ->
  dependsOn (setLoad info d) = Some deps -> NoDup (JsObj.keys deps).
Proof.
  unfold setLoad. simpl. intros H [= <-]. apply NoDup_keys_set.
  destruct (dependsOn info); [now apply H | constructor].
Qed.

Lemma fold_setLoad_distinct l : forall info deps,
  (forall ds, dependsOn info = Some ds -> NoDup (JsObj.keys ds)) ->
  dependsOn (fold_left setLoad l info) = Some deps ->
  NoDup (JsObj.keys deps).
Proof.
  induction l as [|d l IH]; intros info deps H; simpl; [now apply H|].
  apply IH. intros ds. now apply setLoad_distinct.
Qed.

Lemma liftClass_distinct db c db' :
  distinctDependsOn db -> liftClass db c = Some db' ->
  distinctDependsOn db'.
Proof.
  intros Hdb. unfold liftClass.
  destruct (getIndirectLoadDependencies db c) as [deps|]; [|discriminate].
  destruct (JsObj.get c db) as [info|] eqn:Ec; [|now intros [= <-]].
  intros [= <-] x i ds. rewrite get_set.
  destruct (String.eqb_spec c x) as [<-|Hne]; [|apply Hdb].
  intros [= <-]. apply fold_setLoad_distinct. intros ds'. now apply (Hdb c).
Qed.

(** X17: the lift is exact and one level deep.  When no class is listed
    twice and the lift runs to its end, a [load] flag is set afterwards
    exactly when it was set before, or when its class is in the list and
    the flagged name was a construct dependency of one of the class's load
    dependencies, flags read before the lift. *)
Theorem lift_sets_exactly_the_indirect_load_flags
    (classes : list string) : forall (db db' : ClassInfoDb),
  NoDup classes ->
  distinctDependsOn db ->
  liftIndirectLoad db classes = Some db' ->
  forall c e,
    loadFlag db' c e = true <->
    loadFlag db c e = true \/
    (In c classes /\
     exists d, loadFlag db c d = true /\ constructFlag db d e = true).
Proof.
  induction classes as [|c0 classes IH]; intros db db' Hnd Hdb; simpl.
  - intros [= <-] c e. split; [auto | intros [H|([] & _)]; exact H].
  - destruct (liftClass db c0) as [db1|] eqn:E1; [|discriminate].
    intros Hl c e. inversion Hnd as [|? ? Hn Hnd']; subst.
    pose proof (liftClass_exact _ _ _ Hdb E1) as Hex.
    destruct (liftClass_spec _ _ _ E1) as (Hcons & _ & _).
    rewrite (IH db1 db' Hnd' (liftClass_distinct _ _ _ Hdb E1) Hl c e).
    rewrite (Hex c e). split.
    + intros [[H|(-> & H)]|(Hin & d & H1 & H2)].
      * now left.
      * right. split; [now left | exact H].
      * right. split; [now right|]. exists d. split.
        -- apply Hex in H1. destruct H1 as [H1|(-> & _)]; [exact H1|].
           contradiction.
        -- now rewrite <- Hcons.
    + intros [H|([<-|Hin] & d & H1 & H2)].
      * left. now left.
      * left. right. split; [reflexivity|]. now exists d.
      * right. split; [exact Hin|]. exists d. split.
        -- apply Hex. now left.
        -- now rewrite Hcons.
Qed.

(** X17 (witness): in scenario S5 the lift sets [F.dependsOn.H.load], and
    it sets no flag on "G". *)
Lemma lift_exact_witness :
  match liftIndirectLoad dbS5 ["F"; "G"; "H"] with
  | Some db' =>
      loadFlag db' "F" "H" = true /\ loadFlag db' "G" "H" = false
  | None => False
  end.
Proof.
  assert (Hdb : distinctDependsOn dbS5).
  { intros c info deps Hg Hd. apply get_In in Hg. simpl in Hg.
    destruct Hg as [Hg|[Hg|[Hg|[]]]]; injection Hg as <- <-;
      simpl in Hd; try discriminate; injection Hd as <-;
      repeat constructor; simpl; tauto. }
  assert (Hnd : NoDup ["F"; "G"; "H"]).
  { repeat constructor; simpl; intuition discriminate. }
  destruct (liftIndirectLoad dbS5 ["F"; "G"; "H"]) as [db'|] eqn:E.
  - pose proof (lift_sets_exactly_the_indirect_load_flags _ _ _ Hnd Hdb E)
      as H.
    split.
    + apply H. right. split; [now left|]. exists "G". split; reflexivity.
    + destruct (loadFlag db' "G" "H") eqn:Eg; [|reflexivity].
      apply H in Eg. destruct Eg as [Eg|(_ & d & H1 & H2)].
      * vm_compute in Eg. discriminate.
      * exfalso. revert H1 H2. rewrite !loadFlag_info, !constructFlag_info.
        simpl. unfold infoLoad, infoConstruct. simpl.
        destruct (String.eqb d "H") eqn:Edh; [|discriminate].
        apply String.eqb_eq in Edh. subst d. discriminate.
  - vm_compute in E. discriminate.
Defined.

Lemma sameButLoad_refl info : sameButLoad info info.
Proof. unfold sameButLoad. auto 10. Qed.

Lemma sameButLoad_trans i1 i2 i3 :
  sameButLoad i1 i2 -> sameButLoad i2 i3 -> sameButLoad i1 i3.
Proof.
  intros (A1 & A2 & A3 & A4 & A5 & A6) (B1 & B2 & B3 & B4 & B5 & B6).
  unfold sameButLoad.
  repeat split; try congruence.
  - destruct (B6 d) as (-> & _). apply A6.
  - destruct (B6 d) as (_ & ->). apply A6.
Qed.

Lemma setLoad_runtime info d x :
  infoRuntime (setLoad info d) x = infoRuntime info x.
Proof.
  unfold infoRuntime, setLoad. simpl. rewrite get_set.
  destruct (String.eqb_spec d x) as [->|Hne].
  - simpl. destruct (dependsOn info) as [deps|]; simpl; auto.
    now destruct (JsObj.get x deps).
  - destruct (dependsOn info); auto.
Qed.

Lemma setLoad_sameButLoad info d : sameButLoad info (setLoad info d).
Proof.
  unfold sameButLoad. repeat split; try reflexivity.
  - apply setLoad_construct.
  - apply setLoad_runtime.
Qed.

Lemma fold_setLoad_sameButLoad deps : forall info,
  sameButLoad info (fold_left setLoad deps info).
Proof.
  induction deps as [|d deps IH]; intros info; simpl.
  - apply sameButLoad_refl.
  - eapply sameButLoad_trans; [apply setLoad_sameButLoad | apply IH].
Qed.

Lemma liftClass_frame db c db' :
  liftClass db c = Some db' ->
  JsObj.keys db' = JsObj.keys db /\
  (forall x, x <> c -> JsObj.get x db' = JsObj.get x db) /\
  (forall x info, JsObj.get x db = Some info ->
     exists info', JsObj.get x db' = Some info' /\ sameButLoad info info').
Proof.
  unfold liftClass.
  destruct (getIndirectLoadDependencies db c) as [deps|]; [|discriminate].
  destruct (JsObj.get c db) as [info|] eqn:Ec.
  - intros [= <-]. split; [|split].
    + rewrite keys_set. unfold JsObj.has. now rewrite Ec.
    + intros x Hx. apply get_set_other. congruence.
    + intros x i Hi. rewrite get_set.
      destruct (String.eqb_spec c x) as [<-|Hne].
      * rewrite Ec in Hi. injection Hi as <-.
        eexists. split; [reflexivity | apply fold_setLoad_sameButLoad].
      * exists i. split; [exact Hi | apply sameButLoad_refl].
  - intros [= <-]. split; [reflexivity|]. split; [reflexivity|].
    intros x i Hi. exists i. split; [exact Hi | apply sameButLoad_refl].
Qed.

(** X18: the lift changes [load] flags only.  When the lift runs to its
    end, the database has the same rows in the same order, the rows of the
    classes outside the list are untouched, and every other row has its
    time, its library, its superclass, interfaces and mixins and all its
    [construct] and [runtime] flags as before. *)
Theorem lift_changes_load_flags_only
    (classes : list string) : forall (db db' : ClassInfoDb),
  liftIndirectLoad db classes = Some db' ->
  JsObj.keys db' = JsObj.keys db /\
  (forall c, ~ In c classes -> JsObj.get c db' = JsObj.get c db) /\
  (forall c info, JsObj.get c db = Some info ->
     exists info', JsObj.get c db' = Some info' /\ sameButLoad info info').
Proof.
  induction classes as [|c0 classes IH]; intros db db'; simpl.
  - intros [= <-]. split; [reflexivity|]. split; [reflexivity|].
    intros c i Hi. exists i. split; [exact Hi | apply sameButLoad_refl].
  - destruct (liftClass db c0) as [db1|] eqn:E1; [|discriminate].
    intros Hl. destruct (liftClass_frame _ _ _ E1) as (K1 & O1 & R1).
    destruct (IH _ _ Hl) as (K2 & O2 & R2).
    split; [congruence|]. split.
    + intros c Hc. rewrite O2 by tauto. apply O1. intros ->. tauto.
    + intros c i Hi. destruct (R1 _ _ Hi) as (i1 & Hi1 & S1).
      destruct (R2 _ _ Hi1) as (i2 & Hi2 & S2).
      exists i2. split; [exact Hi2 | eapply sameButLoad_trans; eauto].
Qed.

(** X18 (witness): scenario S5 keeps its three rows. *)
Lemma lift_changes_load_flags_only_witness :
  match liftIndirectLoad dbS5 ["F"; "G"; "H"] with
  | Some db' => JsObj.keys db' = ["F"; "G"; "H"]
  | None => False
  end.
Proof.
  destruct (liftIndirectLoad dbS5 ["F"; "G"; "H"]) as [db'|] eqn:E.
  - destruct (lift_changes_load_flags_only _ _ _ E) as (K & _). exact K.
  - vm_compute in E. discriminate.
Defined.

(** ** Libraries *)

Lemma registryOf_snoc libs library :
  registryOf (libs ++ [library])
  = Libraries.addLibrary (registryOf libs) library.
Proof. unfold registryOf. now rewrite fold_left_app. Qed.

Lemma registryOf_libraries libs :
  Libraries.libraries (registryOf libs) = libs /\
  Libraries.classFiles (registryOf libs) = [].
Proof.
  induction libs as [|library libs IH] using rev_ind; [now split|].
  rewrite registryOf_snoc. simpl. destruct IH as (-> & ->). now split.
Qed.

Lemma firstLibraryOf_first className libs :
  match Libraries.firstLibraryOf libs className with
  | Some library =>
      firstWith (fun l => definesClass className l = true) libs library
  | None => forall l, In l libs -> definesClass className l = false
  end.
Proof.
  induction libs as [|l libs IH]; simpl; [tauto|].
  destruct (Libraries.isClassOrMember
              (Libraries.library_getSymbolType l className)) eqn:E.
  - exists [], libs. split; [reflexivity|]. split; [exact E | intros y []].
  - destruct (Libraries.firstLibraryOf libs className) as [library|].
    + destruct IH as (before & after & -> & Hp & Hb).
      exists (l :: before), after. split; [reflexivity|].
      split; [exact Hp|]. intros y [<-|Hy]; [|auto].
      unfold definesClass. now rewrite E.
    + intros y [<-|Hy]; auto.
Qed.

Lemma firstSymbolType_first name libs :
  match Libraries.firstSymbolType libs name with
  | Some info =>
      exists library,
        Libraries.library_getSymbolType library name = Some info /\
        firstWith (fun l => Libraries.library_getSymbolType l name <> None)
          libs library
  | None =>
      forall l, In l libs -> Libraries.library_getSymbolType l name = None
  end.
Proof.
  induction libs as [|l libs IH]; simpl; [tauto|].
  destruct (Libraries.library_getSymbolType l name) as [info|] eqn:E.
  - exists l. split; [exact E|]. exists [], libs.
    split; [reflexivity|]. split; [congruence | intros y []].
  - destruct (Libraries.firstSymbolType libs name) as [info|].
    + destruct IH as (library & Hi & before & after & -> & Hp & Hb).
      exists library. split; [exact Hi|].
      exists (l :: before), after. split; [reflexivity|].
      split; [exact Hp|]. intros y [<-|Hy]; [tauto | auto].
    + intros y [<-|Hy]; auto.
Qed.

(** X19: the library added first wins a name.  On a registry built by
    [addLibrary], [getLibraryFromClassname] returns the first library, in
    the order of the additions, that knows the name as a class or a
    member, and [null] when there is none; [getSymbolType] answers with
    the first library that knows the name at all. *)
Theorem class_lookup_prefers_the_first_library
    (libs : list Libraries.Library) (name : string) :
  match Libraries.getLibraryFromClassname (registryOf libs) name with
  | Some library =>
      firstWith (fun l => definesClass name l = true) libs library
  | None => forall l, In l libs -> definesClass name l = false
  end /\
  match Libraries.getSymbolType (registryOf libs) name with
  | Some info =>
      exists library,
        Libraries.library_getSymbolType library name = Some info /\
        firstWith (fun l => Libraries.library_getSymbolType l name <> None)
          libs library
  | None =>
      forall l, In l libs -> Libraries.library_getSymbolType l name = None
  end.
Proof.
  unfold Libraries.getLibraryFromClassname, Libraries.getSymbolType.
  destruct (registryOf_libraries libs) as (-> & ->). simpl. split.
  - apply firstLibraryOf_first.
  - apply firstSymbolType_first.
Qed.

Lemma findLibrary_last libs name :
  match Libraries.findLibrary (registryOf libs) name with
  | Is library =>
      lastWith (fun l => Libraries.getNamespace l = name) libs library
  | NoKey => forall l, In l libs -> Libraries.getNamespace l <> name
  | IsNull => False
  end.
Proof.
  induction libs as [|l libs IH] using rev_ind; [simpl; tauto|].
  rewrite registryOf_snoc. unfold Libraries.findLibrary in *. simpl.
  rewrite get_set.
  destruct (String.eqb_spec (Libraries.getNamespace l) name) as [E|E].
  - exists libs, []. split; [reflexivity|]. split; [exact E | intros y []].
  - destruct (JsObj.get name (Libraries.librariesByNamespace (registryOf libs)))
      as [library|].
    + destruct IH as (before & after & -> & Hp & Ha).
      exists before, (after ++ [l]). split; [now rewrite <- app_assoc|].
      split; [exact Hp|]. intros y Hy. apply in_app_or in Hy.
      destruct Hy as [Hy|[<-|[]]]; auto.
    + intros y Hy. apply in_app_or in Hy.
      destruct Hy as [Hy|[<-|[]]]; auto.
Qed.

(** X20: the library added last wins a namespace.  On a registry built by
    [addLibrary], [findLibrary] returns the last library added with that
    namespace, and [undefined], never [null], when there is none, while
    [getLibraries] lists every library added, in order. *)
Theorem findLibrary_returns_the_last_library
    (libs : list Libraries.Library) (name : string) :
  match Libraries.findLibrary (registryOf libs) name with
  | Is library =>
      lastWith (fun l => Libraries.getNamespace l = name) libs library
  | NoKey => forall l, In l libs -> Libraries.getNamespace l <> name
  | IsNull => False
  end /\
  Libraries.getLibraries (registryOf libs) = libs.
Proof.
  split; [apply findLibrary_last | apply registryOf_libraries].
Qed.

(** X21: [getQooxdooPath] without the framework.  On a registry built by
    [addLibrary] the call never returns [null]: it throws a TypeError when
    no library has the namespace "qx", and returns the root of the last
    such library otherwise. *)
Theorem getQooxdooPath_throws_without_qx (libs : list Libraries.Library) :
  match Libraries.getQooxdooPath (registryOf libs) with
  | Done (Some path) =>
      exists library,
        lastWith (fun l => Libraries.getNamespace l = "qx") libs library /\
        path = Libraries.getRootDir library
  | Done None => False
  | Throws _ => forall l, In l libs -> Libraries.getNamespace l <> "qx"
  | NoReturn => False
  end.
Proof.
  unfold Libraries.getQooxdooPath.
  pose proof (findLibrary_last libs "qx") as H.
  destruct (Libraries.findLibrary (registryOf libs) "qx") as [| |library].
  - exact H.
  - exact H.
  - exists library. split; [exact H | reflexivity].
Qed.

(** X22: the version is cached.  On a registry built by [addLibrary],
    [getQooxdooVersion] stores what it returns; without a library of the
    namespace "qx" it does not throw but returns what it had; and once it
    has returned a version that is not empty, it returns that version
    whatever libraries are added afterwards. *)
Theorem getQooxdooVersion_keeps_the_first_answer
    (libs : list Libraries.Library) (qooxdooVersion : option string) :
  match Libraries.getQooxdooVersion (registryOf libs) qooxdooVersion with
  | (version, cached) =>
      cached = version /\
      ((forall l, In l libs -> Libraries.getNamespace l <> "qx") ->
       version = qooxdooVersion) /\
      (truthyOpt version = true ->
       forall more,
         Libraries.getQooxdooVersion (registryOf (libs ++ more)) cached
         = (version, version))
  end.
Proof.
  unfold Libraries.getQooxdooVersion.
  pose proof (findLibrary_last libs "qx") as H.
  destruct (truthyOpt qooxdooVersion) eqn:Et.
  - split; [reflexivity|]. split; [reflexivity|].
    intros _ more. now rewrite Et.
  - destruct (Libraries.findLibrary (registryOf libs) "qx") as [| |library].
    + split; [reflexivity|]. split; [reflexivity|]. congruence.
    + destruct H.
    + split; [reflexivity|]. split.
      * intros Hno. destruct H as (before & after & -> & Hq & _).
        exfalso. apply (Hno library); [|exact Hq].
        apply in_or_app. right. now left.
      * intros Hv more. now rewrite Hv.
Qed.

(** X23: ENOCLASSFILE is the missing file name.  With the library lookup
    of the registry, [getClassInfo] fails with ENOCLASSFILE exactly for
    the classes for which [getClassFilename] returns [null]: those that no
    library of the registry answers for. *)
Theorem no_class_file_without_filename
    (r : Libraries.Registry) (w : World) (db : ClassInfoDb)
    (className : string) (forceScan : bool) :
  (getClassInfo (worldOf r w) db className forceScan = Failed ENOCLASSFILE
   <-> Libraries.getClassFilename r className = None) /\
  (Libraries.getClassFilename r className = None
   <-> Libraries.getLibraryFromClassname r className = None).
Proof.
  unfold Libraries.getClassFilename, getClassInfo, worldOf. simpl.
  destruct (Libraries.getLibraryFromClassname r className) as [library|].
  - split; [|split; discriminate].
    split; [|discriminate].
    destruct (stat_source w (Libraries.getNamespace library) className)
      as [t|]; [|discriminate].
    assert (Hs : forall o,
              scanFile db className (Libraries.getNamespace library) t o
              <> Failed ENOCLASSFILE).
    { intros o.
      destruct (scanFile_cached_or_compile db className
                  (Libraries.getNamespace library) t o) as [[i ->]| ->];
        discriminate. }
    destruct (negb (exists_output w className) || forceScan);
      [intros H; now apply Hs in H|].
    destruct (negb (exists_meta w className));
      [intros H; now apply Hs in H|].
    destruct (stat_output w className) as [o|]; [|discriminate].
    intros H; now apply Hs in H.
  - split; split; reflexivity.
Qed.

(** ** Environment checks *)

Lemma get_deleteKey {A} k k' (o : JsObj.t A) :
  JsObj.get k' (deleteKey k o)
  = if String.eqb k k' then None else JsObj.get k' o.
Proof.
  unfold deleteKey. induction o as [|[k0 v0] o IH]; simpl.
  - now destruct (String.eqb k k').
  - destruct (String.eqb_spec k k0) as [<-|Hne]; simpl.
    + rewrite IH. destruct (String.eqb_spec k k') as [<-|Hne'].
      * reflexivity.
      * destruct (String.eqb_spec k' k); [congruence | reflexivity].
    + rewrite IH. destruct (String.eqb_spec k' k0) as [->|Hne'].
      * destruct (String.eqb_spec k k0); [congruence | reflexivity].
      * reflexivity.
Qed.

(** X24: an environment check, set and read.  After
    [setEnvironmentCheck(key, value)] with a key that is a name,
    [getEnvironmentCheck] returns the value for that key, which is
    [undefined] when the call deleted the key, and for every other key
    what it returned before. *)
Theorem getEnvironmentCheck_after_set
    (V : Type) (checks : JsObj.t (option V)) (key : string)
    (value : option V) (other : string) :
  getEnvironmentCheck V (setEnvironmentCheck V checks (KeyName key) value)
    other
  = if String.eqb key other then value
    else getEnvironmentCheck V checks other.
Proof.
  unfold getEnvironmentCheck, setEnvironmentCheck.
  destruct value as [v|].
  - rewrite get_set. now destruct (String.eqb key other).
  - rewrite get_deleteKey. now destruct (String.eqb key other).
Qed.

Lemma fold_set_get {A} (map : JsObj.t A) : forall o k,
  NoDup (JsObj.keys map) ->
  JsObj.get k (fold_left (fun c kv => JsObj.set (fst kv) (snd kv) c) map o)
  = match JsObj.get k map with
    | Some v => Some v
    | None => JsObj.get k o
    end.
Proof.
  induction map as [|[k0 v0] map IH]; intros o k Hnd; simpl; [reflexivity|].
  inversion Hnd as [|? ? Hn Hnd']; subst.
  rewrite IH by exact Hnd'. simpl.
  destruct (String.eqb_spec k k0) as [->|Hne].
  - apply get_None_keys in Hn. rewrite Hn. apply get_set_same.
  - destruct (JsObj.get k map); [reflexivity|].
    apply get_set_other. congruence.
Qed.

(** X25: environment checks set from a map.  After
    [setEnvironmentCheck(map)], whatever the second argument,
    [getEnvironmentCheck] returns for a key of the map the map's value,
    and for every other key what it returned before; with [null] for the
    map nothing changes. *)
Theorem getEnvironmentCheck_after_set_map
    (V : Type) (checks map : JsObj.t (option V)) (value : option V)
    (key : string) :
  NoDup (JsObj.keys map) ->
  getEnvironmentCheck V (setEnvironmentCheck V checks (KeyMap map) value) key
  = match JsObj.get key map with
    | Some v => v
    | None => getEnvironmentCheck V checks key
    end /\
  setEnvironmentCheck V checks KeyNull value = checks.
Proof.
  intros Hnd. split; [|reflexivity].
  unfold getEnvironmentCheck, setEnvironmentCheck.
  rewrite fold_set_get by exact Hnd.
  now destruct (JsObj.get key map).
Qed.

(** X25 (witness): a map that sets "qx.debug" and leaves "qx.aspects". *)
Lemma getEnvironmentCheck_after_set_map_witness :
  getEnvironmentCheck bool
    (setEnvironmentCheck bool [("qx.aspects", Some true)]
       (KeyMap [("qx.debug", Some false)]) None)
    "qx.debug"
  = Some false.
Proof.
  assert (Hnd : NoDup (JsObj.keys [("qx.debug", Some false)])).
  { repeat constructor. simpl. tauto. }
  destruct (getEnvironmentCheck_after_set_map bool
              [("qx.aspects", Some true)] [("qx.debug", Some false)] None
              "qx.debug" Hnd) as (H & _).
  exact H.
Defined.

(** ** The database file names *)

Lemma matchName_spec s :
  matchName s = true <-> s <> EmptyString /\ noSlash s = true.
Proof.
  destruct s; simpl.
  - split; [discriminate | intros (H & _); now destruct H].
  - split; [intros H; split; [discriminate | exact H] | tauto].
Qed.

Lemma noSlash_append_slash a b : noSlash (String.append a (String "/" b)) = false.
Proof.
  induction a as [|c a IH]; simpl; [reflexivity|].
  rewrite IH. apply andb_false_r.
Qed.

Lemma inDirectory_slash rest dir :
  inDirectory rest dir -> noSlash rest = false.
Proof. intros (name & -> & _). apply noSlash_append_slash. Qed.

Lemma inDirectory_cons c rest dir :
  inDirectory (String c rest) dir <->
  (dir = EmptyString /\ c = "/"%char /\ matchName rest = true) \/
  (exists dir0,
     dir = String c dir0 /\ isLineTerminator c = false /\
     inDirectory rest dir0).
Proof.
  split.
  - intros (name & H & Hd & Hn & Hs). destruct dir as [|c' dir]; simpl in *.
    + injection H as -> ->. left. split; [reflexivity|].
      split; [reflexivity|]. apply matchName_spec. auto.
    + injection H as <- ->. right. exists dir.
      apply andb_prop in Hd. destruct Hd as (Hc & Hd).
      split; [reflexivity|]. split; [now destruct (isLineTerminator c)|].
      exists name. auto.
  - intros [(-> & -> & Hm)|(dir0 & -> & Hc & name & -> & Hd & Hn & Hs)].
    + apply matchName_spec in Hm. exists rest. simpl. tauto.
    + exists name. simpl. rewrite Hc, Hd. auto.
Qed.

Lemma matchDir_spec s : forall dir,
  matchDir s = Some dir <-> inDirectory s dir.
Proof.
  induction s as [|c rest IH]; intros dir.
  - simpl. split; [discriminate|]. intros (name & H & _).
    destruct dir; discriminate.
  - rewrite inDirectory_cons. simpl.
    destruct (isLineTerminator c) eqn:Elt.
    + assert (Hs : isSlash c = false).
      { unfold isLineTerminator, isSlash in *.
        destruct (Ascii.eqb_spec c "/") as [->|]; [discriminate|reflexivity]. }
      rewrite Hs. simpl. split; [discriminate|].
      intros [(_ & -> & _)|(dir0 & _ & Hc & _)]; discriminate.
    + destruct (matchDir rest) as [dir'|] eqn:Em.
      * pose proof (proj1 (IH dir') eq_refl) as Hd'. split.
        -- intros [= <-]. right. exists dir'. auto.
        -- intros [(_ & _ & Hm)|(dir0 & -> & _ & H0)].
           ++ apply matchName_spec in Hm.
              rewrite (inDirectory_slash _ _ Hd') in Hm.
              destruct Hm; discriminate.
           ++ apply IH in H0. congruence.
      * destruct (isSlash c) eqn:Es; simpl.
        -- unfold isSlash in Es. apply Ascii.eqb_eq in Es. subst c.
           destruct (matchName rest) eqn:En.
           ++ split; [intros [= <-]; now left|].
              intros [(-> & _)|(dir0 & -> & _ & H0)]; [reflexivity|].
              apply IH in H0. discriminate.
           ++ split; [discriminate|].
              intros [(_ & _ & Hm)|(dir0 & -> & _ & H0)]; [discriminate|].
              apply IH in H0. discriminate.
        -- split; [discriminate|].
           intros [(_ & -> & _)|(dir0 & -> & _ & H0)]; [discriminate|].
           apply IH in H0. discriminate.
Qed.

(** X26: the resource database lies beside the database.  When the
    database file name is a directory on one line, a slash and a file
    name, [getResDbFilename] is "resource-db.json" in that directory; for
    every other name, such as one without a slash, one that ends in a
    slash or one with a line break before its last slash, it is the bare
    "resource-db.json". *)
Theorem getResDbFilename_beside_the_database (dbFilename : string) :
  (forall dir, inDirectory dbFilename dir ->
     getResDbFilename dbFilename = String.append dir "/resource-db.json") /\
  ((forall dir, ~ inDirectory dbFilename dir) ->
     getResDbFilename dbFilename = "resource-db.json") /\
  (noSlash dbFilename = true ->
     getResDbFilename dbFilename = "resource-db.json") /\
  (forall dir, dbFilename = String.append dir "/" ->
     getResDbFilename dbFilename = "resource-db.json").
Proof.
  unfold getResDbFilename.
  assert (Hnone : (forall dir, ~ inDirectory dbFilename dir) ->
                  matchDir dbFilename = None).
  { intros H. destruct (matchDir dbFilename) as [dir|] eqn:E; [|reflexivity].
    apply matchDir_spec in E. now apply H in E. }
  split; [|split; [|split]].
  - intros dir H. apply matchDir_spec in H. now rewrite H.
  - intros H. now rewrite Hnone.
  - intros H. rewrite Hnone; [reflexivity|].
    intros dir (name & -> & _). now rewrite noSlash_append_slash in H.
  - intros dir0 ->. rewrite Hnone; [reflexivity|].
    intros dir (name & H & _ & Hn & Hs).
    (* the name after the last slash would be empty *)
    assert (Hend : forall a b n,
              String.append a "/" = String.append b (String "/" n) ->
              noSlash n = true -> n = EmptyString).
    { induction a as [|c a IHa]; intros b n Hab Hns; simpl in Hab.
      - destruct b as [|c' b]; simpl in Hab.
        + now injection Hab as <-.
        + injection Hab as _ Hb. destruct b; discriminate.
      - destruct b as [|c' b]; simpl in Hab.
        + injection Hab as -> Hb. rewrite <- Hb in Hns.
          exfalso. clear -Hns. induction a as [|c a IH]; simpl in Hns.
          * discriminate.
          * apply andb_prop in Hns. tauto.
        + injection Hab as _ Hb. now apply (IHa b n). }
    apply Hn. now apply (Hend dir0 dir name).
Qed.

(** ** Translations *)

Lemma pushLine_get fileName included ref lineNo other :
  optList (JsObj.get other (pushLine fileName included ref lineNo))
  = if String.eqb fileName other
    then if included (optList (JsObj.get fileName ref))
         then optList (JsObj.get fileName ref)
         else optList (JsObj.get fileName ref) ++ [lineNo]
    else optList (JsObj.get other ref).
Proof.
  unfold pushLine.
  destruct (JsObj.get fileName ref) as [lines|] eqn:E; simpl.
  - rewrite E. simpl.
    destruct (included lines).
    + destruct (String.eqb_spec fileName other) as [<-|]; [|reflexivity].
      now rewrite E.
    + rewrite get_set. now destruct (String.eqb fileName other).
  - rewrite get_set_same. simpl.
    destruct (included []).
    + rewrite get_set.
      now destruct (String.eqb fileName other).
    + rewrite get_set, get_set.
      now destruct (String.eqb fileName other).
Qed.

Lemma fold_pushLine_get fileName ns : forall ref other,
  optList (JsObj.get other
             (fold_left (pushLine fileName (fun _ => false)) ns ref))
  = if String.eqb fileName other
    then optList (JsObj.get fileName ref) ++ ns
    else optList (JsObj.get other ref).
Proof.
  induction ns as [|n ns IH]; intros ref other; simpl.
  - rewrite app_nil_r.
    destruct (String.eqb_spec fileName other) as [<-|]; reflexivity.
  - rewrite IH. destruct (String.eqb_spec fileName other) as [<-|Hne].
    + rewrite pushLine_get, String.eqb_refl. now rewrite <- app_assoc.
    + rewrite pushLine_get.
      now destruct (String.eqb_spec fileName other).
Qed.

(** X27: the line references of a translation entry.  Recording a
    message of a class touches the references to the file of that class
    only.  A single line number is added unless it is listed already; the
    numbers of an array are all added behind those listed, whether they
    are listed already or not. *)
Theorem recordTranslation_references
    (classname : string) (src : TranslationSrc) (entry : Entry)
    (fileName : string) :
  referencesOf (recordTranslation classname src entry) fileName
  = if String.eqb (sourceFileOf classname) fileName
    then match src_lineNo src with
         | OneLine n =>
             if existsb (Z.eqb n) (referencesOf entry fileName)
             then referencesOf entry fileName
             else referencesOf entry fileName ++ [n]
         | Lines ns => referencesOf entry fileName ++ ns
         end
    else referencesOf entry fileName.
Proof.
  unfold referencesOf, recordTranslation, sourceFileOf. simpl.
  set (ref := match entry_comments entry with
              | Some c => optList (reference c)
              | None => []
              end).
  assert (Href : match entry_comments entry with
                 | Some c => optList (JsObj.get fileName (optList (reference c)))
                 | None => []
                 end = optList (JsObj.get fileName ref)).
  { unfold ref. now destruct (entry_comments entry). }
  rewrite Href.
  destruct (src_lineNo src) as [n|ns].
  - rewrite pushLine_get.
    destruct (String.eqb_spec
                (String.append (Libraries.dotsToSlashes classname) ".js")
                fileName) as [<-|]; reflexivity.
  - rewrite fold_pushLine_get.
    destruct (String.eqb_spec
                (String.append (Libraries.dotsToSlashes classname) ".js")
                fileName) as [<-|]; reflexivity.
Qed.

(** ** The caches *)

(** X28: CLDR data is loaded once.  After [getCldr] has delivered the data
    of a locale, every later call for that locale delivers the same data
    without a call of the loader, whatever was loaded for other locales
    in between; a failed load is not remembered. *)
Theorem getCldr_loads_once
    (Cldr : Type) (loadCLDR loadLater : string -> option Cldr)
    (cldrs : JsObj.t Cldr) (locale : string) :
  match getCldr Cldr loadCLDR cldrs locale with
  | (Some cldr, cldrs') =>
      (forall between,
         getCldr Cldr loadLater
           (fold_left (fun c l => snd (getCldr Cldr loadLater c l))
              between cldrs')
           locale
         = (Some cldr,
            fold_left (fun c l => snd (getCldr Cldr loadLater c l))
              between cldrs'))
  | (None, cldrs') => cldrs' = cldrs
  end.
Proof.
  assert (Hkeep : forall between c cldr,
            JsObj.get locale c = Some cldr ->
            JsObj.get locale
              (fold_left (fun c l => snd (getCldr Cldr loadLater c l))
                 between c) = Some cldr).
  { induction between as [|l between IH]; intros c cldr Hc; simpl; auto.
    apply IH. unfold getCldr.
    destruct (JsObj.get l c) eqn:El; simpl; auto.
    destruct (loadLater l); simpl; auto.
    rewrite get_set. destruct (String.eqb_spec l locale) as [->|]; auto.
    congruence. }
  unfold getCldr at 1.
  destruct (JsObj.get locale cldrs) as [cldr|] eqn:E.
  - intros between. unfold getCldr at 1.
    now rewrite (Hkeep between cldrs cldr E).
  - destruct (loadCLDR locale) as [cldr|]; [|reflexivity].
    intros between. unfold getCldr at 1.
    now rewrite (Hkeep between _ cldr (get_set_same _ _ _)).
Qed.

(** X29: a translation is read once, even when the read fails.  The first
    call of [getTranslation] for a library and a locale stores the
    translation before it is read; every later call for them delivers
    that translation without a read, also when the first read failed. *)
Theorem getTranslation_reads_once
    (checkRead : string * string -> bool)
    (translations : JsObj.t (string * string))
    (library : Libraries.Library) (locale : string) :
  match getTranslation checkRead translations library locale with
  | (_, translations') =>
      exists translation,
        forall checkLater,
          getTranslation checkLater translations' library locale
          = (Some translation, translations')
  end.
Proof.
  unfold getTranslation.
  set (id := String.append locale
               (String.append ":" (Libraries.getNamespace library))).
  destruct (JsObj.get id translations) as [translation|] eqn:E.
  - exists translation. intros checkLater. now rewrite E.
  - destruct (checkRead (Libraries.getNamespace library, locale));
      eexists; intros checkLater; now rewrite get_set_same.
Qed.

(** ** Members that the write-back creates *)

Lemma get_Forall {A} (P : string * A -> Prop) k v o :
  Forall P o -> JsObj.get k o = Some v -> P (k, v).
Proof.
  intros H Hg. apply get_In in Hg. rewrite Forall_forall in H. now apply H.
Qed.

Lemma recordEntity_noLengthKey meta first name property jsdoc tbl :
  (first = false -> className meta <> "length") ->
  noLengthKey tbl ->
  noLengthKey (recordEntity meta first name property jsdoc tbl).
Proof.
  intros Hq Ht. unfold recordEntity. apply Forall_set; [exact Ht|]. simpl.
  assert (H0 : JsObj.get "length"
                 (ei_appearsIn
                    match JsObj.get name tbl with
                    | Some e => e
                    | None =>
                        mkEntityInfo [] None None
                          (String.eqb (meta_type meta) "interface")
                          (String.eqb (meta_type meta) "mixin")
                          (negb first) (accessOf name) None false
                    end) = None).
  { destruct (JsObj.get name tbl) as [e|] eqn:E; [|reflexivity].
    apply (get_Forall _ _ _ _ Ht E). }
  destruct first; simpl; [exact H0|].
  rewrite get_set_other; [exact H0|]. now apply Hq.
Qed.

Lemma fold_left_invariant {A B} (P : A -> Prop) (f : A -> B -> A) l :
  (forall a b, P a -> P (f a b)) ->
  forall a, P a -> P (fold_left f l a).
Proof.
  intros H. induction l as [|b l IH]; intros a Ha; simpl; auto.
Qed.

Lemma recordEntities_noLengthKey meta first tbl :
  (first = false -> className meta <> "length") ->
  noLengthKey (ce_members tbl) /\ noLengthKey (ce_properties tbl) ->
  noLengthKey (ce_members (recordEntities meta first tbl)) /\
  noLengthKey (ce_properties (recordEntities meta first tbl)).
Proof.
  intros Hq (Hm & Hp). unfold recordEntities. simpl. split.
  - unfold recordMembers. destruct (members meta) as [ms|]; [|exact Hm].
    apply fold_left_invariant; [|exact Hm].
    intros t kv Ht. destruct (String.eqb (m_type (snd kv)) "function");
      [|exact Ht].
    now apply recordEntity_noLengthKey.
  - unfold recordProperties. destruct (properties meta) as [ps|];
      [|exact Hp].
    apply fold_left_invariant; [|exact Hp].
    intros t kv Ht. now apply recordEntity_noLengthKey.
Qed.

Lemma synthesizeAccessors_noLengthKey firstUp meta first tbl :
  noLengthKey tbl -> noLengthKey (synthesizeAccessors firstUp meta first tbl).
Proof.
  intros Ht. unfold synthesizeAccessors.
  destruct (properties meta) as [ps|]; [|exact Ht].
  apply fold_left_invariant; [|exact Ht].
  intros t kv Hk. apply fold_left_invariant; [|exact Hk].
  intros t' c Hk'. unfold applyAccessorCall, addPropertyAccessor.
  destruct (absentOrAbstract (JsObj.get (methodName c) t')); [|exact Hk'].
  apply Forall_set; [exact Hk'|]. simpl.
  destruct (JsObj.get (methodName c) t') as [e|] eqn:E; [|reflexivity].
  apply (get_Forall _ _ _ _ Hk' E).
Qed.

Lemma walkNames_noLengthKey
    (visit : Meta -> ClassEntities -> option ClassEntities) loadMeta names :
  (forall m t t',
     noLengthKey (ce_members t) /\ noLengthKey (ce_properties t) ->
     visit m t = Some t' -> className m <> "length" ->
     noLengthKey (ce_members t') /\ noLengthKey (ce_properties t')) ->
  (forall name m, loadMeta name = Some m -> className m <> "length") ->
  forall tbl tbl',
    noLengthKey (ce_members tbl) /\ noLengthKey (ce_properties tbl) ->
    walkNames visit loadMeta names tbl = Some tbl' ->
    noLengthKey (ce_members tbl') /\ noLengthKey (ce_properties tbl').
Proof.
  intros Hv Hl. induction names as [|name names IH]; intros tbl tbl' Ht;
    simpl.
  - now intros [= <-].
  - destruct (loadMeta name) as [m|] eqn:E; [|now apply IH].
    destruct (visit m tbl) as [t1|] eqn:E1; [|discriminate].
    apply IH. apply (Hv m tbl t1 Ht E1). now apply (Hl name).
Qed.

Lemma analyseClassEntities_noLengthKey firstUp loadMeta fuel :
  (forall name m, loadMeta name = Some m -> className m <> "length") ->
  forall meta first tbl tbl',
    (first = false -> className meta <> "length") ->
    noLengthKey (ce_members tbl) /\ noLengthKey (ce_properties tbl) ->
    analyseClassEntities firstUp fuel loadMeta meta first tbl = Some tbl' ->
    noLengthKey (ce_members tbl') /\ noLengthKey (ce_properties tbl').
Proof.
  intros Hl. induction fuel as [|fuel IH]; intros meta first tbl tbl' Hq Ht;
    simpl; [discriminate|].
  rewrite walkAncestors_names.
  destruct (walkNames _ loadMeta (ancestorNames meta)
              (recordEntities meta first tbl)) as [tbl4|] eqn:E;
    [|discriminate].
  intros [= <-]. simpl.
  assert (H4 : noLengthKey (ce_members tbl4) /\
               noLengthKey (ce_properties tbl4)).
  { apply (walkNames_noLengthKey _ _ _
             (fun m t t' Ht0 Hv Hm => IH m false t t' (fun _ => Hm) Ht0 Hv)
             Hl _ _ (recordEntities_noLengthKey _ _ _ Hq Ht) E). }
  destruct H4 as (Hm & Hp). split; [|exact Hp].
  now apply synthesizeAccessors_noLengthKey.
Qed.

Lemma materializeMember_step st k info :
  JsObj.keys (fst (materializeMember st (k, info))) = JsObj.keys (fst st) \/
  (JsObj.get k (fst st) = None /\
   ei_abstract info || ei_mixin info || truthyOpt (ei_property info) = true /\
   fst (materializeMember st (k, info))
   = JsObj.set k (materializedMember k info) (fst st)).
Proof.
  unfold materializeMember. simpl.
  destruct (JsObj.get k (fst st)) as [memberMeta|] eqn:Eg.
  - left. destruct (String.eqb (m_type memberMeta) "variable");
      [|reflexivity].
    simpl. rewrite keys_set. unfold JsObj.has. now rewrite Eg.
  - destruct (ei_abstract info || ei_mixin info
              || truthyOpt (ei_property info)); [|now left].
    right. auto.
Qed.

(** Later turns leave a created entry alone: its type is "function". *)
Lemma materializeMember_stays k info rest : forall s,
  JsObj.get k (fst s) = Some (materializedMember k info) ->
  JsObj.get k (fst (fold_left materializeMember rest s))
  = Some (materializedMember k info).
Proof.
  induction rest as [|[k' i'] rest IHr]; intros s Hs; simpl; [exact Hs|].
  apply IHr. unfold materializeMember. simpl.
  destruct (String.eqb_spec k' k) as [->|Hne].
  - rewrite Hs. simpl. exact Hs.
  - destruct (JsObj.get k' (fst s)) as [mm|].
    + destruct (String.eqb (m_type mm) "variable"); simpl; [|exact Hs].
      rewrite get_set_other; [exact Hs | exact Hne].
    + destruct (ei_abstract i' || ei_mixin i' || truthyOpt (ei_property i'));
        simpl; [|exact Hs].
      rewrite get_set_other; [exact Hs | exact Hne].
Qed.

Lemma materializeMember_abstract rest : forall s,
  snd s = Some true ->
  snd (fold_left materializeMember rest s) = Some true.
Proof.
  induction rest as [|[k' i'] rest IHr]; intros s Hs; simpl; [exact Hs|].
  apply IHr. unfold materializeMember. simpl.
  destruct (JsObj.get k' (fst s)) as [mm|].
  - now destruct (String.eqb (m_type mm) "variable").
  - destruct (ei_abstract i' || ei_mixin i' || truthyOpt (ei_property i'));
      [|exact Hs].
    simpl. now destruct (ei_abstract i').
Qed.

(** What the loop over [classEntities.members] leaves in [meta.members]:
    the keys it found, in their order, and behind them the entries it
    created. *)
Lemma materializeMember_created tbl : forall st,
  noLengthKey tbl ->
  exists added,
    JsObj.keys (fst (fold_left materializeMember tbl st))
    = JsObj.keys (fst st) ++ added /\
    forall name, In name added ->
      exists entry,
        JsObj.get name (fst (fold_left materializeMember tbl st))
        = Some entry /\
        createdMember name entry /\
        (m_abstract entry = Some true ->
         snd (fold_left materializeMember tbl st) = Some true).
Proof.
  induction tbl as [|[k info] tbl IH]; intros st Ht; simpl.
  - exists []. rewrite app_nil_r. split; [reflexivity | intros n []].
  - inversion Ht as [|? ? Hk Ht']; subst. simpl in Hk.
    destruct (IH (materializeMember st (k, info)) Ht') as (added & Ek & Ha).
    destruct (materializeMember_step st k info) as [E1|(Eg & Ec & E1)].
    + exists added. rewrite Ek, E1. auto.
    + exists (k :: added). split.
      * rewrite Ek, E1, keys_set. unfold JsObj.has. rewrite Eg.
        now rewrite <- app_assoc.
      * intros name [<-|Hn]; [|now apply Ha].
        exists (materializedMember k info). split.
        -- apply materializeMember_stays. rewrite E1. apply get_set_same.
        -- split.
           ++ unfold createdMember, materializedMember. simpl.
              split; [reflexivity|]. split; [reflexivity|]. split.
              ** destruct (ei_abstract info); [now left|].
                 destruct (ei_mixin info); [right; now left|].
                 right. right. simpl in Ec. now rewrite Ec.
              ** unfold appearsInLength. now rewrite Hk.
           ++ simpl. intros [= Ea]. apply materializeMember_abstract.
              revert E1. unfold materializeMember. simpl.
              rewrite Eg, Ec, Ea. reflexivity.
Qed.

Lemma members_writeBack tbl meta :
  optList (members (writeBack tbl meta))
  = map cleanMember
      (fst (fold_left materializeMember (ce_members tbl)
              (map (mergeMember tbl) (optList (members meta)),
               meta_abstract meta))).
Proof.
  unfold writeBack. simpl.
  now destruct (map cleanMember
                  (fst (fold_left materializeMember (ce_members tbl)
                          (map (mergeMember tbl) (optList (members meta)),
                           meta_abstract meta)))).
Qed.

Lemma fst_mergeMember tbl kv : fst (mergeMember tbl kv) = fst kv.
Proof.
  unfold mergeMember. destruct (String.eqb (m_type (snd kv)) "function");
    [|reflexivity].
  now destruct (JsObj.get (fst kv) (ce_members tbl)).
Qed.

Lemma get_cleanMember k (o : JsObj.t MemberMeta) :
  JsObj.get k (map cleanMember o)
  = match JsObj.get k o with
    | Some mm => Some (snd (cleanMember (k, mm)))
    | None => None
    end.
Proof.
  induction o as [|[k0 v0] o IH]; simpl; [reflexivity|].
  destruct (String.eqb_spec k k0) as [->|]; [reflexivity | exact IH].
Qed.

Section CreatedMembers.

Variable firstUp : string -> string.

(** X30: the members that the write-back creates.  When no class that the
    walk loads is named "length", the merged meta lists the members of the
    class first, in their order, and behind them the entries that the
    write-back created.  Each created entry is a function that is abstract,
    a mixin's or a property accessor; it has no [appearsIn], whatever its
    row holds; and when it is abstract the class is marked abstract. *)
Theorem write_back_creates_members
    (fuel : nat) (loadMeta : string -> option Meta) (meta merged : Meta) :
  (forall name m, loadMeta name = Some m -> className m <> "length") ->
  updateMetaData firstUp fuel loadMeta meta = Some merged ->
  exists added,
    JsObj.keys (optList (members merged))
    = JsObj.keys (optList (members meta)) ++ added /\
    forall name, In name added ->
      exists entry,
        JsObj.get name (optList (members merged)) = Some entry /\
        createdMember name entry /\
        (m_abstract entry = Some true -> meta_abstract merged = Some true).
Proof.
  intros Hl. unfold updateMetaData.
  destruct (analyseClassEntities firstUp fuel loadMeta meta true emptyEntities)
    as [tbl|] eqn:E; [|discriminate].
  intros [= <-].
  assert (Ht : noLengthKey (ce_members tbl)).
  { apply (analyseClassEntities_noLengthKey firstUp loadMeta fuel Hl
             meta true emptyEntities tbl); [discriminate | | exact E].
    split; constructor. }
  rewrite members_writeBack.
  assert (Hab : meta_abstract (writeBack tbl meta)
                = snd (fold_left materializeMember (ce_members tbl)
                         (map (mergeMember tbl) (optList (members meta)),
                          meta_abstract meta))) by reflexivity.
  rewrite Hab. clear Hab.
  set (ms0 := map (mergeMember tbl) (optList (members meta))).
  destruct (materializeMember_created (ce_members tbl)
              (ms0, meta_abstract meta) Ht) as (added & Ek & Ha).
  set (st := fold_left materializeMember (ce_members tbl)
               (ms0, meta_abstract meta)) in *.
  exists added. split.
  - unfold JsObj.keys in *. rewrite map_map. simpl fst in Ek.
    replace (map (fun x => fst (cleanMember x)) (fst st))
      with (map fst (fst st)) by (apply map_ext; now intros [k v]).
    rewrite Ek. f_equal. unfold ms0. rewrite map_map.
    apply map_ext. intros kv. apply fst_mergeMember.
  - intros name Hn. destruct (Ha name Hn) as (entry & Hg & Hc & Hab).
    exists (snd (cleanMember (name, entry))). split.
    + rewrite get_cleanMember. now rewrite Hg.
    + destruct Hc as (H1 & H2 & H3 & H4). split.
      * unfold createdMember. simpl. rewrite H4. auto.
      * simpl. exact Hab.
Qed.

End CreatedMembers.

(** X30 (witness): scenario S2, where "C" does not implement [bar] of its
    interface "I": the entry of [bar] is created, and it has no
    [appearsIn]. *)
Lemma write_back_creates_members_witness :
  match updateMetaData asciiFirstUp 5 (lookupMeta [("I", interfaceWithBar)])
          classWithoutBar with
  | Some merged =>
      exists entry,
        JsObj.get "bar" (optList (members merged)) = Some entry /\
        createdMember "bar" entry
  | None => False
  end.
Proof.
  destruct (updateMetaData asciiFirstUp 5
              (lookupMeta [("I", interfaceWithBar)]) classWithoutBar)
    as [merged|] eqn:E.
  - assert (Hl : forall name m,
              lookupMeta [("I", interfaceWithBar)] name = Some m ->
              className m <> "length").
    { intros name m. unfold lookupMeta. simpl.
      destruct (String.eqb name "I"); [|discriminate].
      intros [= <-]. discriminate. }
    destruct (write_back_creates_members asciiFirstUp _ _ _ _ Hl E)
      as (added & Ek & Ha).
    assert (Hin : In "bar" added).
    { vm_compute in E. injection E as <-. simpl in Ek.
      destruct added as [|a added]; [discriminate|].
      injection Ek as <- _. now left. }
    destruct (Ha "bar" Hin) as (entry & Hg & Hc & _).
    exists entry. auto.
  - vm_compute in E. discriminate.
Defined.

(** ** Instances *)

(** The framework is added before and after an application that has a
    class of the framework's name: the class resolves to the first copy,
    the namespace to the last. *)
Example lookup_first_and_last :
  let r := registryOf [qxLibrary; appLibrary; qxLibrary7] in
  option_map Libraries.getRootDir
    (Libraries.getLibraryFromClassname r "qx.core.Object")
  = Some "/opt/qx" /\
  Libraries.getQooxdooPath r = Done (Some "/opt/qx7") /\
  Libraries.getClassFilename r "app.Main"
  = Some "/home/app/source/class/app/Main.js" /\
  Libraries.getClassFilename r "app.Other" = None /\
  Libraries.getQooxdooPath (registryOf [appLibrary]) = Throws "TypeError" /\
  Libraries.getQooxdooVersion (registryOf [appLibrary]) None = (None, None).
Proof. repeat split; reflexivity. Qed.

Example resource_database_names :
  getResDbFilename (newDbFilename None) = "resource-db.json" /\
  getResDbFilename (newDbFilename (Some "")) = "resource-db.json" /\
  getResDbFilename "compiled/source/db.json"
  = "compiled/source/resource-db.json" /\
  getResDbFilename "/db.json" = "/resource-db.json" /\
  getResDbFilename "compiled/source/" = "resource-db.json".
Proof. repeat split; reflexivity. Qed.

(** The same message is recorded twice for "app.Main": line 12 is listed
    once when it comes as a number, and twice when it comes in an array. *)
Example references_recorded_twice :
  let entry := mkEntry "Hello" None None None in
  let one := mkTranslationSrc "Hello" None None (OneLine 12) in
  let many := mkTranslationSrc "Hello" None None (Lines [12%Z; 30%Z]) in
  referencesOf
    (recordTranslation "app.Main" one (recordTranslation "app.Main" one entry))
    "app/Main.js" = [12%Z] /\
  referencesOf
    (recordTranslation "app.Main" many
       (recordTranslation "app.Main" many entry))
    "app/Main.js" = [12%Z; 30%Z; 12%Z; 30%Z].
Proof. split; reflexivity. Qed.

(** A new analyser, a [db.json] of one line break, and [getClassInfo]
    twice: "app.A" is compiled, its row is in the database, and the second
    call finds it fresh. *)
Example database_from_blank_file :
  exists db w' db' info,
    loadDatabase (fun _ => Throws "parse") (DbFileText nl) None = Done db /\
    getCachedClassInfo db "app.A" = Throws "TypeError" /\
    getClassInfoOn appClassFile appSources db "app.A" false
    = (w', db', GotInfo info,
       Some (mkCompiledClass info None "app.A" None)) /\
    depNames info = ["app.B"; "app.C"] /\
    getCachedClassInfo db' "app.A" = Done (Is info) /\
    getCachedClassInfo db' "app.B" = Done NoKey /\
    getClassInfoOn appClassFile w' db' "app.A" false
    = (w', db', GotInfo info, None).
Proof. do 4 eexists. repeat split; reflexivity. Qed.
